(** * Entity simulation and combat resolution

    A shallow embedding of the combat core of the game: the classes
    [Stats], [StatusEffect], [CombatStats] and [Entity] of [entities.py],
    the classes [CombatInstance] and [CombatManager] of [combat.py] and
    the class [Inventory] of [inventory.py] with the items of
    [items.py], followed by the properties of these definitions.

    Conventions of the embedding.

    - Python numbers ([int] and [float]) are exact rationals [Q]; two
      numbers that Python compares with [==] are compared with [==] on
      [Q].  [round(x, 1)] rounds the exact value to the nearest tenth,
      ties to the even tenth.  What the rounding of binary64 numbers
      adds to [_calculate_damage] is computed in the module
      [Binary64].
    - A [dict] whose order of insertion matters, or whose keys are
      looked up one at a time, is an association list in insertion
      order; a lookup returns the first binding of the key.
    - A method that mutates [self] is a function from the state before
      the call to an [Outcome], which holds the state after the call and
      either the returned value or the exception that left the method.
      A Python exception keeps every mutation made before it was raised.
    - [random.random()] reads the next value of an explicit tape.
    - [time.time()] and [game_config.get('game_time', 0)] are arguments.
    - Objects are held by value: the two participants of an attack or
      of a combat session are distinct objects. *)

From Stdlib Require Import QArith Qround ZArith List String Ascii Bool Lia Lqa.
From Stdlib Require PrimFloat FloatOps SpecFloat Uint63.
Import ListNotations.
Local Open Scope Q_scope.

(** ** Numbers *)

Definition Qltb (x y : Q) : bool := negb (Qle_bool y x).
Definition Qleb (x y : Q) : bool := Qle_bool x y.

(** [max(a, b)] and [min(a, b)] keep the first argument unless the
    second is strictly better. *)
Definition py_max (a b : Q) : Q := if Qltb a b then b else a.
Definition py_min (a b : Q) : Q := if Qltb b a then b else a.

(** [min(a, m)] where [m] may be [float('inf')] ([None]). *)
Definition py_min_inf (a : Q) (m : option Q) : Q :=
  match m with
  | Some b => py_min a b
  | None => a
  end.

(** Nearest integer, ties to even. *)
Definition round_half_even (y : Q) : Z :=
  let f := Qfloor y in
  let r := y - inject_Z f in
  if Qltb r (1 # 2) then f
  else if Qltb (1 # 2) r then (f + 1)%Z
  else if Z.even f then f else (f + 1)%Z.

(** [round(x, 1)]. *)
Definition round1 (x : Q) : Q := inject_Z (round_half_even (x * 10)) / 10.

(** ** Binary64 numbers *)

(** Python's [float] is the binary64 format of IEEE 754, and its
    arithmetic rounds every result to the nearest number of the
    format.  The definitions of the model compute on exact rationals;
    this module carries out the arithmetic of [_calculate_damage] on
    binary64 numbers, to show what their rounding adds. *)
Module Binary64.
Import PrimFloat.

(** The exact value of a finite number. *)
Definition value (x : float) : option Q :=
  match FloatOps.Prim2SF x with
  | SpecFloat.S754_zero _ => Some 0
  | SpecFloat.S754_finite s m e =>
      Some ((if s then - (1) else 1) * inject_Z (Zpos m) * Qpower 2 e)
  | SpecFloat.S754_infinity _ => None
  | SpecFloat.S754_nan => None
  end.

(** The number of an integer below 2^53 in absolute value. *)
Definition of_Z (k : Z) : float :=
  match k with
  | Z0 => zero
  | Zpos p => of_uint63 (Uint63.of_Z (Zpos p))
  | Zneg p => opp (of_uint63 (Uint63.of_Z (Zpos p)))
  end.

(** [round(x, 1)]: the decimal with one digit after the point that
    is nearest to the exact value of [x], ties to the even digit,
    converted back to the nearest binary64 number.  From 2^49 on the
    numbers are 1/8 or more apart, and the result is [x] itself; so
    it is for an infinity and for a NaN. *)
Definition round1 (x : float) : float :=
  match value x with
  | Some q =>
      if leb 0x1p49 (abs x) then x
      else div (of_Z (round_half_even (q * 10))) (of_Z 10)
  | None => x
  end.

(** [_calculate_damage] for a damage type without resistance and an
    actor without status effects whose [current_stats] reads
    [defense]: [damage = base_damage * (1 - 0)], then
    [defense_reduction = defense / (defense + 100)],
    [damage *= (1 - defense_reduction)] and
    [round(max(0, damage), 1)]. *)
Definition _calculate_damage (base_damage defense : float) : float :=
  let damage := mul base_damage (of_Z (1 - 0)) in
  let defense_reduction := div defense (add defense (of_Z 100)) in
  let damage := mul damage (sub (of_Z 1) defense_reduction) in
  round1 (if ltb zero damage then damage else zero).

End Binary64.

(** ** Dictionaries *)

Fixpoint dict_get {V : Type} (d : list (string * V)) (k : string) : option V :=
  match d with
  | [] => None
  | (k', v) :: rest => if String.eqb k' k then Some v else dict_get rest k
  end.

(** [d[k] = v]: replaces the value of an existing key in place, or
    appends a new binding. *)
Fixpoint dict_set {V : Type} (d : list (string * V)) (k : string) (v : V)
  : list (string * V) :=
  match d with
  | [] => [(k, v)]
  | (k', v') :: rest =>
      if String.eqb k' k then (k, v) :: rest else (k', v') :: dict_set rest k v
  end.

Definition dict_values {V : Type} (d : list (string * V)) : list V :=
  map snd d.

(** [sum(xs)]. *)
Definition py_sum (xs : list Q) : Q := fold_left Qplus xs 0.

(** ** Exceptions and outcomes *)

Inductive exn : Type :=
  | ZeroDivisionError
  | AttributeError
  | KeyError
  | TypeError
  | ValueError.

Inductive Outcome (S A : Type) : Type :=
  | Ok (s : S) (a : A)
  | Raise (s : S) (e : exn).
Arguments Ok {S A} s a.
Arguments Raise {S A} s e.

Definition final {S A : Type} (o : Outcome S A) : S :=
  match o with
  | Ok s _ => s
  | Raise s _ => s
  end.

Definition returned {S A : Type} (o : Outcome S A) : option A :=
  match o with
  | Ok _ a => Some a
  | Raise _ _ => None
  end.

Definition raised {S A : Type} (o : Outcome S A) : option exn :=
  match o with
  | Ok _ _ => None
  | Raise _ e => Some e
  end.

(** A computation over a mutable state [S]. *)
Definition M (S A : Type) : Type := S -> Outcome S A.

Definition ret {S A : Type} (a : A) : M S A := fun s => Ok s a.
Definition raise {S A : Type} (e : exn) : M S A := fun s => Raise s e.
Definition bind {S A B : Type} (m : M S A) (k : A -> M S B) : M S B :=
  fun s =>
    match m s with
    | Ok s' a => k a s'
    | Raise s' e => Raise s' e
    end.
Definition get {S : Type} : M S S := fun s => Ok s s.
Definition put {S : Type} (s : S) : M S unit := fun _ => Ok s tt.
Definition modify {S : Type} (f : S -> S) : M S unit := fun s => Ok (f s) tt.

Declare Scope py_scope.
Delimit Scope py_scope with py.
Notation "x <- m ;; k" := (bind m (fun x => k))
  (at level 100, m at next level, right associativity) : py_scope.
Notation "m ;;; k" := (bind m (fun _ => k))
  (at level 100, right associativity) : py_scope.

(** ** The random source *)

Module Rng.
Record t : Type := { tape : nat -> Q; pos : nat }.

(** [random.random()] *)
Definition random (r : t) : Q * t :=
  (tape r (pos r), {| tape := tape r; pos := S (pos r) |}).

(** A source that returns [q] forever. *)
Definition const (q : Q) : t := {| tape := fun _ => q; pos := 0 |}.
End Rng.

(** ** [Position] *)

Module Position.
Record t : Type := { x : Q; y : Q; z : Q }.

Definition origin : t := {| x := 0; y := 0; z := 0 |}.

(** The square of [distance_to]. *)
Definition distance_sq (self other : t) : Q :=
  (x self - x other) * (x self - x other)
  + (y self - y other) * (y self - y other)
  + (z self - z other) * (z self - z other).

(** [self.distance_to(other) <= r].  The distance is a square root,
    so it is non-negative and compares with [r] as its square does
    with the square of [r]. *)
Definition distance_le (self other : t) (r : Q) : bool :=
  if Qltb r 0 then false else Qleb (distance_sq self other) (r * r).
End Position.

(** ** [Stats] *)

Module Stats.
Record t : Type := {
  health : Q;
  max_health : Q;
  stamina : Q;
  max_stamina : Q;
  mana : Q;
  max_mana : Q;
  strength : Q;
  defense : Q;
  agility : Q;
  intelligence : Q;
  critical_chance : Q;
  dodge_chance : Q
}.

(** [Stats()] with every default. *)
Definition default : t := {|
  health := 100; max_health := 100;
  stamina := 100; max_stamina := 100;
  mana := 0; max_mana := 0;
  strength := 10; defense := 5; agility := 10; intelligence := 10;
  critical_chance := 5 # 100; dodge_chance := 5 # 100
|}.

(** [getattr(self, stat_name)]; [None] when [hasattr] is false.  The
    attributes are the twelve fields of the dataclass; names of
    methods and of Python's own attributes are not stat names. *)
Definition getattr (self : t) (stat_name : string) : option Q :=
  if String.eqb stat_name "health" then Some (health self)
  else if String.eqb stat_name "max_health" then Some (max_health self)
  else if String.eqb stat_name "stamina" then Some (stamina self)
  else if String.eqb stat_name "max_stamina" then Some (max_stamina self)
  else if String.eqb stat_name "mana" then Some (mana self)
  else if String.eqb stat_name "max_mana" then Some (max_mana self)
  else if String.eqb stat_name "strength" then Some (strength self)
  else if String.eqb stat_name "defense" then Some (defense self)
  else if String.eqb stat_name "agility" then Some (agility self)
  else if String.eqb stat_name "intelligence" then Some (intelligence self)
  else if String.eqb stat_name "critical_chance" then Some (critical_chance self)
  else if String.eqb stat_name "dodge_chance" then Some (dodge_chance self)
  else None.

Definition set_health (v : Q) (s : t) : t :=
  {| health := v; max_health := max_health s; stamina := stamina s;
     max_stamina := max_stamina s; mana := mana s; max_mana := max_mana s;
     strength := strength s; defense := defense s; agility := agility s;
     intelligence := intelligence s; critical_chance := critical_chance s;
     dodge_chance := dodge_chance s |}.
Definition set_max_health (v : Q) (s : t) : t :=
  {| health := health s; max_health := v; stamina := stamina s;
     max_stamina := max_stamina s; mana := mana s; max_mana := max_mana s;
     strength := strength s; defense := defense s; agility := agility s;
     intelligence := intelligence s; critical_chance := critical_chance s;
     dodge_chance := dodge_chance s |}.
Definition set_stamina (v : Q) (s : t) : t :=
  {| health := health s; max_health := max_health s; stamina := v;
     max_stamina := max_stamina s; mana := mana s; max_mana := max_mana s;
     strength := strength s; defense := defense s; agility := agility s;
     intelligence := intelligence s; critical_chance := critical_chance s;
     dodge_chance := dodge_chance s |}.
Definition set_max_stamina (v : Q) (s : t) : t :=
  {| health := health s; max_health := max_health s; stamina := stamina s;
     max_stamina := v; mana := mana s; max_mana := max_mana s;
     strength := strength s; defense := defense s; agility := agility s;
     intelligence := intelligence s; critical_chance := critical_chance s;
     dodge_chance := dodge_chance s |}.
Definition set_mana (v : Q) (s : t) : t :=
  {| health := health s; max_health := max_health s; stamina := stamina s;
     max_stamina := max_stamina s; mana := v; max_mana := max_mana s;
     strength := strength s; defense := defense s; agility := agility s;
     intelligence := intelligence s; critical_chance := critical_chance s;
     dodge_chance := dodge_chance s |}.
Definition set_max_mana (v : Q) (s : t) : t :=
  {| health := health s; max_health := max_health s; stamina := stamina s;
     max_stamina := max_stamina s; mana := mana s; max_mana := v;
     strength := strength s; defense := defense s; agility := agility s;
     intelligence := intelligence s; critical_chance := critical_chance s;
     dodge_chance := dodge_chance s |}.
Definition set_strength (v : Q) (s : t) : t :=
  {| health := health s; max_health := max_health s; stamina := stamina s;
     max_stamina := max_stamina s; mana := mana s; max_mana := max_mana s;
     strength := v; defense := defense s; agility := agility s;
     intelligence := intelligence s; critical_chance := critical_chance s;
     dodge_chance := dodge_chance s |}.
Definition set_defense (v : Q) (s : t) : t :=
  {| health := health s; max_health := max_health s; stamina := stamina s;
     max_stamina := max_stamina s; mana := mana s; max_mana := max_mana s;
     strength := strength s; defense := v; agility := agility s;
     intelligence := intelligence s; critical_chance := critical_chance s;
     dodge_chance := dodge_chance s |}.
Definition set_agility (v : Q) (s : t) : t :=
  {| health := health s; max_health := max_health s; stamina := stamina s;
     max_stamina := max_stamina s; mana := mana s; max_mana := max_mana s;
     strength := strength s; defense := defense s; agility := v;
     intelligence := intelligence s; critical_chance := critical_chance s;
     dodge_chance := dodge_chance s |}.
Definition set_intelligence (v : Q) (s : t) : t :=
  {| health := health s; max_health := max_health s; stamina := stamina s;
     max_stamina := max_stamina s; mana := mana s; max_mana := max_mana s;
     strength := strength s; defense := defense s; agility := agility s;
     intelligence := v; critical_chance := critical_chance s;
     dodge_chance := dodge_chance s |}.
Definition set_critical_chance (v : Q) (s : t) : t :=
  {| health := health s; max_health := max_health s; stamina := stamina s;
     max_stamina := max_stamina s; mana := mana s; max_mana := max_mana s;
     strength := strength s; defense := defense s; agility := agility s;
     intelligence := intelligence s; critical_chance := v;
     dodge_chance := dodge_chance s |}.
Definition set_dodge_chance (v : Q) (s : t) : t :=
  {| health := health s; max_health := max_health s; stamina := stamina s;
     max_stamina := max_stamina s; mana := mana s; max_mana := max_mana s;
     strength := strength s; defense := defense s; agility := agility s;
     intelligence := intelligence s; critical_chance := critical_chance s;
     dodge_chance := v |}.

(** [setattr(self, stat_name, v)] for a name that is a field. *)
Definition setattr (self : t) (stat_name : string) (v : Q) : t :=
  if String.eqb stat_name "health" then set_health v self
  else if String.eqb stat_name "max_health" then set_max_health v self
  else if String.eqb stat_name "stamina" then set_stamina v self
  else if String.eqb stat_name "max_stamina" then set_max_stamina v self
  else if String.eqb stat_name "mana" then set_mana v self
  else if String.eqb stat_name "max_mana" then set_max_mana v self
  else if String.eqb stat_name "strength" then set_strength v self
  else if String.eqb stat_name "defense" then set_defense v self
  else if String.eqb stat_name "agility" then set_agility v self
  else if String.eqb stat_name "intelligence" then set_intelligence v self
  else if String.eqb stat_name "critical_chance" then set_critical_chance v self
  else if String.eqb stat_name "dodge_chance" then set_dodge_chance v self
  else self.

(** [stat_name.startswith('max_')] *)
Definition is_max_name (stat_name : string) : bool :=
  String.prefix "max_" stat_name.

Definition modify_stat (self : t) (stat_name : string) (value : Q)
    (is_percentage : bool) : t :=
  match getattr self stat_name with
  | None => self
  | Some current_value =>
      let new_value :=
        if is_percentage then current_value * (1 + value)
        else current_value + value in
      let new_value :=
        if is_max_name stat_name then py_max 1 new_value
        else
          let max_stat := getattr self ("max_" ++ stat_name) in
          py_min_inf (py_max 0 new_value) max_stat in
      setattr self stat_name new_value
  end.
End Stats.

(** ** [StatusEffect] *)

Module StatusEffect.
Record t : Type := {
  name : string;
  type : string;
  stat_modifiers : list (string * Q);
  duration : Z;
  tick_interval : Q;
  last_tick : Q;
  description : string;
  is_permanent : bool;
  can_stack : bool;
  icon : string
}.

Definition set_duration (d : Z) (e : t) : t :=
  {| name := name e; type := type e; stat_modifiers := stat_modifiers e;
     duration := d; tick_interval := tick_interval e;
     last_tick := last_tick e; description := description e;
     is_permanent := is_permanent e; can_stack := can_stack e;
     icon := icon e |}.

Definition set_last_tick (v : Q) (e : t) : t :=
  {| name := name e; type := type e; stat_modifiers := stat_modifiers e;
     duration := duration e; tick_interval := tick_interval e;
     last_tick := v; description := description e;
     is_permanent := is_permanent e; can_stack := can_stack e;
     icon := icon e |}.

(** [apply(self, target)] mutates [target.stats] only; the embedding
    takes and returns that record. *)
Definition apply (self : t) (target_stats : Stats.t) : Stats.t :=
  fold_left
    (fun s sm => Stats.modify_stat s (fst sm) (snd sm) true)
    (stat_modifiers self) target_stats.

(** [remove(self, target)], on [target.stats] as [apply]. *)
Definition remove (self : t) (target_stats : Stats.t) : Stats.t :=
  fold_left
    (fun s sm => Stats.modify_stat s (fst sm) (- snd sm) true)
    (stat_modifiers self) target_stats.

(** Equality of two [dict]s: the same keys with equal values, in any
    order. *)
Definition option_Qeqb (a b : option Q) : bool :=
  match a, b with
  | Some u, Some v => Qeq_bool u v
  | _, _ => false
  end.

Definition dict_eqb (d1 d2 : list (string * Q)) : bool :=
  Nat.eqb (List.length d1) (List.length d2)
  && forallb (fun kv => option_Qeqb (Some (snd kv)) (dict_get d2 (fst kv))) d1.

(** The [__eq__] that [@dataclass] generates: field by field. *)
Definition eqb (a b : t) : bool :=
  String.eqb (name a) (name b)
  && String.eqb (type a) (type b)
  && dict_eqb (stat_modifiers a) (stat_modifiers b)
  && Z.eqb (duration a) (duration b)
  && Qeq_bool (tick_interval a) (tick_interval b)
  && Qeq_bool (last_tick a) (last_tick b)
  && String.eqb (description a) (description b)
  && Bool.eqb (is_permanent a) (is_permanent b)
  && Bool.eqb (can_stack a) (can_stack b)
  && String.eqb (icon a) (icon b).

(** [list.remove(x)]: drops the first element equal to [x]; [None]
    stands for the [ValueError] of a list without such an element. *)
Fixpoint list_remove (l : list t) (x : t) : option (list t) :=
  match l with
  | [] => None
  | e :: rest =>
      if eqb e x then Some rest
      else match list_remove rest x with
           | Some rest' => Some (e :: rest')
           | None => None
           end
  end.

(** [sum(self.stat_modifiers.values())] *)
Definition sum_modifiers (self : t) : Q :=
  py_sum (dict_values (stat_modifiers self)).
End StatusEffect.

(** ** [CombatStats] *)

Module CombatStats.
Record t : Type := {
  damage_dealt : Q;
  damage_taken : Q;
  healing_done : Q;
  critical_hits : Z;
  dodges : Z;
  kills : Z;
  deaths : Z;
  longest_combat : Q;
  highest_damage : Q;
  highest_combo : Z
}.

(** [CombatStats()] *)
Definition init : t := {|
  damage_dealt := 0; damage_taken := 0; healing_done := 0;
  critical_hits := 0; dodges := 0; kills := 0; deaths := 0;
  longest_combat := 0; highest_damage := 0; highest_combo := 0
|}.

Definition set_damage_dealt (v : Q) (c : t) : t :=
  {| damage_dealt := v; damage_taken := damage_taken c;
     healing_done := healing_done c; critical_hits := critical_hits c;
     dodges := dodges c; kills := kills c; deaths := deaths c;
     longest_combat := longest_combat c; highest_damage := highest_damage c;
     highest_combo := highest_combo c |}.
Definition set_damage_taken (v : Q) (c : t) : t :=
  {| damage_dealt := damage_dealt c; damage_taken := v;
     healing_done := healing_done c; critical_hits := critical_hits c;
     dodges := dodges c; kills := kills c; deaths := deaths c;
     longest_combat := longest_combat c; highest_damage := highest_damage c;
     highest_combo := highest_combo c |}.
Definition set_healing_done (v : Q) (c : t) : t :=
  {| damage_dealt := damage_dealt c; damage_taken := damage_taken c;
     healing_done := v; critical_hits := critical_hits c;
     dodges := dodges c; kills := kills c; deaths := deaths c;
     longest_combat := longest_combat c; highest_damage := highest_damage c;
     highest_combo := highest_combo c |}.
Definition set_critical_hits (v : Z) (c : t) : t :=
  {| damage_dealt := damage_dealt c; damage_taken := damage_taken c;
     healing_done := healing_done c; critical_hits := v;
     dodges := dodges c; kills := kills c; deaths := deaths c;
     longest_combat := longest_combat c; highest_damage := highest_damage c;
     highest_combo := highest_combo c |}.
Definition set_dodges (v : Z) (c : t) : t :=
  {| damage_dealt := damage_dealt c; damage_taken := damage_taken c;
     healing_done := healing_done c; critical_hits := critical_hits c;
     dodges := v; kills := kills c; deaths := deaths c;
     longest_combat := longest_combat c; highest_damage := highest_damage c;
     highest_combo := highest_combo c |}.
Definition set_deaths (v : Z) (c : t) : t :=
  {| damage_dealt := damage_dealt c; damage_taken := damage_taken c;
     healing_done := healing_done c; critical_hits := critical_hits c;
     dodges := dodges c; kills := kills c; deaths := v;
     longest_combat := longest_combat c; highest_damage := highest_damage c;
     highest_combo := highest_combo c |}.
Definition set_highest_damage (v : Q) (c : t) : t :=
  {| damage_dealt := damage_dealt c; damage_taken := damage_taken c;
     healing_done := healing_done c; critical_hits := critical_hits c;
     dodges := dodges c; kills := kills c; deaths := deaths c;
     longest_combat := longest_combat c; highest_damage := v;
     highest_combo := highest_combo c |}.

Definition update_damage_stats (self : t) (damage : Q) (is_critical : bool) : t :=
  let self := set_damage_dealt (damage_dealt self + damage) self in
  let self :=
    if Qltb (highest_damage self) damage
    then set_highest_damage damage self else self in
  if is_critical
  then set_critical_hits (critical_hits self + 1)%Z self
  else self.
End CombatStats.

(** ** The inventory of an entity *)

Module Inventory.
(** Modelled from the spec: the item and equipment provider of an
    entity, whose class in [inventory.py] has none of the methods
    that [entities.py] and [combat.py] call.  Given the equipped
    items, it returns a mapping from stat names to additive
    modifiers and a mapping from resource names to regeneration
    multipliers; [has_item] answers a requirement on a number of
    items; [equipped_weapon] is [equipped.get('weapon')], reduced to
    the weapon's [properties.get('damage', 0)]. *)
Record t : Type := {
  get_equipment_modifiers : list (string * Q);
  get_regeneration_modifiers : list (string * Q);
  has_item : string -> Z -> bool;
  equipped_weapon : option Q
}.

Definition empty : t := {|
  get_equipment_modifiers := [];
  get_regeneration_modifiers := [];
  has_item := fun _ _ => false;
  equipped_weapon := None
|}.
End Inventory.

(** ** Abilities *)

Module Ability.
(** [ability_data.get('cost', 0)]: the number [0] (or another
    number) when the data gives no dictionary of costs. *)
Inductive Cost : Type :=
  | CostNumber (n : Q)
  | CostDict (d : list (string * Q)).

(** [requirements]: a dictionary with the optional keys ['level'],
    ['stats'], ['skills'] and ['items']. *)
Record Requirements : Type := {
  level : option Z;
  stats : option (list (string * Q));
  skills : option (list (string * Q));
  items : option (list (string * Z))
}.

Definition no_requirements : Requirements :=
  {| level := None; stats := None; skills := None; items := None |}.

(** The dictionary that [_load_abilities] builds.  It has exactly
    these keys: ['skill_type'], ['damage_type'] and
    ['visual_effects'], which [use_ability] also reads, are never
    among them.  An element of [effects] is the [StatusEffect] that
    the constructor builds from one [effect_data]. *)
Record t : Type := {
  name : string;
  damage : Q;
  cooldown : Q;
  cost : Cost;
  effects : list StatusEffect.t;
  requirements : Requirements;
  range : Q;
  area_of_effect : Q;
  cast_time : Q;
  description : string
}.

(** [ability['cost'].get(resource, 0)]; a number has no [get]. *)
Definition cost_get {S : Type} (self : t) (resource : string) : M S Q :=
  match cost self with
  | CostNumber _ => raise AttributeError
  | CostDict d =>
      ret (match dict_get d resource with Some v => v | None => 0 end)
  end.
End Ability.

(** ** What a call reports *)

Inductive Message : Type :=
  | MsgEmpty
  | MsgUnknownAbility
  | MsgOnCooldown (remaining : Q)
  | MsgNoStamina
  | MsgNoMana
  | MsgRequirementsNotMet
  | MsgOutOfRange
  | MsgDodged (target_name ability_name : string)
  | MsgUsed (ability_name : string) (actual_damage : Q) (critical : bool).

Inductive EffectReport : Type :=
  | ReportDamage (target_id : string) (amount : Q) (critical : bool)
  | ReportEffect (target_id : string) (effect_name : string).

(** [for x in l: body(x)] over a list that the body does not change. *)
Fixpoint for_each {S A : Type} (l : list A) (body : A -> M S unit) : M S unit :=
  match l with
  | [] => ret tt
  | a :: rest => bind (body a) (fun _ => for_each rest body)
  end.

(** Runs a computation on a part of the state. *)
Definition zoom {S T A : Type} (proj : S -> T) (upd : T -> S -> S)
    (m : M T A) : M S A :=
  fun s =>
    match m (proj s) with
    | Ok t a => Ok (upd t s) a
    | Raise t e => Raise (upd t s) e
    end.

(** [l[i] = v] on an index in range; an index out of range leaves the
    list as it is (no caller passes one). *)
Fixpoint list_set {A : Type} (i : nat) (v : A) (l : list A) {struct l}
  : list A :=
  match l, i with
  | [], _ => []
  | _ :: rest, O => v :: rest
  | a :: rest, S i' => a :: list_set i' v rest
  end.

(** ** [Entity] *)

Module Entity.
Record t : Type := {
  id : string;
  name : string;
  description : string;
  level : Z;
  stats : Stats.t;
  position : Position.t;
  status_effects : list StatusEffect.t;
  is_alive : bool;
  is_stunned : bool;
  is_invisible : bool;
  in_combat : bool;
  last_attack_time : Q;
  attack_cooldown : Q;
  combat_stats : CombatStats.t;
  inventory : option Inventory.t;
  gold : Z;
  abilities : list (string * Ability.t);
  resistances : list (string * Q);
  skill_bonuses : list (string * Q);
  _cooldowns : list (string * Q);
  (** [hasattr(self, 'get_skill_level')]: the skill provider of a
      player-like entity, absent on the others. *)
  get_skill_level : option (list string -> Q);
  (** [hasattr(self, 'get_cooldown_reduction')] *)
  get_cooldown_reduction : option Q
}.

(** [Entity(entity_id, data)] for [data] with a name, a type, the
    given stats and nothing else. *)
Definition init (entity_id : string) (data_name : string)
    (stats_data : Stats.t) : t := {|
  id := entity_id; name := data_name; description := EmptyString; level := 1;
  stats := stats_data; position := Position.origin;
  status_effects := [];
  is_alive := true; is_stunned := false; is_invisible := false;
  in_combat := false; last_attack_time := 0; attack_cooldown := 1;
  combat_stats := CombatStats.init;
  inventory := None; gold := 0;
  abilities := []; resistances := []; skill_bonuses := [];
  _cooldowns := [];
  get_skill_level := None; get_cooldown_reduction := None
|}.

Definition set_stats (v : Stats.t) (e : t) : t :=
  {| id := id e; name := name e; description := description e;
     level := level e; stats := v; position := position e;
     status_effects := status_effects e; is_alive := is_alive e;
     is_stunned := is_stunned e; is_invisible := is_invisible e;
     in_combat := in_combat e; last_attack_time := last_attack_time e;
     attack_cooldown := attack_cooldown e; combat_stats := combat_stats e;
     inventory := inventory e; gold := gold e; abilities := abilities e;
     resistances := resistances e; skill_bonuses := skill_bonuses e;
     _cooldowns := _cooldowns e; get_skill_level := get_skill_level e;
     get_cooldown_reduction := get_cooldown_reduction e |}.
Definition set_status_effects (v : list StatusEffect.t) (e : t) : t :=
  {| id := id e; name := name e; description := description e;
     level := level e; stats := stats e; position := position e;
     status_effects := v; is_alive := is_alive e;
     is_stunned := is_stunned e; is_invisible := is_invisible e;
     in_combat := in_combat e; last_attack_time := last_attack_time e;
     attack_cooldown := attack_cooldown e; combat_stats := combat_stats e;
     inventory := inventory e; gold := gold e; abilities := abilities e;
     resistances := resistances e; skill_bonuses := skill_bonuses e;
     _cooldowns := _cooldowns e; get_skill_level := get_skill_level e;
     get_cooldown_reduction := get_cooldown_reduction e |}.
Definition set_is_alive (v : bool) (e : t) : t :=
  {| id := id e; name := name e; description := description e;
     level := level e; stats := stats e; position := position e;
     status_effects := status_effects e; is_alive := v;
     is_stunned := is_stunned e; is_invisible := is_invisible e;
     in_combat := in_combat e; last_attack_time := last_attack_time e;
     attack_cooldown := attack_cooldown e; combat_stats := combat_stats e;
     inventory := inventory e; gold := gold e; abilities := abilities e;
     resistances := resistances e; skill_bonuses := skill_bonuses e;
     _cooldowns := _cooldowns e; get_skill_level := get_skill_level e;
     get_cooldown_reduction := get_cooldown_reduction e |}.
Definition set_in_combat (v : bool) (e : t) : t :=
  {| id := id e; name := name e; description := description e;
     level := level e; stats := stats e; position := position e;
     status_effects := status_effects e; is_alive := is_alive e;
     is_stunned := is_stunned e; is_invisible := is_invisible e;
     in_combat := v; last_attack_time := last_attack_time e;
     attack_cooldown := attack_cooldown e; combat_stats := combat_stats e;
     inventory := inventory e; gold := gold e; abilities := abilities e;
     resistances := resistances e; skill_bonuses := skill_bonuses e;
     _cooldowns := _cooldowns e; get_skill_level := get_skill_level e;
     get_cooldown_reduction := get_cooldown_reduction e |}.
Definition set_last_attack_time (v : Q) (e : t) : t :=
  {| id := id e; name := name e; description := description e;
     level := level e; stats := stats e; position := position e;
     status_effects := status_effects e; is_alive := is_alive e;
     is_stunned := is_stunned e; is_invisible := is_invisible e;
     in_combat := in_combat e; last_attack_time := v;
     attack_cooldown := attack_cooldown e; combat_stats := combat_stats e;
     inventory := inventory e; gold := gold e; abilities := abilities e;
     resistances := resistances e; skill_bonuses := skill_bonuses e;
     _cooldowns := _cooldowns e; get_skill_level := get_skill_level e;
     get_cooldown_reduction := get_cooldown_reduction e |}.
Definition set_combat_stats (v : CombatStats.t) (e : t) : t :=
  {| id := id e; name := name e; description := description e;
     level := level e; stats := stats e; position := position e;
     status_effects := status_effects e; is_alive := is_alive e;
     is_stunned := is_stunned e; is_invisible := is_invisible e;
     in_combat := in_combat e; last_attack_time := last_attack_time e;
     attack_cooldown := attack_cooldown e; combat_stats := v;
     inventory := inventory e; gold := gold e; abilities := abilities e;
     resistances := resistances e; skill_bonuses := skill_bonuses e;
     _cooldowns := _cooldowns e; get_skill_level := get_skill_level e;
     get_cooldown_reduction := get_cooldown_reduction e |}.
Definition set__cooldowns (v : list (string * Q)) (e : t) : t :=
  {| id := id e; name := name e; description := description e;
     level := level e; stats := stats e; position := position e;
     status_effects := status_effects e; is_alive := is_alive e;
     is_stunned := is_stunned e; is_invisible := is_invisible e;
     in_combat := in_combat e; last_attack_time := last_attack_time e;
     attack_cooldown := attack_cooldown e; combat_stats := combat_stats e;
     inventory := inventory e; gold := gold e; abilities := abilities e;
     resistances := resistances e; skill_bonuses := skill_bonuses e;
     _cooldowns := v; get_skill_level := get_skill_level e;
     get_cooldown_reduction := get_cooldown_reduction e |}.

(** [self.stats.f = v] and [self.combat_stats.f = v] *)
Definition on_stats (f : Stats.t -> Stats.t) (e : t) : t :=
  set_stats (f (stats e)) e.
Definition on_combat_stats (f : CombatStats.t -> CombatStats.t) (e : t) : t :=
  set_combat_stats (f (combat_stats e)) e.

(** The state of a call that draws random numbers. *)
Definition St : Type := (t * Rng.t)%type.

Definition on_self {A : Type} (m : M t A) : M St A :=
  zoom fst (fun e s => (e, snd s)) m.

(** [random.random()] *)
Definition random : M St Q :=
  fun s => let (q, r) := Rng.random (snd s) in Ok (fst s, r) q.

Local Open Scope py_scope.

(** *** [current_stats] *)

(** The copy of the stats that [current_stats] builds.  [setattr] on
    a name that is no field gives the copy a new attribute, kept in
    [extra]. *)
Record Modified : Type := {
  fields : Stats.t;
  extra : list (string * Q)
}.

Definition modified_getattr (m : Modified) (stat : string) : option Q :=
  match Stats.getattr (fields m) stat with
  | Some v => Some v
  | None => dict_get (extra m) stat
  end.

Definition modified_setattr (m : Modified) (stat : string) (v : Q) : Modified :=
  match Stats.getattr (fields m) stat with
  | Some _ => {| fields := Stats.setattr (fields m) stat v; extra := extra m |}
  | None => {| fields := fields m; extra := dict_set (extra m) stat v |}
  end.

(** One pass of the inner loop over [effect.stat_modifiers.items()]. *)
Definition apply_modifier (m : Modified) (sm : string * Q) : Modified :=
  let current_value :=
    match modified_getattr m (fst sm) with Some v => v | None => 0 end in
  let modified_value := current_value * (1 + snd sm) in
  modified_setattr m (fst sm) modified_value.

(** One pass of the loop over [equipment_modifiers.items()]. *)
Definition apply_equipment (m : Modified) (sm : string * Q) : Modified :=
  match modified_getattr m (fst sm) with
  | Some current_value => modified_setattr m (fst sm) (current_value + snd sm)
  | None => m
  end.

Definition current_stats (self : t) : Modified :=
  let modified_stats := {| fields := stats self; extra := [] |} in
  let modified_stats :=
    fold_left
      (fun m effect =>
         fold_left apply_modifier (StatusEffect.stat_modifiers effect) m)
      (status_effects self) modified_stats in
  match inventory self with
  | Some inv =>
      fold_left apply_equipment (Inventory.get_equipment_modifiers inv)
        modified_stats
  | None => modified_stats
  end.

(** The loops of the form
    [for effect in self.status_effects:
       if key in effect.stat_modifiers: acc = step(acc, modifiers[key])]. *)
Definition fold_modifier (key : string) (step : Q -> Q -> Q)
    (effects : list StatusEffect.t) (acc : Q) : Q :=
  fold_left
    (fun a effect =>
       match dict_get (StatusEffect.stat_modifiers effect) key with
       | Some v => step a v
       | None => a
       end)
    effects acc.

(** *** Dodging *)

(** The value of the local [dodge_chance] of [_try_dodge] when it is
    compared with the random number. *)
Definition dodge_chance_rolled (self : t) : Q :=
  let dodge_chance := Stats.dodge_chance (fields (current_stats self)) in
  let dodge_chance :=
    fold_modifier "dodge_bonus" Qplus (status_effects self) dodge_chance in
  py_min (75 # 100) dodge_chance.

Definition _try_dodge : M St bool :=
  s <- get ;;
  let dodge_chance := dodge_chance_rolled (fst s) in
  r <- random ;;
  ret (Qltb r dodge_chance).

(** *** [_calculate_damage] *)

Definition _calculate_damage (base_damage : Q) (damage_type : string)
  : M t Q :=
  self <- get ;;
  let resistance :=
    match dict_get (resistances self) damage_type with
    | Some r => r
    | None => 0
    end in
  let damage := base_damage * (1 - resistance) in
  let damage :=
    fold_modifier "damage_taken_modifier" (fun d m => d * (1 + m))
      (status_effects self) damage in
  let defense := Stats.defense (fields (current_stats self)) in
  if Qeq_bool (defense + 100) 0 then raise ZeroDivisionError
  else
    let defense_reduction := defense / (defense + 100) in
    let damage := damage * (1 - defense_reduction) in
    ret (round1 (py_max 0 damage)).

(** *** Death *)

(** The [try] block ends at the [ValueError] of [list.remove]; the
    stats are then already reverted. *)
Definition _remove_effect (effect : StatusEffect.t) : M t unit :=
  modify (on_stats (StatusEffect.remove effect)) ;;;
  self <- get ;;
  match StatusEffect.list_remove (status_effects self) effect with
  | Some l => put (set_status_effects l self)
  | None => ret tt
  end.

Definition _trigger_death_effects : M t unit := ret tt.

Definition die : M t unit :=
  self <- get ;;
  if negb (is_alive self) then ret tt
  else
    modify (set_is_alive false) ;;;
    modify (on_stats (Stats.set_health 0)) ;;;
    modify (on_combat_stats
              (fun c => CombatStats.set_deaths (CombatStats.deaths c + 1)%Z c)) ;;;
    self <- get ;;
    for_each (status_effects self)
      (fun effect =>
         if negb (StatusEffect.is_permanent effect)
         then _remove_effect effect
         else ret tt) ;;;
    _trigger_death_effects.

(** *** [take_damage] *)

Definition take_damage (damage : Q) (damage_type : string)
  : M St (Q * bool * bool) :=
  s <- get ;;
  if negb (is_alive (fst s)) then ret (0, false, false)
  else
    dodged <- _try_dodge ;;
    if dodged then
      on_self (modify (on_combat_stats
        (fun c => CombatStats.set_dodges (CombatStats.dodges c + 1)%Z c))) ;;;
      ret (0, true, false)
    else
      actual_damage <- on_self (_calculate_damage damage damage_type) ;;
      on_self (modify (on_stats
        (fun st => Stats.set_health
                     (py_max 0 (Stats.health st - actual_damage)) st))) ;;;
      on_self (modify (on_combat_stats
        (fun c => CombatStats.set_damage_taken
                    (CombatStats.damage_taken c + actual_damage) c))) ;;;
      s <- get ;;
      (if Qleb (Stats.health (stats (fst s))) 0 then on_self die else ret tt) ;;;
      ret (actual_damage, false, false).

(** *** [heal] and [resurrect] *)

(** The value of the local [healing_modifier] of [heal] after the
    loop over the status effects. *)
Definition healing_modifier (self : t) : Q :=
  fold_modifier "healing_received_modifier" (fun h m => h * (1 + m))
    (status_effects self) 1.

Definition heal (amount : Q) : M t Q :=
  self <- get ;;
  if negb (is_alive self) then ret 0
  else
    let actual_healing := amount * healing_modifier self in
    let old_health := Stats.health (stats self) in
    modify (on_stats
      (fun st => Stats.set_health
                   (py_min (Stats.max_health st) (old_health + actual_healing))
                   st)) ;;;
    self <- get ;;
    let healing_done := Stats.health (stats self) - old_health in
    modify (on_combat_stats
      (fun c => CombatStats.set_healing_done
                  (CombatStats.healing_done c + healing_done) c)) ;;;
    ret healing_done.

Definition resurrect (health_percentage : Q) : M t unit :=
  self <- get ;;
  if is_alive self then ret tt
  else
    modify (set_is_alive true) ;;;
    modify (on_stats
      (fun st => Stats.set_health (Stats.max_health st * health_percentage) st)) ;;;
    modify (on_stats
      (fun st => Stats.set_stamina (Stats.max_stamina st * (1 # 2)) st)) ;;;
    modify (on_stats
      (fun st => Stats.set_mana (Stats.max_mana st * (1 # 2)) st)).

(** The default of [health_percentage]. *)
Definition resurrect_default : M t unit := resurrect (1 # 2).

(** *** [add_status_effect] *)

(** The loop over [self.status_effects], at the element of index [i];
    [pending] is the rest of the list.  The result is [true] when the
    loop ended with [return]. *)
Fixpoint add_status_effect_loop (pending : list StatusEffect.t) (i : nat)
    (effect : StatusEffect.t) : M t bool :=
  match pending with
  | [] => ret false
  | existing_effect :: rest =>
      if String.eqb (StatusEffect.name existing_effect)
                    (StatusEffect.name effect)
      then
        if negb (StatusEffect.can_stack effect) then
          (if Qltb (StatusEffect.sum_modifiers existing_effect)
                   (StatusEffect.sum_modifiers effect)
           then
             modify (on_stats (StatusEffect.remove existing_effect)) ;;;
             self <- get ;;
             match StatusEffect.list_remove (status_effects self)
                     existing_effect with
             | None => raise ValueError
             | Some l =>
                 put (set_status_effects l self) ;;;
                 modify (on_stats (StatusEffect.apply effect)) ;;;
                 modify (fun self =>
                   set_status_effects (status_effects self ++ [effect]) self)
             end
           else
             modify (fun self =>
               set_status_effects
                 (list_set i
                    (StatusEffect.set_duration
                       (Z.max (StatusEffect.duration existing_effect)
                              (StatusEffect.duration effect))
                       existing_effect)
                    (status_effects self))
                 self)) ;;;
          ret true
        else add_status_effect_loop rest (S i) effect
      else add_status_effect_loop rest (S i) effect
  end.

Definition add_status_effect (effect : StatusEffect.t) : M t unit :=
  self <- get ;;
  returned_early <- add_status_effect_loop (status_effects self) 0 effect ;;
  if returned_early then ret tt
  else
    modify (on_stats (StatusEffect.apply effect)) ;;;
    modify (fun self =>
      set_status_effects (status_effects self ++ [effect]) self).

(** *** Ticks of the status effects *)

Definition _apply_effect_tick (effect : StatusEffect.t) : M St unit :=
  if String.eqb (StatusEffect.type effect) "dot" then
    let damage := StatusEffect.sum_modifiers effect in
    _ <- take_damage damage "magical" ;;
    ret tt
  else if String.eqb (StatusEffect.type effect) "hot" then
    let healing := StatusEffect.sum_modifiers effect in
    _ <- on_self (heal healing) ;;
    ret tt
  else if String.eqb (StatusEffect.type effect) "resource_regen" then
    on_self
      (for_each (StatusEffect.stat_modifiers effect)
         (fun rv =>
            self <- get ;;
            match Stats.getattr (stats self) (fst rv) with
            | None => ret tt
            | Some current =>
                match Stats.getattr (stats self) ("max_" ++ fst rv) with
                | None => raise AttributeError
                | Some max_value =>
                    let new_value := py_min max_value (current + snd rv) in
                    modify (on_stats
                      (fun st => Stats.setattr st (fst rv) new_value))
                end
            end))
  else ret tt.

Definition count_permanent (l : list StatusEffect.t) : nat :=
  List.length (filter StatusEffect.is_permanent l).

(** [effect.last_tick = game_time] after the tick, seen from the list
    that holds the object.  [before] is the list when the tick began,
    with the object at index [i]; [after] is the list when it ended.
    Only [die] takes elements out of the list, and it takes out every
    effect that is not permanent: when the list is shorter, a
    permanent object has moved down past the removed ones before it,
    and an object that is not permanent is no longer in the list. *)
Definition set_last_tick_in_list (before : list StatusEffect.t) (i : nat)
    (effect : StatusEffect.t) (after : list StatusEffect.t)
  : list StatusEffect.t :=
  if Nat.eqb (List.length after) (List.length before)
  then list_set i effect after
  else if StatusEffect.is_permanent effect
  then list_set (count_permanent (firstn i before)) effect after
  else after.

(** The loop [for effect in self.status_effects] of
    [_update_status_effects].  The iterator of a list holds an index
    [i] into the list object, whose elements a tick may remove while
    the loop runs; it stops when [i] reaches the current length.  The
    list never grows inside the loop, so the loop makes at most as
    many passes as the list had elements at the start: [fuel] counts
    them down.  The result is [active_effects]. *)
Fixpoint _update_status_effects_loop (fuel : nat) (game_time : Q) (i : nat)
    (active_effects : list StatusEffect.t) : M St (list StatusEffect.t) :=
  match fuel with
  | O => ret active_effects
  | S fuel' =>
      s <- get ;;
      match nth_error (status_effects (fst s)) i with
      | None => ret active_effects
      | Some effect =>
          if StatusEffect.is_permanent effect
             || (0 <? StatusEffect.duration effect)%Z
          then
            let effect :=
              if negb (StatusEffect.is_permanent effect)
              then StatusEffect.set_duration
                     (StatusEffect.duration effect - 1)%Z effect
              else effect in
            let before := list_set i effect (status_effects (fst s)) in
            on_self (modify (set_status_effects before)) ;;;
            effect <-
              (if Qleb (StatusEffect.tick_interval effect)
                       (game_time - StatusEffect.last_tick effect)
               then
                 _apply_effect_tick effect ;;;
                 let effect := StatusEffect.set_last_tick game_time effect in
                 on_self (modify (fun self =>
                   set_status_effects
                     (set_last_tick_in_list before i effect
                        (status_effects self))
                     self)) ;;;
                 ret effect
               else ret effect) ;;
            _update_status_effects_loop fuel' game_time (S i)
              (active_effects ++ [effect])
          else
            on_self (modify (on_stats (StatusEffect.remove effect))) ;;;
            _update_status_effects_loop fuel' game_time (S i) active_effects
      end
  end.

Definition _update_status_effects (game_time : Q) : M St unit :=
  s <- get ;;
  active_effects <-
    _update_status_effects_loop (List.length (status_effects (fst s)))
      game_time 0 [] ;;
  on_self (modify (set_status_effects active_effects)).

(** *** Regeneration *)

(** [modifiers[resource] *= (1 + value)] for every item of the
    equipment's dictionary. *)
Fixpoint scale_regeneration (equipment_regen modifiers : list (string * Q))
  : M t (list (string * Q)) :=
  match equipment_regen with
  | [] => ret modifiers
  | (resource, value) :: rest =>
      match dict_get modifiers resource with
      | None => raise KeyError
      | Some m =>
          scale_regeneration rest (dict_set modifiers resource (m * (1 + value)))
      end
  end.

(** A value of [stat_modifiers] is a number, so the subscript
    [effect.stat_modifiers['regeneration']['resource']] raises
    [TypeError] at the first effect that has the key. *)
Definition get_regeneration_modifiers : M t (list (string * Q)) :=
  self <- get ;;
  let modifiers := [("health"%string, 1); ("stamina"%string, 1);
                    ("mana"%string, 1)] in
  if existsb
       (fun effect =>
          match dict_get (StatusEffect.stat_modifiers effect) "regeneration" with
          | Some _ => true
          | None => false
          end)
       (status_effects self)
  then raise TypeError
  else
    match inventory self with
    | Some inv =>
        scale_regeneration (Inventory.get_regeneration_modifiers inv) modifiers
    | None => ret modifiers
    end.

Definition _update_resources : M t unit :=
  regen_modifiers <- get_regeneration_modifiers ;;
  self <- get ;;
  (if Qltb (Stats.stamina (stats self)) (Stats.max_stamina (stats self))
   then
     let regen_amount :=
       5 * match dict_get regen_modifiers "stamina" with
           | Some v => v
           | None => 1
           end in
     modify (on_stats (fun st =>
       Stats.set_stamina
         (py_min (Stats.max_stamina st) (Stats.stamina st + regen_amount)) st))
   else ret tt) ;;;
  self <- get ;;
  (if Qltb (Stats.mana (stats self)) (Stats.max_mana (stats self))
   then
     let regen_amount :=
       2 * match dict_get regen_modifiers "mana" with
           | Some v => v
           | None => 1
           end in
     modify (on_stats (fun st =>
       Stats.set_mana
         (py_min (Stats.max_mana st) (Stats.mana st + regen_amount)) st))
   else ret tt).

(** *** Cooldowns and [update] *)

(** [self._update_cooldowns]: no class of the entity hierarchy
    defines the method, so the lookup of the attribute raises
    [AttributeError]. *)
Definition _update_cooldowns (game_time : Q) : M t unit :=
  raise AttributeError.

Definition update_combat (game_time : Q) : M t bool :=
  self <- get ;;
  if Qltb game_time (last_attack_time self + attack_cooldown self)
  then ret false
  else
    modify (set_last_attack_time game_time) ;;;
    ret true.

(** [update(game_time)] *)
Definition update (game_time : Q) : M St unit :=
  _update_status_effects game_time ;;;
  on_self _update_resources ;;;
  s <- get ;;
  (if Qleb (Stats.health (stats (fst s))) 0 && is_alive (fst s)
   then on_self die else ret tt) ;;;
  on_self (_update_cooldowns game_time) ;;;
  s <- get ;;
  if in_combat (fst s)
  then _ <- on_self (update_combat game_time) ;; ret tt
  else ret tt.

(** *** [deal_damage] *)

(** The value of the local [crit_chance] of [_is_critical_hit] when
    it is compared with the random number. *)
Definition crit_chance_rolled (self : t) : Q :=
  let crit_chance := Stats.critical_chance (fields (current_stats self)) in
  let crit_chance :=
    fold_modifier "crit_chance_bonus" Qplus (status_effects self) crit_chance in
  py_min (75 # 100) crit_chance.

Definition _is_critical_hit : M St bool :=
  s <- get ;;
  let crit_chance := crit_chance_rolled (fst s) in
  r <- random ;;
  ret (Qltb r crit_chance).

Definition _get_critical_multiplier (self : t) : Q :=
  let base_multiplier := 2 in
  let base_multiplier :=
    match get_skill_level self with
    | Some skill_level =>
        let crit_mastery :=
          skill_level ["combat"%string; "critical_mastery"%string] in
        if Qltb 0 crit_mastery
        then base_multiplier + crit_mastery * (1 # 10)
        else base_multiplier
    | None => base_multiplier
    end in
  fold_modifier "crit_damage_bonus" Qplus (status_effects self) base_multiplier.

(** ['magical' in damage_type] *)
Definition contains (needle haystack : string) : bool :=
  match String.index 0 needle haystack with
  | Some _ => true
  | None => false
  end.

Definition _modify_outgoing_damage (self : t) (damage : Q)
    (damage_type : string) : Q :=
  let damage_bonus := 1 in
  let damage_bonus :=
    if String.eqb damage_type "physical" then
      let strength_bonus := Stats.strength (fields (current_stats self)) / 100 in
      damage_bonus + strength_bonus
    else if contains "magical" damage_type then
      let intel_bonus := Stats.intelligence (fields (current_stats self)) / 100 in
      damage_bonus + intel_bonus
    else damage_bonus in
  let damage_bonus :=
    fold_modifier "damage_dealt_modifier" Qplus (status_effects self)
      damage_bonus in
  damage * damage_bonus.

(** The state of a call with a target: the caller, the target and the
    random source. *)
Definition St2 : Type := (t * t * Rng.t)%type.

Definition caller (s : St2) : t := fst (fst s).
Definition target (s : St2) : t := snd (fst s).

(** A method of the caller that draws random numbers. *)
Definition on_caller {A : Type} (m : M St A) : M St2 A :=
  zoom (fun s => (caller s, snd s))
       (fun cr s => (fst cr, target s, snd cr)) m.

(** A method of the target that draws random numbers. *)
Definition on_target {A : Type} (m : M St A) : M St2 A :=
  zoom (fun s => (target s, snd s))
       (fun tr s => (caller s, fst tr, snd tr)) m.

Definition deal_damage (base_damage : Q) (damage_type : string)
  : M St2 (Q * bool * bool) :=
  s <- get ;;
  if negb (is_alive (target s)) || negb (is_alive (caller s))
  then ret (0, false, false)
  else
    is_critical <- on_caller _is_critical_hit ;;
    s <- get ;;
    base_damage <-
      (if is_critical then
         on_caller (on_self (modify (on_combat_stats (fun c =>
           CombatStats.set_critical_hits
             (CombatStats.critical_hits c + 1)%Z c)))) ;;;
         ret (base_damage * _get_critical_multiplier (caller s))
       else ret base_damage) ;;
    s <- get ;;
    let damage := _modify_outgoing_damage (caller s) base_damage damage_type in
    r <- on_target (take_damage damage damage_type) ;;
    let actual_damage := fst (fst r) in
    let was_dodged := snd (fst r) in
    on_caller (on_self (modify (on_combat_stats (fun c =>
      CombatStats.update_damage_stats c actual_damage is_critical)))) ;;;
    ret (actual_damage, was_dodged, is_critical).

(** *** Abilities *)

(** Every read of [time.time()] in one call returns [now]. *)
Definition _is_on_cooldown (self : t) (ability_id : string) (now : Q) : bool :=
  match dict_get (_cooldowns self) ability_id with
  | Some expiry => Qltb now expiry
  | None => false
  end.

Definition _get_remaining_cooldown (self : t) (ability_id : string) (now : Q)
  : Q :=
  if negb (_is_on_cooldown self ability_id now) then 0
  else match dict_get (_cooldowns self) ability_id with
       | Some expiry => expiry - now
       | None => 0
       end.

Definition _check_ability_requirements (self : t) (ability : Ability.t)
  : bool :=
  let requirements := Ability.requirements ability in
  (match Ability.level requirements with
   | Some l => negb (level self <? l)%Z
   | None => true
   end)
  && (match Ability.stats requirements with
      | Some d =>
          forallb
            (fun sv =>
               negb (Qltb
                       (match modified_getattr (current_stats self) (fst sv) with
                        | Some v => v
                        | None => 0
                        end)
                       (snd sv)))
            d
      | None => true
      end)
  && (match Ability.skills requirements, get_skill_level self with
      | Some d, Some skill_level =>
          forallb (fun sl => negb (Qltb (skill_level [fst sl]) (snd sl))) d
      | _, _ => true
      end)
  && (match Ability.items requirements, inventory self with
      | Some d, Some inv =>
          forallb (fun ic => Inventory.has_item inv (fst ic) (snd ic)) d
      | _, _ => true
      end).

Definition can_use_ability (ability_id : string) (now : Q)
  : M t (bool * Message) :=
  self <- get ;;
  match dict_get (abilities self) ability_id with
  | None => ret (false, MsgUnknownAbility)
  | Some ability =>
      if _is_on_cooldown self ability_id now then
        let remaining := _get_remaining_cooldown self ability_id now in
        ret (false, MsgOnCooldown remaining)
      else
        stamina_cost <- Ability.cost_get ability "stamina" ;;
        if Qltb (Stats.stamina (stats self)) stamina_cost
        then ret (false, MsgNoStamina)
        else
          mana_cost <- Ability.cost_get ability "mana" ;;
          if Qltb (Stats.mana (stats self)) mana_cost
          then ret (false, MsgNoMana)
          else if negb (_check_ability_requirements self ability)
          then ret (false, MsgRequirementsNotMet)
          else ret (true, MsgEmpty)
  end.

Definition _is_in_ability_range (self target : t) (ability : Ability.t)
  : bool :=
  let ability_range := Ability.range ability in
  Position.distance_le (position self) (position target) ability_range.

(** The base class finds no target: the game system is to supply
    the search. *)
Definition _get_targets_in_range (center : Position.t) (radius : Q)
  : list t := [].

Definition _set_ability_cooldown (ability_id : string) (now : Q) : M t unit :=
  self <- get ;;
  match dict_get (abilities self) ability_id with
  | None => raise KeyError
  | Some ability =>
      let cooldown := Ability.cooldown ability in
      let cooldown :=
        match get_cooldown_reduction self with
        | Some reduction => cooldown * (1 - reduction)
        | None => cooldown
        end in
      put (set__cooldowns (dict_set (_cooldowns self) ability_id (now + cooldown))
             self)
  end.

(** The state of [use_ability]: the caller, the target when one is
    given, and the random source. *)
Definition St3 : Type := (t * option t * Rng.t)%type.

Definition user (s : St3) : t := fst (fst s).
Definition aimed_at (s : St3) : option t := snd (fst s).

Definition on_user {A : Type} (m : M t A) : M St3 A :=
  zoom user (fun u s => (u, aimed_at s, snd s)) m.

(** A computation on the caller and a target [tg] that is given. *)
Definition with_target {A : Type} (tg : t) (m : M St2 A) : M St3 A :=
  zoom (fun s => (user s, match aimed_at s with Some x => x | None => tg end,
                  snd s))
       (fun s2 _ => (caller s2, Some (target s2), snd s2)) m.

(** The loop over [ability.get('effects', [])]. *)
Fixpoint attach_effects (effects_data : list StatusEffect.t)
    (effects : list EffectReport) : M St3 (list EffectReport) :=
  match effects_data with
  | [] => ret effects
  | effect :: rest =>
      s <- get ;;
      match aimed_at s with
      | Some tg =>
          with_target tg
            (zoom target (fun x s2 => (caller s2, x, snd s2))
               (add_status_effect effect)) ;;;
          attach_effects rest
            (effects ++ [ReportEffect (id tg) (StatusEffect.name effect)])
      | None =>
          on_user (add_status_effect effect) ;;;
          attach_effects rest
            (effects ++ [ReportEffect (id (user s)) (StatusEffect.name effect)])
      end
  end.

(** [use_ability(ability_id, target, position)]; the target is in the
    state.  [position] only chooses the centre of the search for
    secondary targets. *)
Definition use_ability (ability_id : string) (position_arg : option Position.t)
    (now : Q) : M St3 (bool * Message * list EffectReport) :=
  cm <- on_user (can_use_ability ability_id now) ;;
  let can_use := fst cm in
  let message := snd cm in
  if negb can_use then ret (false, message, [])
  else
    s <- get ;;
    match dict_get (abilities (user s)) ability_id with
    | None => raise KeyError
    | Some ability =>
        let effects : list EffectReport := [] in
        if match aimed_at s with
           | Some tg => negb (_is_in_ability_range (user s) tg ability)
           | None => false
           end
        then ret (false, MsgOutOfRange, [])
        else
          stamina_cost <- Ability.cost_get ability "stamina" ;;
          on_user (modify (on_stats (fun st =>
            Stats.set_stamina (Stats.stamina st - stamina_cost) st))) ;;;
          mana_cost <- Ability.cost_get ability "mana" ;;
          on_user (modify (on_stats (fun st =>
            Stats.set_mana (Stats.mana st - mana_cost) st))) ;;;
          primary <-
            (match aimed_at s with
             | Some tg =>
                 if Qltb 0 (Ability.damage ability) then
                   let damage := Ability.damage ability in
                   (* [ability['skill_type']]: the key is missing *)
                   (match get_skill_level (user s) with
                    | Some _ => raise KeyError
                    | None => ret tt
                    end) ;;;
                   r <- with_target tg (deal_damage damage "physical") ;;
                   let actual_damage := fst (fst r) in
                   let was_dodged := snd (fst r) in
                   let was_crit := snd r in
                   if was_dodged then
                     ret (Some (MsgDodged (name tg) (Ability.name ability)),
                          message, effects)
                   else
                     ret (None,
                          MsgUsed (Ability.name ability) actual_damage was_crit,
                          effects ++ [ReportDamage (id tg) actual_damage was_crit])
                 else ret (None, message, effects)
             | None => ret (None, message, effects)
             end) ;;
          match fst (fst primary) with
          | Some dodged_message => ret (false, dodged_message, [])
          | None =>
              let message := snd (fst primary) in
              let effects := snd primary in
              (if Qltb 0 (Ability.area_of_effect ability) then
                 let aoe_targets :=
                   _get_targets_in_range
                     (match position_arg with
                      | Some p => p
                      | None => position (user s)
                      end)
                     (Ability.area_of_effect ability) in
                 (* no secondary target is ever found *)
                 for_each aoe_targets (fun _ => ret tt)
               else ret tt) ;;;
              effects <- attach_effects (Ability.effects ability) effects ;;
              on_user (_set_ability_cooldown ability_id now) ;;;
              ret (true, message, effects)
          end
    end.
(** *** Loading the abilities *)

Definition set_abilities (v : list (string * Ability.t)) (e : t) : t :=
  {| id := id e; name := name e; description := description e;
     level := level e; stats := stats e; position := position e;
     status_effects := status_effects e; is_alive := is_alive e;
     is_stunned := is_stunned e; is_invisible := is_invisible e;
     in_combat := in_combat e; last_attack_time := last_attack_time e;
     attack_cooldown := attack_cooldown e; combat_stats := combat_stats e;
     inventory := inventory e; gold := gold e; abilities := v;
     resistances := resistances e; skill_bonuses := skill_bonuses e;
     _cooldowns := _cooldowns e; get_skill_level := get_skill_level e;
     get_cooldown_reduction := get_cooldown_reduction e |}.

(** One [ability_data] of the constructor's data: each key that
    [_load_abilities] reads is present or not. *)
Record AbilityData : Type := {
  data_name : option string;
  data_damage : option Q;
  data_cooldown : option Q;
  data_cost : option Ability.Cost;
  data_effects : option (list StatusEffect.t);
  data_requirements : option Ability.Requirements;
  data_range : option Q;
  data_area_of_effect : option Q;
  data_cast_time : option Q;
  data_description : option string
}.

(** [data.get(key, default)] *)
Definition get_or {A : Type} (o : option A) (default : A) : A :=
  match o with
  | Some v => v
  | None => default
  end.

(** The dictionary that [_load_abilities] stores for one ability whose
    data have the name [ability_name]. *)
Definition loaded_ability (ability_name : string) (ability_data : AbilityData)
  : Ability.t := {|
  Ability.name := ability_name;
  Ability.damage := get_or (data_damage ability_data) 0;
  Ability.cooldown := get_or (data_cooldown ability_data) 0;
  Ability.cost := get_or (data_cost ability_data) (Ability.CostNumber 0);
  Ability.effects := get_or (data_effects ability_data) [];
  Ability.requirements :=
    get_or (data_requirements ability_data) Ability.no_requirements;
  Ability.range := get_or (data_range ability_data) 1;
  Ability.area_of_effect := get_or (data_area_of_effect ability_data) 0;
  Ability.cast_time := get_or (data_cast_time ability_data) 0;
  Ability.description := get_or (data_description ability_data) EmptyString
|}.

(** [ability_data['name']] raises [KeyError] on data without a name;
    the abilities stored before stay. *)
Definition _load_abilities (abilities_data : list (string * AbilityData))
  : M t unit :=
  for_each abilities_data
    (fun entry =>
       let ability_id := fst entry in
       let ability_data := snd entry in
       match data_name ability_data with
       | None => raise KeyError
       | Some ability_name =>
           modify (fun self =>
             set_abilities
               (dict_set (abilities self) ability_id
                  (loaded_ability ability_name ability_data))
               self)
       end).

End Entity.

(** ** [CombatInstance] *)

(** The two values that the session reads from [game_config]:
    [get('game_time', 0)] and [get('combat.turn_duration', 1.0)]. *)
Module GameConfig.
Record t : Type := { game_time : Q; combat_turn_duration : Q }.
End GameConfig.

Module PlayerStatus.
Record t : Type := {
  stamina : Q;
  defense_bonus : Q;
  status_effects : list StatusEffect.t;
  combo_counter : Z;
  dodge_chance : Q;
  crit_chance : Q
}.
End PlayerStatus.

Module EnemyStatus.
Record t : Type := {
  defense_bonus : Q;
  status_effects : list StatusEffect.t;
  next_action : option string;
  aggression_level : Q
}.
End EnemyStatus.

Inductive LogMessage : Type :=
  | LogCriticalHit
  | LogComboBonus
  | LogDamage (final_damage : Q) (is_crit : bool)
  | LogDefend (defense_bonus : Q)
  | LogWinner (winner_name : string)
  | LogInterrupted.

Inductive LogType : Type := LogInfo | LogSuccess | LogSystem.

Inductive Reply : Type :=
  | AttackDone
  | DefendDone
  | UnknownAction
  | OtherReply (text : string).

Inductive Participant : Type := ThePlayer | TheEnemy.

Module CombatInstance.
Record LogEntry : Type := {
  message : LogMessage;
  type : LogType;
  log_turn : Z;
  time : Q
}.

Record t : Type := {
  combat_id : string;
  player : Entity.t;
  enemy : Entity.t;
  start_time : Q;
  end_time : option Q;
  turn : Z;
  last_action_time : Q;
  combat_log : list LogEntry;
  active_effects : list StatusEffect.t;
  ability_cooldowns : list (string * Q);
  player_status : PlayerStatus.t;
  enemy_status : EnemyStatus.t;
  (** [self.combat_stats]: [__init__] does not create the attribute;
      it is [None] until some code outside the class attaches the
      dictionary. *)
  combat_stats : option (list (string * Q))
}.

(** [CombatInstance(player, enemy, combat_id)]; [aggression] is the
    value of [random.uniform(0.5, 1.5)]. *)
Definition init (cfg : GameConfig.t) (player enemy : Entity.t)
    (combat_id : string) (aggression : Q) : t := {|
  combat_id := combat_id;
  player := player;
  enemy := enemy;
  start_time := GameConfig.game_time cfg;
  end_time := None;
  turn := 1;
  last_action_time := GameConfig.game_time cfg;
  combat_log := [];
  active_effects := [];
  ability_cooldowns := [];
  player_status := {|
    PlayerStatus.stamina := 100;
    PlayerStatus.defense_bonus := 0;
    PlayerStatus.status_effects := [];
    PlayerStatus.combo_counter := 0;
    PlayerStatus.dodge_chance := Stats.dodge_chance (Entity.stats player);
    PlayerStatus.crit_chance := Stats.critical_chance (Entity.stats player)
  |};
  enemy_status := {|
    EnemyStatus.defense_bonus := 0;
    EnemyStatus.status_effects := [];
    EnemyStatus.next_action := None;
    EnemyStatus.aggression_level := aggression
  |};
  combat_stats := None
|}.

Definition set_player (v : Entity.t) (c : t) : t :=
  {| combat_id := combat_id c; player := v; enemy := enemy c;
     start_time := start_time c; end_time := end_time c; turn := turn c;
     last_action_time := last_action_time c; combat_log := combat_log c;
     active_effects := active_effects c;
     ability_cooldowns := ability_cooldowns c;
     player_status := player_status c; enemy_status := enemy_status c;
     combat_stats := combat_stats c |}.
Definition set_enemy (v : Entity.t) (c : t) : t :=
  {| combat_id := combat_id c; player := player c; enemy := v;
     start_time := start_time c; end_time := end_time c; turn := turn c;
     last_action_time := last_action_time c; combat_log := combat_log c;
     active_effects := active_effects c;
     ability_cooldowns := ability_cooldowns c;
     player_status := player_status c; enemy_status := enemy_status c;
     combat_stats := combat_stats c |}.
Definition set_end_time (v : option Q) (c : t) : t :=
  {| combat_id := combat_id c; player := player c; enemy := enemy c;
     start_time := start_time c; end_time := v; turn := turn c;
     last_action_time := last_action_time c; combat_log := combat_log c;
     active_effects := active_effects c;
     ability_cooldowns := ability_cooldowns c;
     player_status := player_status c; enemy_status := enemy_status c;
     combat_stats := combat_stats c |}.
Definition set_turn (v : Z) (c : t) : t :=
  {| combat_id := combat_id c; player := player c; enemy := enemy c;
     start_time := start_time c; end_time := end_time c; turn := v;
     last_action_time := last_action_time c; combat_log := combat_log c;
     active_effects := active_effects c;
     ability_cooldowns := ability_cooldowns c;
     player_status := player_status c; enemy_status := enemy_status c;
     combat_stats := combat_stats c |}.
Definition set_last_action_time (v : Q) (c : t) : t :=
  {| combat_id := combat_id c; player := player c; enemy := enemy c;
     start_time := start_time c; end_time := end_time c; turn := turn c;
     last_action_time := v; combat_log := combat_log c;
     active_effects := active_effects c;
     ability_cooldowns := ability_cooldowns c;
     player_status := player_status c; enemy_status := enemy_status c;
     combat_stats := combat_stats c |}.
Definition set_combat_log (v : list LogEntry) (c : t) : t :=
  {| combat_id := combat_id c; player := player c; enemy := enemy c;
     start_time := start_time c; end_time := end_time c; turn := turn c;
     last_action_time := last_action_time c; combat_log := v;
     active_effects := active_effects c;
     ability_cooldowns := ability_cooldowns c;
     player_status := player_status c; enemy_status := enemy_status c;
     combat_stats := combat_stats c |}.
Definition set_ability_cooldowns (v : list (string * Q)) (c : t) : t :=
  {| combat_id := combat_id c; player := player c; enemy := enemy c;
     start_time := start_time c; end_time := end_time c; turn := turn c;
     last_action_time := last_action_time c; combat_log := combat_log c;
     active_effects := active_effects c;
     ability_cooldowns := v;
     player_status := player_status c; enemy_status := enemy_status c;
     combat_stats := combat_stats c |}.
Definition set_player_status (v : PlayerStatus.t) (c : t) : t :=
  {| combat_id := combat_id c; player := player c; enemy := enemy c;
     start_time := start_time c; end_time := end_time c; turn := turn c;
     last_action_time := last_action_time c; combat_log := combat_log c;
     active_effects := active_effects c;
     ability_cooldowns := ability_cooldowns c;
     player_status := v; enemy_status := enemy_status c;
     combat_stats := combat_stats c |}.
Definition set_combat_stats (v : option (list (string * Q))) (c : t) : t :=
  {| combat_id := combat_id c; player := player c; enemy := enemy c;
     start_time := start_time c; end_time := end_time c; turn := turn c;
     last_action_time := last_action_time c; combat_log := combat_log c;
     active_effects := active_effects c;
     ability_cooldowns := ability_cooldowns c;
     player_status := player_status c; enemy_status := enemy_status c;
     combat_stats := v |}.

(** The state of a method of the session. *)
Definition St : Type := (t * Rng.t)%type.

Definition on_session {A : Type} (m : M t A) : M St A :=
  zoom fst (fun c s => (c, snd s)) m.

Definition random : M St Q :=
  fun s => let (q, r) := Rng.random (snd s) in Ok (fst s, r) q.

Local Open Scope py_scope.

Definition is_finished (self : t) : bool :=
  negb (Entity.is_alive (player self))
  || negb (Entity.is_alive (enemy self))
  || match end_time self with Some _ => true | None => false end.

Definition get_winner (self : t) : option Participant :=
  if negb (is_finished self) then None
  else if negb (Entity.is_alive (enemy self)) then Some ThePlayer
  else if negb (Entity.is_alive (player self)) then Some TheEnemy
  else None.

Definition add_combat_log (cfg : GameConfig.t) (message : LogMessage)
    (message_type : LogType) : M t unit :=
  modify (fun self =>
    set_combat_log
      (combat_log self ++
         [{| message := message; type := message_type;
             log_turn := turn self; time := GameConfig.game_time cfg |}])
      self).

(** [self.combat_stats[key] += amount] *)
Definition combat_stats_add (key : string) (amount : Q) : M t unit :=
  self <- get ;;
  match combat_stats self with
  | None => raise AttributeError
  | Some d =>
      match dict_get d key with
      | None => raise KeyError
      | Some v => put (set_combat_stats (Some (dict_set d key (v + amount))) self)
      end
  end.

Definition _update_cooldowns (game_time : Q) : M t unit :=
  modify (fun self =>
    set_ability_cooldowns
      (filter (fun kv => negb (Qleb (snd kv) game_time))
         (ability_cooldowns self))
      self).

(** [_handle_player_attack()]; no keyword argument is read. *)
Definition _handle_player_attack (cfg : GameConfig.t) : M St (bool * Reply) :=
  s <- get ;;
  let self := fst s in
  let base_damage := Stats.strength (Entity.stats (player self)) in
  let base_damage :=
    match Entity.inventory (player self) with
    | Some inv =>
        match Inventory.equipped_weapon inv with
        | Some weapon_damage => base_damage + weapon_damage
        | None => base_damage
        end
    | None => base_damage
    end in
  r <- random ;;
  let is_crit := Qltb r (PlayerStatus.crit_chance (player_status self)) in
  base_damage <-
    (if is_crit then
       on_session (combat_stats_add "critical_hits" 1) ;;;
       on_session (add_combat_log cfg LogCriticalHit LogSuccess) ;;;
       ret (base_damage * 2)
     else ret base_damage) ;;
  let final_damage :=
    py_max 1
      (base_damage
       - (Stats.defense (Entity.stats (enemy self))
          + EnemyStatus.defense_bonus (enemy_status self))) in
  on_session (modify (fun self =>
    set_enemy
      (Entity.on_stats
         (fun st => Stats.set_health (Stats.health st - final_damage) st)
         (enemy self))
      self)) ;;;
  on_session (combat_stats_add "player_damage_dealt" final_damage) ;;;
  on_session (modify (fun self =>
    let ps := player_status self in
    set_player_status
      {| PlayerStatus.stamina := PlayerStatus.stamina ps;
         PlayerStatus.defense_bonus := PlayerStatus.defense_bonus ps;
         PlayerStatus.status_effects := PlayerStatus.status_effects ps;
         PlayerStatus.combo_counter := (PlayerStatus.combo_counter ps + 1)%Z;
         PlayerStatus.dodge_chance := PlayerStatus.dodge_chance ps;
         PlayerStatus.crit_chance := PlayerStatus.crit_chance ps |}
      self)) ;;;
  s <- get ;;
  final_damage <-
    (if (3 <=? PlayerStatus.combo_counter (player_status (fst s)))%Z then
       on_session (add_combat_log cfg LogComboBonus LogSuccess) ;;;
       ret (final_damage * (12 # 10))
     else ret final_damage) ;;
  on_session (add_combat_log cfg (LogDamage final_damage is_crit) LogSuccess) ;;;
  ret (true, AttackDone).

Definition _handle_player_defend (cfg : GameConfig.t) : M St (bool * Reply) :=
  s <- get ;;
  let self := fst s in
  let defense_bonus :=
    5 + match Entity.get_skill_level (player self) with
        | Some skill_level => skill_level ["defense"%string] * 1
        | None => 0
        end in
  on_session (modify (fun self =>
    let ps := player_status self in
    set_player_status
      {| PlayerStatus.stamina := PlayerStatus.stamina ps;
         PlayerStatus.defense_bonus := defense_bonus;
         PlayerStatus.status_effects := PlayerStatus.status_effects ps;
         PlayerStatus.combo_counter := PlayerStatus.combo_counter ps;
         PlayerStatus.dodge_chance := PlayerStatus.dodge_chance ps;
         PlayerStatus.crit_chance := PlayerStatus.crit_chance ps |}
      self)) ;;;
  on_session (modify (fun self =>
    let ps := player_status self in
    set_player_status
      {| PlayerStatus.stamina := py_min 100 (PlayerStatus.stamina ps + 20);
         PlayerStatus.defense_bonus := PlayerStatus.defense_bonus ps;
         PlayerStatus.status_effects := PlayerStatus.status_effects ps;
         PlayerStatus.combo_counter := PlayerStatus.combo_counter ps;
         PlayerStatus.dodge_chance := PlayerStatus.dodge_chance ps;
         PlayerStatus.crit_chance := PlayerStatus.crit_chance ps |}
      self)) ;;;
  on_session (add_combat_log cfg (LogDefend defense_bonus) LogInfo) ;;;
  ret (true, DefendDone).

(** The methods that [CombatInstance] calls and the class does not
    define, and the choice of action of the enemy.  The session is
    embedded for any behaviour of theirs. *)
Record Undefined : Type := {
  _update_status_effects : Q -> M St unit;
  _update_resources : M St unit;
  _handle_player_ability : option string -> M St (bool * Reply);
  _handle_use_item : option string -> M St (bool * Reply);
  _handle_escape_attempt : M St (bool * Reply);
  _clear_combat_effects : M St unit;
  choose_action : M St string;
  _execute_enemy_action : string -> M St unit;
  _check_combat_end : M St bool
}.

(** What the source does as it stands: each call of a method that is
    not defined raises [AttributeError]. *)
Definition undefined_as_is : Undefined := {|
  _update_status_effects := fun _ => raise AttributeError;
  _update_resources := raise AttributeError;
  _handle_player_ability := fun _ => raise AttributeError;
  _handle_use_item := fun _ => raise AttributeError;
  _handle_escape_attempt := raise AttributeError;
  _clear_combat_effects := raise AttributeError;
  choose_action := raise AttributeError;
  _execute_enemy_action := fun _ => raise AttributeError;
  _check_combat_end := raise AttributeError
|}.

Section Session.
Variable u : Undefined.
Variable cfg : GameConfig.t.

Definition _process_turn : M St unit :=
  on_session (combat_stats_add "rounds" 1) ;;;
  enemy_action <- choose_action u ;;
  _execute_enemy_action u enemy_action ;;;
  ended <- _check_combat_end u ;;
  if ended then ret tt
  else
    on_session (modify (fun self => set_turn (turn self + 1)%Z self)) ;;;
    on_session (modify (set_last_action_time (GameConfig.game_time cfg))).

Definition update (game_time : Q) : M St unit :=
  s <- get ;;
  if is_finished (fst s) then ret tt
  else
    _update_status_effects u game_time ;;;
    _update_resources u ;;;
    on_session (_update_cooldowns game_time) ;;;
    s <- get ;;
    if Qleb (GameConfig.combat_turn_duration cfg)
            (game_time - last_action_time (fst s))
    then _process_turn
    else ret tt.

(** [handle_player_action(action_type, **kwargs)]; [ability_name]
    and [item_id] are [kwargs.get] of these keys. *)
Definition handle_player_action (action_type : string)
    (ability_name item_id : option string) : M St (bool * Reply) :=
  if String.eqb action_type "attack" then _handle_player_attack cfg
  else if String.eqb action_type "defend" then _handle_player_defend cfg
  else if String.eqb action_type "use_ability"
  then _handle_player_ability u ability_name
  else if String.eqb action_type "use_item" then _handle_use_item u item_id
  else if String.eqb action_type "escape" then _handle_escape_attempt u
  else ret (false, UnknownAction).

(** [end(winner)]; [winner_name] is the name of a winner that is
    given. *)
Definition end_ (winner_name : option string) : M St unit :=
  on_session (modify (set_end_time (Some (GameConfig.game_time cfg)))) ;;;
  on_session (modify (fun self =>
    set_player (Entity.set_in_combat false (player self)) self)) ;;;
  on_session (modify (fun self =>
    set_enemy (Entity.set_in_combat false (enemy self)) self)) ;;;
  _clear_combat_effects u ;;;
  match winner_name with
  | Some n => on_session (add_combat_log cfg (LogWinner n) LogSystem)
  | None => on_session (add_combat_log cfg LogInterrupted LogSystem)
  end.
End Session.
(** [l[start:]]: a negative [start] counts from the end, and a start
    beyond either end is clipped to it. *)
Definition py_slice_from {A : Type} (l : list A) (start : Z) : list A :=
  let len := Z.of_nat (List.length l) in
  let start :=
    if (start <? 0)%Z then Z.max (start + len) 0 else Z.min start len in
  skipn (Z.to_nat start) l.

(** [get_combat_log(last_n)]; [None] is the default of [last_n]. *)
Definition get_combat_log (self : t) (last_n : option Z) : list LogEntry :=
  match last_n with
  | None => combat_log self
  | Some n => py_slice_from (combat_log self) (- n)
  end.

End CombatInstance.

(** ** [CombatManager] *)

(** [del d[k]]: drops the binding of [k]; [None] stands for the
    [KeyError] of a dictionary without the key. *)
Fixpoint dict_del {V : Type} (d : list (string * V)) (k : string)
  : option (list (string * V)) :=
  match d with
  | [] => None
  | (k', v) :: rest =>
      if String.eqb k' k then Some rest
      else match dict_del rest k with
           | Some rest' => Some ((k', v) :: rest')
           | None => None
           end
  end.

(** What the manager reads of a participant: the attributes
    [strength], [defense], [health], [max_health], [level] and [name],
    and the method [get_skill_level] of the player. *)
Module Fighter.
Record t : Type := {
  name : string;
  strength : Q;
  defense : Q;
  health : Q;
  max_health : Q;
  level : Q;
  get_skill_level : string -> Q
}.

Definition set_health (v : Q) (f : t) : t :=
  {| name := name f; strength := strength f; defense := defense f;
     health := v; max_health := max_health f; level := level f;
     get_skill_level := get_skill_level f |}.
End Fighter.

(** The messages that the manager logs and shows, and their types. *)
Inductive ManagerMessage : Type :=
  | MmThrust
  | MmWhirlwind
  | MmDodge (is_player : bool) (enemy_name : string)
  | MmCritical (is_player : bool) (enemy_name : string)
  | MmEnemyHit (special : string) (enemy_name : string) (damage : Q).

Inductive ManagerType : Type :=
  | MtInfo | MtSuccess | MtWarning | MtError | MtSystem.

(** What [use_ability] answers. *)
Inductive AbilityReply : Type :=
  | ArUnknown
  | ArLevelRequired (min_level : Q)
  | ArStaminaRequired (stamina_cost : Q)
  | ArCooldownLeft (turns : Z)
  | ArUsed (ability_name : string).

Module CombatManager.
(** One entry of the table [abilities] of [use_ability]. *)
Record AbilitySpec : Type := {
  name : string;
  min_level : Q;
  stamina_cost : Q;
  cooldown : Z;
  description : string
}.

Definition abilities : list (string * AbilitySpec) :=
  [ ("thrust"%string,
     {| name := "Pchnięcie"; min_level := 3; stamina_cost := 30;
        cooldown := 3;
        description := "Potężne pchnięcie zadające podwójne obrażenia" |});
    ("whirlwind"%string,
     {| name := "Wirujący Cios"; min_level := 5; stamina_cost := 50;
        cooldown := 5;
        description := "Obszarowy atak zadający 150% obrażeń" |}) ].

(** The manager; [interface.show_message] shows what [combat_log]
    records. *)
Record t : Type := {
  player : Fighter.t;
  enemy : Fighter.t;
  turn : Z;
  player_stamina : Q;
  abilities_cooldowns : list (string * Z);
  combat_log : list (ManagerMessage * ManagerType)
}.

(** [CombatManager(player, enemy, interface)] *)
Definition init (player enemy : Fighter.t) : t := {|
  player := player; enemy := enemy; turn := 1; player_stamina := 100;
  abilities_cooldowns := []; combat_log := []
|}.

Definition set_player (v : Fighter.t) (m : t) : t :=
  {| player := v; enemy := enemy m; turn := turn m;
     player_stamina := player_stamina m;
     abilities_cooldowns := abilities_cooldowns m;
     combat_log := combat_log m |}.
Definition set_player_stamina (v : Q) (m : t) : t :=
  {| player := player m; enemy := enemy m; turn := turn m;
     player_stamina := v;
     abilities_cooldowns := abilities_cooldowns m;
     combat_log := combat_log m |}.
Definition set_abilities_cooldowns (v : list (string * Z)) (m : t) : t :=
  {| player := player m; enemy := enemy m; turn := turn m;
     player_stamina := player_stamina m;
     abilities_cooldowns := v;
     combat_log := combat_log m |}.
Definition set_combat_log (v : list (ManagerMessage * ManagerType)) (m : t) : t :=
  {| player := player m; enemy := enemy m; turn := turn m;
     player_stamina := player_stamina m;
     abilities_cooldowns := abilities_cooldowns m;
     combat_log := v |}.

Definition St : Type := (t * Rng.t)%type.

Definition on_manager {A : Type} (m : M t A) : M St A :=
  zoom fst (fun c s => (c, snd s)) m.

Definition random : M St Q :=
  fun s => let (q, r) := Rng.random (snd s) in Ok (fst s, r) q.

Local Open Scope py_scope.

(** [log_combat_event]: the entry is appended, then shown; the call
    of [interface.show_message] belongs to the user interface and is
    taken to return. *)
Definition log_combat_event (message : ManagerMessage)
    (message_type : ManagerType) : M t unit :=
  modify (fun self =>
    set_combat_log (combat_log self ++ [(message, message_type)]) self).

(** The truth value of [ability_name]: [None] and the empty string
    are false. *)
Definition truthy (ability_name : option string) : bool :=
  match ability_name with
  | Some EmptyString => false
  | Some _ => true
  | None => false
  end.

Definition name_is (ability_name : option string) (n : string) : bool :=
  match ability_name with
  | Some a => String.eqb a n
  | None => false
  end.

Definition calculate_damage (attacker defender : Fighter.t) (is_player : bool)
    (ability_name : option string) : M St (Q * string) :=
  s <- get ;;
  let self := fst s in
  let base_damage :=
    py_max 0 (Fighter.strength attacker - Fighter.defense defender) in
  base_damage <-
    (if is_player && truthy ability_name then
       let skill_level :=
         Fighter.get_skill_level (player self) "walka_mieczem" in
       let base_damage :=
         if Qltb 0 skill_level then base_damage + skill_level * 2
         else base_damage in
       if name_is ability_name "thrust" && Qleb 3 skill_level then
         on_manager (log_combat_event MmThrust MtSuccess) ;;;
         ret (base_damage * 2)
       else if name_is ability_name "whirlwind" && Qleb 5 skill_level then
         on_manager (log_combat_event MmWhirlwind MtSuccess) ;;;
         ret (base_damage * (15 # 10))
       else ret base_damage
     else ret base_damage) ;;
  let dodge_chance := if is_player then 10 # 100 else 5 # 100 in
  r <- random ;;
  if Qltb r dodge_chance then
    on_manager
      (log_combat_event (MmDodge is_player (Fighter.name (enemy self)))
         (if is_player then MtSuccess else MtWarning)) ;;;
    ret (0, "UNIK!"%string)
  else
    let crit_chance := if is_player then 15 # 100 else 5 # 100 in
    r <- random ;;
    if Qltb r crit_chance then
      let base_damage := base_damage * 2 in
      on_manager
        (log_combat_event (MmCritical is_player (Fighter.name (enemy self)))
           (if is_player then MtSuccess else MtError)) ;;;
      ret (base_damage, "KRYTYCZNE!"%string)
    else ret (base_damage, EmptyString).

(** The end of [use_ability], once no check has refused the ability. *)
Definition spend (ability_name : string) (ability : AbilitySpec)
  : M t (bool * AbilityReply) :=
  modify (fun self =>
    set_player_stamina (player_stamina self - stamina_cost ability) self) ;;;
  modify (fun self =>
    set_abilities_cooldowns
      (dict_set (abilities_cooldowns self) ability_name (cooldown ability))
      self) ;;;
  ret (true, ArUsed (name ability)).

Definition use_ability (ability_name : string) : M t (bool * AbilityReply) :=
  self <- get ;;
  let skill_level := Fighter.get_skill_level (player self) "walka_mieczem" in
  match dict_get abilities ability_name with
  | None => ret (false, ArUnknown)
  | Some ability =>
      if Qltb skill_level (min_level ability)
      then ret (false, ArLevelRequired (min_level ability))
      else if Qltb (player_stamina self) (stamina_cost ability)
      then ret (false, ArStaminaRequired (stamina_cost ability))
      else
        match dict_get (abilities_cooldowns self) ability_name with
        | Some turns =>
            if (0 <? turns)%Z then ret (false, ArCooldownLeft turns)
            else spend ability_name ability
        | None => spend ability_name ability
        end
  end.

(** One pass of the loop of [update_combat_state] over the copy of
    the keys. *)
Definition update_cooldown (ability : string) : M t unit :=
  self <- get ;;
  match dict_get (abilities_cooldowns self) ability with
  | None => raise KeyError
  | Some turns =>
      (if (0 <? turns)%Z
       then modify (fun self =>
              set_abilities_cooldowns
                (dict_set (abilities_cooldowns self) ability (turns - 1)%Z)
                self)
       else ret tt) ;;;
      self <- get ;;
      match dict_get (abilities_cooldowns self) ability with
      | None => raise KeyError
      | Some turns =>
          if (turns <=? 0)%Z then
            match dict_del (abilities_cooldowns self) ability with
            | None => raise KeyError
            | Some d => modify (set_abilities_cooldowns d)
            end
          else ret tt
      end
  end.

Definition update_combat_state : M t unit :=
  modify (fun self =>
    set_player_stamina (py_min 100 (player_stamina self + 10)) self) ;;;
  self <- get ;;
  for_each (map fst (abilities_cooldowns self)) update_cooldown.

(** [handle_enemy_turn()]; the result is ["defeat"] or [None]. *)
Definition handle_enemy_turn : M St (option string) :=
  s <- get ;;
  r <- calculate_damage (enemy (fst s)) (player (fst s)) false None ;;
  let damage := fst r in
  let special := snd r in
  on_manager (modify (fun self =>
    set_player
      (Fighter.set_health (Fighter.health (player self) - damage)
         (player self))
      self)) ;;;
  s <- get ;;
  on_manager
    (log_combat_event
       (MmEnemyHit special (Fighter.name (enemy (fst s))) damage)
       MtWarning) ;;;
  s <- get ;;
  if Qleb (Fighter.health (player (fst s))) 0
  then ret (Some "defeat"%string)
  else ret None.
End CombatManager.

(** ** Items and the inventory of [inventory.py] *)

(** [Item]: the name, the description and the type of the data, and
    the other keys as [properties]. *)
Module Item.
Record t : Type := {
  id : string;
  name : string;
  description : string;
  type : string;
  properties : list (string * Q)
}.
End Item.

Module ItemManager.
Record t : Type := { _items : list (string * Item.t) }.

(** [get_item(item_id)]: [None] for an unknown identifier. *)
Definition get_item (self : t) (item_id : string) : option Item.t :=
  dict_get (_items self) item_id.
End ItemManager.

(** What the methods of the inventory answer. *)
Inductive InventoryReply : Type :=
  | IrFull
  | IrAdded (quantity : Z) (item_name : string)
  | IrNotFound
  | IrNotEnough
  | IrRemoved (item_name : string)
  | IrNotOwned
  | IrFullHealth
  | IrUsed (item_name : string) (healing : Q)
  | IrCannotUse
  | IrCannotEquip.

Module inventory_py.
Module Inventory.
Record t : Type := {
  capacity : Z;
  items : list (string * Z);
  equipped_items : list (string * string);
  (** [None] until [set_item_manager] is called *)
  item_manager : option ItemManager.t
}.

(** [Inventory(capacity)] *)
Definition init (capacity : Z) : t := {|
  capacity := capacity; items := []; equipped_items := [];
  item_manager := None
|}.

Definition set_items (v : list (string * Z)) (s : t) : t :=
  {| capacity := capacity s; items := v;
     equipped_items := equipped_items s; item_manager := item_manager s |}.
Definition set_item_manager_field (v : option ItemManager.t) (s : t) : t :=
  {| capacity := capacity s; items := items s;
     equipped_items := equipped_items s; item_manager := v |}.

Local Open Scope py_scope.

(** [set_item_manager(item_manager)]; [None] is refused. *)
Definition set_item_manager (item_manager : option ItemManager.t) : M t unit :=
  match item_manager with
  | None => raise ValueError
  | Some im => modify (set_item_manager_field (Some im))
  end.

(** [item_id in self.items] *)
Definition owns (self : t) (item_id : string) : bool :=
  match dict_get (items self) item_id with
  | Some _ => true
  | None => false
  end.

(** [self.item_manager.get_item(item_id)]: [None] has no method. *)
Definition get_item (item_id : string) : M t (option Item.t) :=
  self <- get ;;
  match item_manager self with
  | None => raise AttributeError
  | Some im => ret (ItemManager.get_item im item_id)
  end.

(** [item.name]: [None] has no attribute. *)
Definition name_of {S : Type} (item : option Item.t) : M S string :=
  match item with
  | None => raise AttributeError
  | Some i => ret (Item.name i)
  end.

Definition add_item (item_id : string) (quantity : Z)
  : M t (bool * InventoryReply) :=
  self <- get ;;
  if (capacity self <=? Z.of_nat (List.length (items self)))%Z
     && negb (owns self item_id)
  then ret (false, IrFull)
  else
    (match dict_get (items self) item_id with
     | Some q =>
         modify (set_items (dict_set (items self) item_id (q + quantity)%Z))
     | None => modify (set_items (dict_set (items self) item_id quantity))
     end) ;;;
    item <- get_item item_id ;;
    item_name <- name_of item ;;
    ret (true, IrAdded quantity item_name).

Definition remove_item (item_id : string) (quantity : Z)
  : M t (bool * InventoryReply) :=
  self <- get ;;
  match dict_get (items self) item_id with
  | None => ret (false, IrNotFound)
  | Some q =>
      if (q <? quantity)%Z then ret (false, IrNotEnough)
      else
        item <- get_item item_id ;;
        modify (set_items (dict_set (items self) item_id (q - quantity)%Z)) ;;;
        self <- get ;;
        (if (q - quantity <=? 0)%Z then
           match dict_del (items self) item_id with
           | None => raise KeyError
           | Some d => modify (set_items d)
           end
         else ret tt) ;;;
        item_name <- name_of item ;;
        ret (true, IrRemoved item_name)
  end.

Definition has_item (self : t) (item_id : string) : bool :=
  match dict_get (items self) item_id with
  | Some q => (0 <? q)%Z
  | None => false
  end.

Definition can_add_item (self : t) (item_id : string) : bool :=
  (Z.of_nat (List.length (items self)) <? capacity self)%Z
  || owns self item_id.

(** The state of a call that takes the player: the inventory and the
    player, of whom the methods read and write [health],
    [max_health], [strength] and [defense]. *)
Definition St : Type := (t * Fighter.t)%type.

Definition on_inventory {A : Type} (m : M t A) : M St A :=
  zoom fst (fun i s => (i, snd s)) m.

Definition use_item (item_id : string) : M St (bool * InventoryReply) :=
  s <- get ;;
  if negb (owns (fst s) item_id) then ret (false, IrNotOwned)
  else
    item <- on_inventory (get_item item_id) ;;
    match item with
    | None => raise AttributeError
    | Some i =>
        if String.eqb (Item.type i) "konsumpcyjny" then
          match dict_get (Item.properties i) "healing" with
          | Some healing =>
              let player := snd s in
              if Qeq_bool (Fighter.health player) (Fighter.max_health player)
              then ret (false, IrFullHealth)
              else
                modify (fun s =>
                  (fst s,
                   Fighter.set_health
                     (py_min (Fighter.max_health (snd s))
                        (Fighter.health (snd s) + healing))
                     (snd s))) ;;;
                r <- on_inventory (remove_item item_id 1) ;;
                if fst r then ret (true, IrUsed (Item.name i) healing)
                else ret (false, IrCannotUse)
          | None => ret (false, IrCannotUse)
          end
        else ret (false, IrCannotUse)
    end.

(** [equip_item(item_id, player)]: the class has [equipped_items] and
    no attribute [equipped], so the read of [self.equipped[slot]]
    raises [AttributeError]. *)
Definition equip_item (item_id : string) : M St (bool * InventoryReply) :=
  s <- get ;;
  if negb (owns (fst s) item_id) then ret (false, IrNotOwned)
  else
    item <- on_inventory (get_item item_id) ;;
    match item with
    | None => raise AttributeError
    | Some i =>
        if negb (String.eqb (Item.type i) "broń"
                 || String.eqb (Item.type i) "zbroja")
        then ret (false, IrCannotEquip)
        else raise AttributeError
    end.
End Inventory.
End inventory_py.

(** * Example data *)

Module Examples.
(** An effect whose only modifier is [m] on the strength. *)
Definition strength_effect (m : Q) : StatusEffect.t := {|
  StatusEffect.name := "Might";
  StatusEffect.type := "buff";
  StatusEffect.stat_modifiers := [("strength"%string, m)];
  StatusEffect.duration := 3;
  StatusEffect.tick_interval := 1;
  StatusEffect.last_tick := 0;
  StatusEffect.description := EmptyString;
  StatusEffect.is_permanent := false;
  StatusEffect.can_stack := false;
  StatusEffect.icon := EmptyString
|}.

(** An effect that raises strength by half. *)
Definition might : StatusEffect.t := strength_effect (1 # 2).

(** The default stats with a negative maximum of health. *)
Definition cursed_stats : Stats.t := Stats.set_max_health (-5) Stats.default.

(** An effect that multiplies the dodge chance by four. *)
Definition evasion : StatusEffect.t := {|
  StatusEffect.name := "Evasion";
  StatusEffect.type := "buff";
  StatusEffect.stat_modifiers := [("dodge_chance"%string, 3)];
  StatusEffect.duration := 3;
  StatusEffect.tick_interval := 1;
  StatusEffect.last_tick := 0;
  StatusEffect.description := EmptyString;
  StatusEffect.is_permanent := false;
  StatusEffect.can_stack := false;
  StatusEffect.icon := EmptyString
|}.

(** Entities built from data with the default stats. *)
Definition hero : Entity.t := Entity.init "hero" "Hero" Stats.default.
Definition wolf : Entity.t := Entity.init "wolf" "Wolf" Stats.default.

(** The wolf after it has died. *)
Definition dead_wolf : Entity.t := final (Entity.die wolf).

(** The hero after [add_status_effect(evasion)]. *)
Definition evasive_hero : Entity.t :=
  final (Entity.add_status_effect evasion hero).

(** A damage-over-time effect of 10 points a tick.  Its key is no
    stat, so attaching it changes no stat. *)
Definition burn : StatusEffect.t := {|
  StatusEffect.name := "Burn";
  StatusEffect.type := "dot";
  StatusEffect.stat_modifiers := [("burn"%string, 10)];
  StatusEffect.duration := 3;
  StatusEffect.tick_interval := 1;
  StatusEffect.last_tick := 0;
  StatusEffect.description := EmptyString;
  StatusEffect.is_permanent := false;
  StatusEffect.can_stack := false;
  StatusEffect.icon := EmptyString
|}.

(** The hero after [add_status_effect(burn)]. *)
Definition burning_hero : Entity.t :=
  final (Entity.add_status_effect burn hero).

(** The poison of the specification: a damage-over-time effect
    with the modifier -5 on health. *)
Definition poison : StatusEffect.t := {|
  StatusEffect.name := "Poison";
  StatusEffect.type := "dot";
  StatusEffect.stat_modifiers := [("health"%string, -5)];
  StatusEffect.duration := 3;
  StatusEffect.tick_interval := 1;
  StatusEffect.last_tick := 0;
  StatusEffect.description := EmptyString;
  StatusEffect.is_permanent := false;
  StatusEffect.can_stack := false;
  StatusEffect.icon := EmptyString
|}.

(** The hero after [add_status_effect(poison)]: attaching the effect
    multiplies the health by 1 - 5 and clamps it to 0. *)
Definition poisoned_hero : Entity.t :=
  final (Entity.add_status_effect poison hero).

(** A permanent effect that regenerates 5 points of health a tick. *)
Definition aura : StatusEffect.t := {|
  StatusEffect.name := "Aura";
  StatusEffect.type := "resource_regen";
  StatusEffect.stat_modifiers := [("health"%string, 5)];
  StatusEffect.duration := 0;
  StatusEffect.tick_interval := 1;
  StatusEffect.last_tick := 0;
  StatusEffect.description := EmptyString;
  StatusEffect.is_permanent := true;
  StatusEffect.can_stack := false;
  StatusEffect.icon := EmptyString
|}.

(** The hero under the aura, killed by a hit of 1000. *)
Definition slain_hero : Entity.t :=
  fst (final (Entity.take_damage 1000 "physical"
                (final (Entity.add_status_effect aura hero),
                 Rng.const (1 # 2)))).

(** The hero with another base defense. *)
Definition hero_with_defense (d : Q) : Entity.t :=
  Entity.on_stats (Stats.set_defense d) hero.



(** An entity whose data give it no health at all, and the same
    entity after a hit has killed it. *)
Definition husk : Entity.t :=
  Entity.init "husk" "Husk"
    (Stats.set_health 0 (Stats.set_max_health 0 Stats.default)).
Definition dead_husk : Entity.t :=
  fst (final (Entity.take_damage 10 "physical" (husk, Rng.const (1 # 2)))).

(** An ability that costs 30 stamina and reaches one unit far. *)
Definition strike : Ability.t := {|
  Ability.name := "Strike";
  Ability.damage := 20;
  Ability.cooldown := 3;
  Ability.cost := Ability.CostDict [("stamina"%string, 30)];
  Ability.effects := [];
  Ability.requirements := Ability.no_requirements;
  Ability.range := 1;
  Ability.area_of_effect := 0;
  Ability.cast_time := 0;
  Ability.description := EmptyString
|}.

(** The hero with the ability loaded. *)
Definition striker : Entity.t := {|
  Entity.id := "hero"; Entity.name := "Hero";
  Entity.description := EmptyString; Entity.level := 1;
  Entity.stats := Stats.default; Entity.position := Position.origin;
  Entity.status_effects := [];
  Entity.is_alive := true; Entity.is_stunned := false;
  Entity.is_invisible := false;
  Entity.in_combat := false; Entity.last_attack_time := 0;
  Entity.attack_cooldown := 1;
  Entity.combat_stats := CombatStats.init;
  Entity.inventory := None; Entity.gold := 0;
  Entity.abilities := [("strike"%string, strike)];
  Entity.resistances := []; Entity.skill_bonuses := [];
  Entity._cooldowns := [];
  Entity.get_skill_level := None; Entity.get_cooldown_reduction := None
|}.

(** A wolf five units away, and a nimble wolf next to the hero. *)
Definition far_wolf : Entity.t := {|
  Entity.id := "wolf"; Entity.name := "Wolf";
  Entity.description := EmptyString; Entity.level := 1;
  Entity.stats := Stats.default;
  Entity.position := {| Position.x := 5; Position.y := 0; Position.z := 0 |};
  Entity.status_effects := [];
  Entity.is_alive := true; Entity.is_stunned := false;
  Entity.is_invisible := false;
  Entity.in_combat := false; Entity.last_attack_time := 0;
  Entity.attack_cooldown := 1;
  Entity.combat_stats := CombatStats.init;
  Entity.inventory := None; Entity.gold := 0;
  Entity.abilities := []; Entity.resistances := [];
  Entity.skill_bonuses := []; Entity._cooldowns := [];
  Entity.get_skill_level := None; Entity.get_cooldown_reduction := None
|}.

Definition nimble_wolf : Entity.t :=
  Entity.on_stats (Stats.set_dodge_chance (6 # 10)) wolf.

Definition cfg : GameConfig.t :=
  {| GameConfig.game_time := 0; GameConfig.combat_turn_duration := 1 |}.

(** A session between the hero and the wolf, as constructed. *)
Definition fight : CombatInstance.t :=
  CombatInstance.init cfg hero wolf "hero_wolf_0" 1.

(** The session after [end()] has set [end_time]. *)
Definition ended_fight : CombatInstance.t :=
  CombatInstance.set_end_time (Some 0) fight.

(** The session with the dictionary [combat_stats] attached and two
    attacks already counted in the combo. *)
Definition combo_fight : CombatInstance.t :=
  CombatInstance.set_player_status
    {| PlayerStatus.stamina := 100;
       PlayerStatus.defense_bonus := 0;
       PlayerStatus.status_effects := [];
       PlayerStatus.combo_counter := 2;
       PlayerStatus.dodge_chance := 5 # 100;
       PlayerStatus.crit_chance := 5 # 100 |}
    (CombatInstance.set_combat_stats
       (Some [("rounds"%string, 0); ("critical_hits"%string, 0);
              ("player_damage_dealt"%string, 0)])
       fight).

(** The same session before any attack of the combo. *)
Definition fresh_fight : CombatInstance.t :=
  CombatInstance.set_combat_stats
    (Some [("rounds"%string, 0); ("critical_hits"%string, 0);
           ("player_damage_dealt"%string, 0)])
    fight.

(** That session after [end()] has set [end_time]. *)
Definition ended_fresh_fight : CombatInstance.t :=
  CombatInstance.set_end_time (Some 0) fresh_fight.
End Examples.

(** * Predicates of the properties *)

(** The twelve names for which [hasattr] holds. *)
Definition stat_names : list string :=
  [ "health"; "max_health"; "stamina"; "max_stamina"; "mana"; "max_mana";
    "strength"; "defense"; "agility"; "intelligence"; "critical_chance";
    "dodge_chance" ]%string.

(** The death invariant: [is_alive == (stats.health > 0)]. *)
Definition death_invariant (e : Entity.t) : Prop :=
  Entity.is_alive e = true <-> 0 < Stats.health (Entity.stats e).


(** The base damage of the basic attack of a session, doubled by a
    critical hit. *)
Definition attack_base (c : CombatInstance.t) (is_crit : bool) : Q :=
  let base_damage := Stats.strength (Entity.stats (CombatInstance.player c)) in
  let base_damage :=
    match Entity.inventory (CombatInstance.player c) with
    | Some inv =>
        match Inventory.equipped_weapon inv with
        | Some weapon_damage => base_damage + weapon_damage
        | None => base_damage
        end
    | None => base_damage
    end in
  if is_crit then base_damage * 2 else base_damage.

(** What a dictionary of costs charges for a resource:
    [cost.get(resource, 0)]. *)
Definition cost_of (costs : list (string * Q)) (resource : string) : Q :=
  match dict_get costs resource with Some v => v | None => 0 end.

(** What [die] establishes and its loop keeps: health 0, below a
    positive maximum. *)
Definition at_rest (s : Stats.t) : Prop :=
  Stats.health s == 0 /\ 0 < Stats.max_health s.

(** [m] keeps [P]: from a state in [P], the state in which [m] ends,
    by a return or by an exception, is in [P]. *)
Definition keeps {S A : Type} (P : S -> Prop) (m : M S A) : Prop :=
  forall s, P s -> P (final (m s)).

(** A [resource_regen] effect that does not regenerate health. *)
Definition regen_ok (effect : StatusEffect.t) : Prop :=
  StatusEffect.type effect = "resource_regen"%string ->
  forall sm, In sm (StatusEffect.stat_modifiers effect) ->
             fst sm <> "health"%string.

(** An entity with a positive maximum of health and, when it is dead,
    a health of 0. *)
Definition settled (e : Entity.t) : Prop :=
  0 < Stats.max_health (Entity.stats e)
  /\ (Entity.is_alive e = false -> Stats.health (Entity.stats e) == 0).

Definition update_ready (e : Entity.t) : Prop :=
  settled e /\ Forall regen_ok (Entity.status_effects e).

(** An entity with at most [n] status effects. *)
Definition at_most (n : nat) (e : Entity.t) : Prop :=
  (List.length (Entity.status_effects e) <= n)%nat.


(** ** Predicates of the further properties *)

(** The statistics after the hits [hits], each a damage and whether it
    was critical, have been recorded in turn. *)
Definition record_hits (c : CombatStats.t) (hits : list (Q * bool))
  : CombatStats.t :=
  fold_left (fun c h => CombatStats.update_damage_stats c (fst h) (snd h))
    hits c.

(** The modifiers of an effect are a dictionary: no key occurs twice. *)
Definition modifiers_wf (effect : StatusEffect.t) : Prop :=
  NoDup (map fst (StatusEffect.stat_modifiers effect)).

(** The number of effects of a list that bear the name [n]. *)
Definition count_named (n : string) (l : list StatusEffect.t) : nat :=
  List.length (filter (fun e => String.eqb (StatusEffect.name e) n) l).

(** An effect whose tick does something: damage, healing or
    regeneration over time. *)
Definition ticks (effect : StatusEffect.t) : bool :=
  String.eqb (StatusEffect.type effect) "dot"
  || String.eqb (StatusEffect.type effect) "hot"
  || String.eqb (StatusEffect.type effect) "resource_regen".

(** An effect that [_update_status_effects] keeps. *)
Definition is_active (effect : StatusEffect.t) : bool :=
  StatusEffect.is_permanent effect || (0 <? StatusEffect.duration effect)%Z.

(** A kept effect after the round: one unit of duration is used up
    unless the effect is permanent, and [last_tick] is the time of the
    round when a tick was due. *)
Definition aged (game_time : Q) (effect : StatusEffect.t) : StatusEffect.t :=
  let effect :=
    if negb (StatusEffect.is_permanent effect)
    then StatusEffect.set_duration (StatusEffect.duration effect - 1)%Z effect
    else effect in
  if Qleb (StatusEffect.tick_interval effect)
          (game_time - StatusEffect.last_tick effect)
  then StatusEffect.set_last_tick game_time effect
  else effect.

(** The stats after the expired effects of [l] have been reverted in
    turn. *)
Definition revert_expired (l : list StatusEffect.t) (st : Stats.t) : Stats.t :=
  fold_left (fun st x => StatusEffect.remove x st)
    (filter (fun x => negb (is_active x)) l) st.

(** An effect that is still active after [n] rounds, and what the list
    then shows of it: its name and the duration left. *)
Definition outlasts (n : Z) (x : StatusEffect.t) : bool :=
  StatusEffect.is_permanent x || (n <=? StatusEffect.duration x)%Z.

Definition worn (n : Z) (x : StatusEffect.t) : string * Z :=
  (StatusEffect.name x,
   if StatusEffect.is_permanent x then StatusEffect.duration x
   else (StatusEffect.duration x - n)%Z).

(** [n] calls of [m] in a row. *)
Fixpoint repeat_call {S : Type} (n : nat) (m : M S unit) : M S unit :=
  match n with
  | O => ret tt
  | S n' => bind m (fun _ => repeat_call n' m)
  end.

(** What [regen_modifiers.get(resource, 1.0)] reads. *)
Definition regen_of (mods : list (string * Q)) (resource : string) : Q :=
  match dict_get mods resource with Some v => v | None => 1 end.

(** The length of the cooldown that [_set_ability_cooldown] starts. *)
Definition effective_cooldown (self : Entity.t) (ability : Ability.t) : Q :=
  match Entity.get_cooldown_reduction self with
  | Some reduction => Ability.cooldown ability * (1 - reduction)
  | None => Ability.cooldown ability
  end.

(** Data that [_load_abilities] accepts: every entry has a name. *)
Definition named (entry : string * Entity.AbilityData) : Prop :=
  Entity.data_name (snd entry) <> None.

(** What [use_ability] reads of the caller when it sets the cooldown. *)
Definition same_setup (u0 : Entity.t) (u : Entity.t) : Prop :=
  Entity.abilities u = Entity.abilities u0
  /\ Entity._cooldowns u = Entity._cooldowns u0
  /\ Entity.get_cooldown_reduction u = Entity.get_cooldown_reduction u0.

(** What decides whether a session is finished and who has won. *)
Definition same_standing (c0 : CombatInstance.t) (c : CombatInstance.t) : Prop :=
  Entity.is_alive (CombatInstance.player c)
  = Entity.is_alive (CombatInstance.player c0)
  /\ Entity.is_alive (CombatInstance.enemy c)
     = Entity.is_alive (CombatInstance.enemy c0)
  /\ CombatInstance.end_time c = CombatInstance.end_time c0.

(** The cooldowns after one round: each entry above 1 loses one turn,
    the others leave the dictionary. *)
Definition tick_cooldowns (cds : list (string * Z)) : list (string * Z) :=
  map (fun kv => (fst kv, (snd kv - 1)%Z))
    (filter (fun kv => (1 <? snd kv)%Z) cds).

(** The inventory holds no more kinds of item than its capacity. *)
Definition within_capacity (s : inventory_py.Inventory.t) : Prop :=
  (Z.of_nat (List.length (inventory_py.Inventory.items s)) <= inventory_py.Inventory.capacity s)%Z.

(** The items after [quantity] pieces of [item_id] have been stored. *)
Definition stored (s : inventory_py.Inventory.t) (item_id : string) (quantity : Z)
  : inventory_py.Inventory.t :=
  inventory_py.Inventory.set_items
    (dict_set (inventory_py.Inventory.items s) item_id
       (match dict_get (inventory_py.Inventory.items s) item_id with
        | Some q => (q + quantity)%Z
        | None => quantity
        end))
    s.

(** The items after [quantity] pieces of [item_id] have been taken
    out of the [q] pieces held: the entry leaves the dictionary when
    nothing is left. *)
Definition taken (s : inventory_py.Inventory.t) (item_id : string) (q quantity : Z)
  : inventory_py.Inventory.t :=
  inventory_py.Inventory.set_items
    (if (q - quantity <=? 0)%Z
     then match dict_del (inventory_py.Inventory.items s) item_id with
          | Some d => d
          | None => inventory_py.Inventory.items s
          end
     else dict_set (inventory_py.Inventory.items s) item_id (q - quantity)%Z)
    s.

(** The item that the manager of the inventory knows under
    [item_id], if there is a manager and it knows one. *)
Definition known_item (s : inventory_py.Inventory.t) (item_id : string) : option Item.t :=
  match inventory_py.Inventory.item_manager s with
  | Some im => ItemManager.get_item im item_id
  | None => None
  end.

(** The quantity held of an item; nothing when the item is not a key. *)
Definition held (s : inventory_py.Inventory.t) (item_id : string) : option Z :=
  dict_get (inventory_py.Inventory.items s) item_id.

Module InventoryScenario.
Definition potion : Item.t := {|
  Item.id := "potion"; Item.name := "Mikstura";
  Item.description := "Leczy rany"; Item.type := "konsumpcyjny";
  Item.properties := [("healing"%string, 20)]
|}.
Definition sword : Item.t := {|
  Item.id := "sword"; Item.name := "Miecz";
  Item.description := "Ostry"; Item.type := "broń";
  Item.properties := [("damage"%string, 5)]
|}.
Definition shop : ItemManager.t :=
  {| ItemManager._items := [("potion"%string, potion); ("sword"%string, sword)] |}.
(** A bag of two kinds that holds three potions and a sword. *)
Definition bag : inventory_py.Inventory.t := {|
  inventory_py.Inventory.capacity := 2;
  inventory_py.Inventory.items := [("potion"%string, 3%Z); ("sword"%string, 1%Z)];
  inventory_py.Inventory.equipped_items := [];
  inventory_py.Inventory.item_manager := Some shop
|}.
(** The bag of an inventory whose manager was never set. *)
Definition loose_bag : inventory_py.Inventory.t := inventory_py.Inventory.init 2.
Definition hero : Fighter.t := {|
  Fighter.name := "Hero"; Fighter.strength := 10; Fighter.defense := 5;
  Fighter.health := 50; Fighter.max_health := 100; Fighter.level := 5;
  Fighter.get_skill_level := fun _ => 0
|}.
End InventoryScenario.

(** * Properties *)

(** ** Comparisons, [min], [max] *)

Lemma Qleb_true (x y : Q) : Qleb x y = true <-> x <= y.
Proof. unfold Qleb. apply Qle_bool_iff. Qed.

Lemma Qleb_false (x y : Q) : Qleb x y = false <-> y < x.
Proof.
  unfold Qleb. split; intros H.
  - apply Qnot_le_lt. intros Hle. apply Qle_bool_iff in Hle. congruence.
  - destruct (Qle_bool x y) eqn:E; [| reflexivity].
    apply Qle_bool_iff in E. exfalso. lra.
Qed.

Lemma Qltb_true (x y : Q) : Qltb x y = true <-> x < y.
Proof.
  unfold Qltb. rewrite negb_true_iff. apply (Qleb_false y x).
Qed.

Lemma Qltb_false (x y : Q) : Qltb x y = false <-> y <= x.
Proof.
  unfold Qltb. rewrite negb_false_iff. apply (Qleb_true y x).
Qed.

Lemma Qltb_spec (x y : Q) : BoolSpec (x < y) (y <= x) (Qltb x y).
Proof.
  destruct (Qltb x y) eqn:E; constructor.
  - now apply Qltb_true.
  - now apply Qltb_false.
Qed.

Lemma Qleb_spec (x y : Q) : BoolSpec (x <= y) (y < x) (Qleb x y).
Proof.
  destruct (Qleb x y) eqn:E; constructor.
  - now apply Qleb_true.
  - now apply Qleb_false.
Qed.

Lemma py_max_lower (a b : Q) : a <= py_max a b.
Proof. unfold py_max. destruct (Qltb_spec a b); lra. Qed.

Lemma py_max_upper (a b : Q) : b <= py_max a b.
Proof. unfold py_max. destruct (Qltb_spec a b); lra. Qed.

Lemma py_min_left (a b : Q) : py_min a b <= a.
Proof. unfold py_min. destruct (Qltb_spec b a); lra. Qed.

Lemma py_min_right (a b : Q) : py_min a b <= b.
Proof. unfold py_min. destruct (Qltb_spec b a); lra. Qed.

Lemma py_min_glb (a b c : Q) : c <= a -> c <= b -> c <= py_min a b.
Proof. unfold py_min. destruct (Qltb_spec b a); lra. Qed.

Lemma py_max_mono (a x y : Q) : x <= y -> py_max a x <= py_max a y.
Proof.
  unfold py_max. intros H.
  destruct (Qltb_spec a x), (Qltb_spec a y); lra.
Qed.

(** ** Running a computation *)

Lemma bind_get_run {S B : Type} (k : S -> M S B) (s : S) :
  bind get k s = k s s.
Proof. reflexivity. Qed.

Lemma _try_dodge_run (e : Entity.t) (rng : Rng.t) :
  Entity._try_dodge (e, rng)
  = Ok (e, snd (Rng.random rng))
       (Qltb (fst (Rng.random rng)) (Entity.dodge_chance_rolled e)).
Proof. reflexivity. Qed.

Lemma _is_critical_hit_run (e : Entity.t) (rng : Rng.t) :
  Entity._is_critical_hit (e, rng)
  = Ok (e, snd (Rng.random rng))
       (Qltb (fst (Rng.random rng)) (Entity.crit_chance_rolled e)).
Proof. reflexivity. Qed.

(** ** The names of the stats *)

Lemma getattr_Some_name (s : Stats.t) (n : string) (v : Q) :
  Stats.getattr s n = Some v -> In n stat_names.
Proof.
  unfold Stats.getattr, stat_names. intros H.
  repeat match type of H with
         | (if String.eqb ?a ?b then _ else _) = _ =>
             destruct (String.eqb_spec a b) as [->|_]; [simpl; tauto |]
         end.
  discriminate.
Qed.

Ltac each_stat_name H :=
  unfold stat_names in H; simpl in H;
  repeat (destruct H as [<- | H]); [.. | contradiction].

(** On a name that is no attribute, [modify_stat] changes nothing. *)
Lemma modify_stat_unknown (s : Stats.t) (stat_name : string) (value : Q)
    (is_percentage : bool) :
  Stats.getattr s stat_name = None ->
  Stats.modify_stat s stat_name value is_percentage = s.
Proof. intros H. unfold Stats.modify_stat. now rewrite H. Qed.

(** C3, as amended.  [modify_stat] on a name that is an attribute
    leaves that attribute clamped: a [max_] stat is at least 1; a stat
    with a [max_] counterpart is at most that maximum, which the call
    does not change, and is non-negative when the maximum is; a stat
    without a counterpart is non-negative. *)
Theorem modify_stat_clamped (s : Stats.t) (stat_name : string) (value : Q)
    (is_percentage : bool) (current : Q) :
  Stats.getattr s stat_name = Some current ->
  exists v,
    Stats.getattr (Stats.modify_stat s stat_name value is_percentage) stat_name
      = Some v
    /\ if Stats.is_max_name stat_name then 1 <= v
       else
         Stats.getattr (Stats.modify_stat s stat_name value is_percentage)
           ("max_" ++ stat_name)
           = Stats.getattr s ("max_" ++ stat_name)
         /\ match Stats.getattr s ("max_" ++ stat_name) with
            | Some max_stat => v <= max_stat /\ (0 <= max_stat -> 0 <= v)
            | None => 0 <= v
            end.
Proof.
  intros Hget. pose proof (getattr_Some_name _ _ _ Hget) as Hin.
  each_stat_name Hin;
    unfold Stats.modify_stat; rewrite Hget; cbn;
    eexists; (split; [reflexivity |]);
    repeat split;
    try apply py_max_upper; try apply py_max_lower;
    try apply py_min_right;
    try (intros; apply py_min_glb; [apply py_max_lower | assumption]).
Qed.

(** The default entity's health after [modify_stat('health', -30)]. *)
Lemma modify_stat_clamped_witness :
  exists v,
    Stats.getattr (Stats.modify_stat Stats.default "health" (-30) false) "health"
      = Some v
    /\ Stats.getattr (Stats.modify_stat Stats.default "health" (-30) false)
         "max_health"
         = Stats.getattr Stats.default "max_health"
    /\ v <= 100 /\ (0 <= 100 -> 0 <= v).
Proof.
  destruct (modify_stat_clamped Stats.default "health" (-30) false 100 eq_refl)
    as [v [Hv Hrest]].
  exists v. split; [exact Hv |]. exact Hrest.
Defined.

(** C3, the claim as stated fails: a freshly constructed [Stats()] has
    [max_mana = 0], below 1; and under a negative maximum of health,
    [modify_stat('health', 0)] leaves the health negative. *)
Lemma stat_bounds_counterexample :
  ~ (1 <= Stats.max_mana Stats.default)
  /\ Stats.health (Stats.modify_stat Examples.cursed_stats "health" 0 false)
     == -5
  /\ ~ (0 <= Stats.health
               (Stats.modify_stat Examples.cursed_stats "health" 0 false)).
Proof.
  split; [| split].
  - cbn. intros H. apply Qle_bool_iff in H. discriminate.
  - reflexivity.
  - intros H. apply Qle_bool_iff in H. vm_compute in H. discriminate.
Qed.

(** ** Effects: application and removal *)

(** C2, the code at a failing input.  [apply] multiplies the strength
    10 of the default stats by 1 + 0.5 and [remove] multiplies the
    result by 1 - 0.5: the strength ends at 7.5, not at 10. *)
Theorem apply_remove_not_inverse :
  Stats.strength (StatusEffect.apply Examples.might Stats.default) == 15
  /\ Stats.strength
       (StatusEffect.remove Examples.might
          (StatusEffect.apply Examples.might Stats.default)) == 15 # 2
  /\ ~ Stats.strength
         (StatusEffect.remove Examples.might
            (StatusEffect.apply Examples.might Stats.default))
       == Stats.strength Stats.default.
Proof.
  repeat split.
  intros H. vm_compute in H. discriminate.
Qed.

Lemma py_max_0_nonneg (x : Q) : 0 <= x -> py_max 0 x == x.
Proof. intros H. unfold py_max. destruct (Qltb_spec 0 x); lra. Qed.

(** For a modifier [m] between -1 and 1, [apply] then [remove] scales a
    non-negative strength by 1 - m * m. *)
Lemma apply_remove_strength (s : Stats.t) (m : Q) :
  0 <= Stats.strength s -> - (1) <= m -> m <= 1 ->
  Stats.strength
    (StatusEffect.remove (Examples.strength_effect m)
       (StatusEffect.apply (Examples.strength_effect m) s))
  == Stats.strength s * (1 - m * m).
Proof.
  intros Hs Hlo Hhi. cbn.
  assert (H1 : 0 <= Stats.strength s * (1 + m)) by nra.
  pose proof (py_max_0_nonneg _ H1) as E1.
  pose proof (py_max_lower 0 (Stats.strength s * (1 + m))) as L1.
  assert (H2 : 0 <= py_max 0 (Stats.strength s * (1 + m)) * (1 + - m)) by nra.
  rewrite (py_max_0_nonneg _ H2). rewrite E1. ring.
Qed.

(** ** Dead actors *)

(** C5.  On an actor that is not alive, [take_damage] returns
    [(0, False, False)] and [heal] returns 0; [deal_damage] returns
    [(0, False, False)] when the caller or the target is not alive.
    Each call raises nothing and leaves the whole state as it was: the
    stats, the status effects and the combat statistics of the actors,
    and the random source. *)
Theorem dead_actor_calls_are_noops (e : Entity.t) :
  Entity.is_alive e = false ->
  (forall damage damage_type rng,
      Entity.take_damage damage damage_type (e, rng)
      = Ok (e, rng) (0, false, false))
  /\ (forall target base_damage damage_type rng,
         Entity.deal_damage base_damage damage_type (e, target, rng)
         = Ok (e, target, rng) (0, false, false))
  /\ (forall attacker base_damage damage_type rng,
         Entity.deal_damage base_damage damage_type (attacker, e, rng)
         = Ok (attacker, e, rng) (0, false, false))
  /\ (forall amount, Entity.heal amount e = Ok e 0).
Proof.
  intros Hdead. repeat split; intros.
  - unfold Entity.take_damage, bind, get. cbn. rewrite Hdead. reflexivity.
  - unfold Entity.deal_damage, bind, get. cbn. rewrite Hdead.
    rewrite orb_true_r. reflexivity.
  - unfold Entity.deal_damage, bind, get. cbn. rewrite Hdead. reflexivity.
  - unfold Entity.heal, bind, get. rewrite Hdead. reflexivity.
Qed.

Lemma dead_actor_calls_are_noops_witness :
  Entity.is_alive Examples.dead_wolf = false
  /\ Entity.take_damage 50 "physical" (Examples.dead_wolf, Rng.const (1 # 2))
     = Ok (Examples.dead_wolf, Rng.const (1 # 2)) (0, false, false)
  /\ Entity.heal 20 Examples.dead_wolf = Ok Examples.dead_wolf 0.
Proof.
  assert (H : Entity.is_alive Examples.dead_wolf = false) by reflexivity.
  split; [exact H |].
  destruct (dead_actor_calls_are_noops Examples.dead_wolf H)
    as [Htake [_ [_ Hheal]]].
  split; [apply Htake | apply Hheal].
Defined.

(** ** The winner of a session *)

(** C10.  [get_winner] returns [None] while the session is not
    finished.  It returns the player as soon as the enemy is dead,
    also when the player is dead too; the enemy when only the player
    is dead; and [None] when both are alive and the session was ended
    from outside. *)
Theorem get_winner_cases (c : CombatInstance.t) :
  (CombatInstance.is_finished c = false -> CombatInstance.get_winner c = None)
  /\ (Entity.is_alive (CombatInstance.enemy c) = false ->
      CombatInstance.is_finished c = true
      /\ CombatInstance.get_winner c = Some ThePlayer)
  /\ (Entity.is_alive (CombatInstance.enemy c) = true ->
      Entity.is_alive (CombatInstance.player c) = false ->
      CombatInstance.is_finished c = true
      /\ CombatInstance.get_winner c = Some TheEnemy)
  /\ (Entity.is_alive (CombatInstance.enemy c) = true ->
      Entity.is_alive (CombatInstance.player c) = true ->
      CombatInstance.end_time c <> None ->
      CombatInstance.is_finished c = true
      /\ CombatInstance.get_winner c = None).
Proof.
  unfold CombatInstance.get_winner, CombatInstance.is_finished.
  destruct (Entity.is_alive (CombatInstance.player c)),
           (Entity.is_alive (CombatInstance.enemy c)),
           (CombatInstance.end_time c);
    cbn; repeat split; intros; congruence.
Qed.

Lemma get_winner_cases_witness :
  CombatInstance.get_winner Examples.fight = None
  /\ CombatInstance.get_winner
       (CombatInstance.set_enemy Examples.dead_wolf Examples.fight)
     = Some ThePlayer
  /\ CombatInstance.get_winner Examples.ended_fight = None.
Proof.
  split; [| split].
  - apply (proj1 (get_winner_cases Examples.fight)). reflexivity.
  - apply (proj1 (proj2 (get_winner_cases
             (CombatInstance.set_enemy Examples.dead_wolf Examples.fight)))).
    reflexivity.
  - apply (proj2 (proj2 (proj2 (get_winner_cases Examples.ended_fight)))).
    + reflexivity.
    + reflexivity.
    + discriminate.
Defined.

(** ** Dodge and critical chances *)

(** C6, as amended.  The chance that [_try_dodge] and
    [_is_critical_hit] compare with the random number never exceeds
    0.75, whatever effects are stacked: each function returns whether
    the number drawn is below that capped chance. *)
Theorem rolled_chances_capped (e : Entity.t) (rng : Rng.t) :
  Entity.dodge_chance_rolled e <= 75 # 100
  /\ Entity.crit_chance_rolled e <= 75 # 100
  /\ Entity._try_dodge (e, rng)
     = Ok (e, snd (Rng.random rng))
          (Qltb (fst (Rng.random rng)) (Entity.dodge_chance_rolled e))
  /\ Entity._is_critical_hit (e, rng)
     = Ok (e, snd (Rng.random rng))
          (Qltb (fst (Rng.random rng)) (Entity.crit_chance_rolled e)).
Proof.
  split; [| split; [| split]].
  - unfold Entity.dodge_chance_rolled. apply py_min_left.
  - unfold Entity.crit_chance_rolled. apply py_min_left.
  - apply _try_dodge_run.
  - apply _is_critical_hit_run.
Qed.

(** A number drawn at 0.75 or above never dodges and never crits. *)
Lemma high_roll_never_succeeds (e : Entity.t) (rng : Rng.t) :
  75 # 100 <= fst (Rng.random rng) ->
  returned (Entity._try_dodge (e, rng)) = Some false
  /\ returned (Entity._is_critical_hit (e, rng)) = Some false.
Proof.
  intros H. rewrite _try_dodge_run, _is_critical_hit_run.
  cbn [returned]. split; f_equal; apply Qltb_false.
  - unfold Entity.dodge_chance_rolled.
    eapply Qle_trans; [apply py_min_left | exact H].
  - unfold Entity.crit_chance_rolled.
    eapply Qle_trans; [apply py_min_left | exact H].
Qed.

(** C6, the claim as stated fails: read through [current_stats], the
    dodge chance of the default entity under one effect that
    multiplies it by four is 0.8. *)
Lemma current_stats_dodge_counterexample :
  Stats.dodge_chance (Entity.fields (Entity.current_stats Examples.evasive_hero))
    == 8 # 10
  /\ ~ (Stats.dodge_chance
          (Entity.fields (Entity.current_stats Examples.evasive_hero))
        <= 75 # 100).
Proof.
  split.
  - reflexivity.
  - intros H. vm_compute in H. apply H. reflexivity.
Qed.

(** ** The basic attack of a session *)

(** C9, the code at a failing input.  The third attack of a combo by
    a player of strength 10 on an enemy of defense 5 and health 100,
    without a critical hit: the call returns, the counter reaches 3
    and the log reports 6 points of damage, but the enemy's health is
    95, as after the same attack without a combo, and not 94. *)
Theorem combo_bonus_not_applied :
  let o := CombatInstance._handle_player_attack Examples.cfg
             (Examples.combo_fight, Rng.const (1 # 2)) in
  let o0 := CombatInstance._handle_player_attack Examples.cfg
              (Examples.fresh_fight, Rng.const (1 # 2)) in
  returned o = Some (true, AttackDone)
  /\ PlayerStatus.combo_counter (CombatInstance.player_status (fst (final o)))
     = 3%Z
  /\ map CombatInstance.message (CombatInstance.combat_log (fst (final o)))
     = [LogComboBonus; LogDamage (5 * (12 # 10)) false]
  /\ Stats.health (Entity.stats (CombatInstance.enemy (fst (final o)))) == 95
  /\ Stats.health (Entity.stats (CombatInstance.enemy (fst (final o0)))) == 95
  /\ ~ Stats.health (Entity.stats (CombatInstance.enemy (fst (final o))))
       == 100 - 5 * (12 # 10).
Proof.
  cbv zeta. repeat split.
  intros H. vm_compute in H. discriminate.
Qed.

Lemma on_session_run {A : Type} (m : M CombatInstance.t A)
    (c : CombatInstance.t) (rng : Rng.t) :
  CombatInstance.on_session m (c, rng)
  = match m c with
    | Ok c' a => Ok (c', rng) a
    | Raise c' x => Raise (c', rng) x
    end.
Proof. reflexivity. Qed.

Lemma combat_stats_add_run (key : string) (amount : Q) (c : CombatInstance.t) :
  (exists d, CombatInstance.combat_stats_add key amount c
             = Ok (CombatInstance.set_combat_stats (Some d) c) tt)
  \/ (exists x, CombatInstance.combat_stats_add key amount c = Raise c x).
Proof.
  unfold CombatInstance.combat_stats_add, bind, get.
  destruct (CombatInstance.combat_stats c) as [d|]; [| right; eexists; reflexivity].
  destruct (dict_get d key); [left | right]; eexists; reflexivity.
Qed.

(** Whenever the attack returns, it has lowered the enemy's health by
    the damage computed before the combo: the combo counter has no
    part in it. *)
Lemma attack_damage_ignores_combo (cfg : GameConfig.t) (c : CombatInstance.t)
    (rng : Rng.t) (s' : CombatInstance.St) (r : bool * Reply) :
  CombatInstance._handle_player_attack cfg (c, rng) = Ok s' r ->
  Stats.health (Entity.stats (CombatInstance.enemy (fst s')))
  = Stats.health (Entity.stats (CombatInstance.enemy c))
    - py_max 1
        (attack_base c
           (Qltb (fst (Rng.random rng))
                 (PlayerStatus.crit_chance (CombatInstance.player_status c)))
         - (Stats.defense (Entity.stats (CombatInstance.enemy c))
            + EnemyStatus.defense_bonus (CombatInstance.enemy_status c))).
Proof.
  unfold CombatInstance._handle_player_attack.
  rewrite bind_get_run. cbn [fst snd].
  unfold bind at 1. cbn [CombatInstance.random Rng.random fst snd].
  unfold attack_base.
  set (base := match Entity.inventory (CombatInstance.player c) with
               | Some inv => _
               | None => _
               end).
  destruct (Qltb (Rng.tape rng (Rng.pos rng))
              (PlayerStatus.crit_chance (CombatInstance.player_status c))).
  - unfold bind at 1. unfold bind at 1. rewrite on_session_run.
    destruct (combat_stats_add_run "critical_hits" 1 c) as [[d ->] | [x ->]];
      [| discriminate].
    unfold bind at 1. rewrite on_session_run. cbn [CombatInstance.add_combat_log modify].
    unfold ret at 1.
    unfold bind at 1. rewrite on_session_run. cbn [modify].
    unfold bind at 1. rewrite on_session_run.
    match goal with
    | |- context [CombatInstance.combat_stats_add ?k ?a ?c1] =>
        destruct (combat_stats_add_run k a c1) as [[d1 ->] | [x ->]];
          [| discriminate]
    end.
    unfold bind at 1. rewrite on_session_run. cbn [modify].
    rewrite bind_get_run. cbn [fst snd].
    destruct (3 <=? _)%Z; cbn; intros H; injection H as <- _; reflexivity.
  - unfold bind at 1. unfold ret at 1.
    unfold bind at 1. rewrite on_session_run. cbn [modify].
    unfold bind at 1. rewrite on_session_run.
    match goal with
    | |- context [CombatInstance.combat_stats_add ?k ?a ?c1] =>
        destruct (combat_stats_add_run k a c1) as [[d1 ->] | [x ->]];
          [| discriminate]
    end.
    unfold bind at 1. rewrite on_session_run. cbn [modify].
    rewrite bind_get_run. cbn [fst snd].
    destruct (3 <=? _)%Z; cbn; intros H; injection H as <- _; reflexivity.
Qed.

(** On the session as [__init__] leaves it, the same attack lowers
    the enemy's health and then raises [AttributeError] at
    [self.combat_stats], before the combo counter is updated. *)
Lemma attack_without_combat_stats :
  let o := CombatInstance._handle_player_attack Examples.cfg
             (Examples.fight, Rng.const (1 # 2)) in
  raised o = Some AttributeError
  /\ Stats.health (Entity.stats (CombatInstance.enemy (fst (final o)))) == 95
  /\ PlayerStatus.combo_counter (CombatInstance.player_status (fst (final o)))
     = 0%Z.
Proof.
  cbv zeta. repeat split.
Qed.

(** ** A finished session *)

(** C4, as amended.  [is_finished()] is true exactly when the player
    is not alive, or the enemy is not alive, or [end_time] is set.
    Once it is true, [update] returns at once and changes nothing; and
    the defend action never changes a participant: it writes the
    session's own [player_status] and log only. *)
Theorem finished_session (u : CombatInstance.Undefined) (cfg : GameConfig.t)
    (c : CombatInstance.t) (rng : Rng.t) :
  (CombatInstance.is_finished c = true <->
   Entity.is_alive (CombatInstance.player c) = false
   \/ Entity.is_alive (CombatInstance.enemy c) = false
   \/ CombatInstance.end_time c <> None)
  /\ (CombatInstance.is_finished c = true ->
      forall game_time,
        CombatInstance.update u cfg game_time (c, rng) = Ok (c, rng) tt)
  /\ (let o := CombatInstance.handle_player_action u cfg "defend" None None
                 (c, rng) in
      returned o = Some (true, DefendDone)
      /\ CombatInstance.player (fst (final o)) = CombatInstance.player c
      /\ CombatInstance.enemy (fst (final o)) = CombatInstance.enemy c).
Proof.
  split; [| split].
  - unfold CombatInstance.is_finished.
    destruct (Entity.is_alive (CombatInstance.player c)),
             (Entity.is_alive (CombatInstance.enemy c)),
             (CombatInstance.end_time c); cbn; split; intros H;
      try reflexivity; try discriminate; try tauto.
    + right. right. discriminate.
    + destruct H as [H | [H | H]]; congruence.
  - intros Hfin game_time.
    unfold CombatInstance.update, bind, get. cbn. rewrite Hfin. reflexivity.
  - cbn. repeat split.
Qed.

Lemma finished_session_witness :
  CombatInstance.is_finished Examples.ended_fight = true
  /\ CombatInstance.update CombatInstance.undefined_as_is Examples.cfg 5
       (Examples.ended_fight, Rng.const (1 # 2))
     = Ok (Examples.ended_fight, Rng.const (1 # 2)) tt.
Proof.
  assert (H : CombatInstance.is_finished Examples.ended_fight = true)
    by reflexivity.
  split; [exact H |].
  apply (proj1 (proj2 (finished_session CombatInstance.undefined_as_is
                         Examples.cfg Examples.ended_fight
                         (Rng.const (1 # 2)))) H).
Defined.

(** C4, the claim as stated fails: on a session that [end] has
    closed, with both participants alive, the attack action is
    accepted and lowers the enemy's health from 100 to 95.  On the
    session without [combat_stats] it lowers the health as well,
    before it raises [AttributeError]. *)
Lemma finished_attack_counterexample :
  let o := CombatInstance.handle_player_action CombatInstance.undefined_as_is
             Examples.cfg "attack" None None
             (Examples.ended_fresh_fight, Rng.const (1 # 2)) in
  let o' := CombatInstance.handle_player_action CombatInstance.undefined_as_is
              Examples.cfg "attack" None None
              (Examples.ended_fight, Rng.const (1 # 2)) in
  CombatInstance.is_finished Examples.ended_fresh_fight = true
  /\ returned o = Some (true, AttackDone)
  /\ Stats.health
       (Entity.stats (CombatInstance.enemy Examples.ended_fresh_fight)) == 100
  /\ Stats.health (Entity.stats (CombatInstance.enemy (fst (final o)))) == 95
  /\ ~ Stats.health (Entity.stats (CombatInstance.enemy (fst (final o))))
       == Stats.health
            (Entity.stats (CombatInstance.enemy Examples.ended_fresh_fight))
  /\ CombatInstance.is_finished Examples.ended_fight = true
  /\ raised o' = Some AttributeError
  /\ Stats.health (Entity.stats (CombatInstance.enemy (fst (final o')))) == 95.
Proof.
  cbv zeta. repeat split.
  intros H. vm_compute in H. discriminate.
Qed.

(** ** Damage and defense *)

Lemma round_half_even_mono (x y : Q) :
  x <= y -> (round_half_even x <= round_half_even y)%Z.
Proof.
  intros Hxy. unfold round_half_even.
  pose proof (Qfloor_resp_le x y Hxy) as Hf.
  pose proof (Qfloor_le x) as Hx1. pose proof (Qlt_floor x) as Hx2.
  pose proof (Qfloor_le y) as Hy1. pose proof (Qlt_floor y) as Hy2.
  rewrite inject_Z_plus in Hx2, Hy2.
  destruct (Z.eq_dec (Qfloor x) (Qfloor y)) as [E | NE].
  - rewrite E in *.
    destruct (Qltb_spec (x - inject_Z (Qfloor y)) (1 # 2)),
             (Qltb_spec (y - inject_Z (Qfloor y)) (1 # 2)),
             (Qltb_spec (1 # 2) (x - inject_Z (Qfloor y))),
             (Qltb_spec (1 # 2) (y - inject_Z (Qfloor y)));
      try lia; try (exfalso; lra);
      destruct (Z.even (Qfloor y)); lia.
  - assert (Qfloor x + 1 <= Qfloor y)%Z by lia.
    destruct (Qltb (x - inject_Z (Qfloor x)) (1 # 2)),
             (Qltb (y - inject_Z (Qfloor y)) (1 # 2)),
             (Qltb (1 # 2) (x - inject_Z (Qfloor x))),
             (Qltb (1 # 2) (y - inject_Z (Qfloor y)));
      try lia;
      destruct (Z.even (Qfloor x)), (Z.even (Qfloor y)); lia.
Qed.

Lemma round1_mono (x y : Q) : x <= y -> round1 x <= round1 y.
Proof.
  intros H. unfold round1.
  assert (Hm : (round_half_even (x * 10) <= round_half_even (y * 10))%Z).
  { apply round_half_even_mono. lra. }
  rewrite Zle_Qle in Hm.
  unfold Qdiv. apply Qmult_le_compat_r; [exact Hm |].
  apply Qinv_le_0_compat. lra.
Qed.













(** ** Loops *)

Lemma for_each_ok {S A : Type} (P : S -> Prop) (l : list A)
    (body : A -> M S unit) :
  (forall a s, P s -> exists s', body a s = Ok s' tt /\ P s') ->
  forall s, P s -> exists s', for_each l body s = Ok s' tt /\ P s'.
Proof.
  intros Hbody. induction l as [| a rest IH]; intros s Hs; cbn.
  - exists s. split; [reflexivity | exact Hs].
  - unfold bind. destruct (Hbody a s Hs) as [s1 [-> Hs1]].
    apply IH. exact Hs1.
Qed.

(** ** Death *)

Lemma modify_stat_at_rest (s : Stats.t) (n : string) (v : Q) :
  at_rest s -> at_rest (Stats.modify_stat s n v true).
Proof.
  intros [Hh Hm]. unfold Stats.modify_stat.
  destruct (Stats.getattr s n) as [c|] eqn:G; [| split; assumption].
  pose proof (getattr_Some_name _ _ _ G) as Hin.
  destruct s. cbn in Hh, Hm.
  each_stat_name Hin; cbn in G |- *; injection G as <-;
    unfold at_rest; cbn; try (split; assumption).
  - split; [| assumption].
    unfold py_min, py_max.
    destruct (Qltb_spec 0 (health * (1 + v))) as [A | A].
    + exfalso. rewrite Hh in A. lra.
    + destruct (Qltb_spec max_health 0); [exfalso; lra | reflexivity].
  - split; [assumption |].
    pose proof (py_max_lower 1 (max_health * (1 + v))). lra.
Qed.

Lemma remove_at_rest (effect : StatusEffect.t) (s : Stats.t) :
  at_rest s -> at_rest (StatusEffect.remove effect s).
Proof.
  unfold StatusEffect.remove.
  generalize (StatusEffect.stat_modifiers effect) as mods.
  intros mods. revert s.
  induction mods as [| sm rest IH]; intros s Hs; cbn.
  - exact Hs.
  - apply IH. now apply modify_stat_at_rest.
Qed.

(** [_remove_effect] returns, and changes the stats and the list of
    effects only. *)
Lemma _remove_effect_ok (effect : StatusEffect.t) (e : Entity.t) :
  exists e',
    Entity._remove_effect effect e = Ok e' tt
    /\ Entity.is_alive e' = Entity.is_alive e
    /\ Entity.stats e' = StatusEffect.remove effect (Entity.stats e).
Proof.
  unfold Entity._remove_effect, bind, modify, get, put. cbn.
  destruct (StatusEffect.list_remove (Entity.status_effects e) effect);
    eexists; repeat split.
Qed.

(** [die] always returns and leaves the actor dead. *)
Lemma die_dead (e : Entity.t) :
  exists e', Entity.die e = Ok e' tt /\ Entity.is_alive e' = false.
Proof.
  unfold Entity.die, bind, get.
  destruct (Entity.is_alive e) eqn:Halive; cbn.
  2:{ exists e. split; [reflexivity | exact Halive]. }
  match goal with
  | |- context [for_each ?l ?body ?st] =>
      destruct (for_each_ok (fun x => Entity.is_alive x = false) l body)
        with st as [e1 [-> He1]]
  end.
  - intros effect s Hs. destruct (StatusEffect.is_permanent effect); cbn [negb].
    + exists s. split; [reflexivity | exact Hs].
    + destruct (_remove_effect_ok effect s) as [s' [-> [Ha _]]].
      exists s'. split; [reflexivity | congruence].
  - reflexivity.
  - exists e1. split; [reflexivity | exact He1].
Qed.

(** From a living actor with a positive maximum of health, [die] ends
    with health 0. *)
Lemma die_at_rest (e : Entity.t) :
  Entity.is_alive e = true ->
  0 < Stats.max_health (Entity.stats e) ->
  exists e',
    Entity.die e = Ok e' tt
    /\ Entity.is_alive e' = false
    /\ at_rest (Entity.stats e').
Proof.
  intros Halive Hmax.
  unfold Entity.die, bind, get. rewrite Halive. cbn.
  match goal with
  | |- context [for_each ?l ?body ?st] =>
      destruct (for_each_ok
                  (fun x => Entity.is_alive x = false
                            /\ at_rest (Entity.stats x)) l body)
        with st as [e1 [-> He1]]
  end.
  - intros effect s [Hs1 Hs2]. destruct (StatusEffect.is_permanent effect); cbn [negb].
    + exists s. split; [reflexivity | split; assumption].
    + destruct (_remove_effect_ok effect s) as [s' [-> [Ha Hst]]].
      exists s'. split; [reflexivity |]. split; [congruence |].
      rewrite Hst. now apply remove_at_rest.
  - split; [reflexivity |]. split; [reflexivity | exact Hmax].
  - exists e1. split; [reflexivity | exact He1].
Qed.

Lemma dead_at_rest_invariant (e : Entity.t) :
  Entity.is_alive e = false -> at_rest (Entity.stats e) -> death_invariant e.
Proof.
  intros Hd [Hh _]. unfold death_invariant. rewrite Hd, Hh.
  split; [discriminate | intros H; exfalso; lra].
Qed.

(** ** The death invariant *)

Lemma on_self_run {A : Type} (m : M Entity.t A) (e : Entity.t) (rng : Rng.t) :
  Entity.on_self m (e, rng)
  = match m e with
    | Ok e' a => Ok (e', rng) a
    | Raise e' x => Raise (e', rng) x
    end.
Proof. reflexivity. Qed.

Lemma _calculate_damage_run (base_damage : Q) (damage_type : string)
    (e : Entity.t) :
  (exists r, Entity._calculate_damage base_damage damage_type e = Ok e r)
  \/ Entity._calculate_damage base_damage damage_type e
     = Raise e ZeroDivisionError.
Proof.
  unfold Entity._calculate_damage, bind, get.
  destruct (Qeq_bool _ 0); [right | left; eexists]; reflexivity.
Qed.

Lemma take_damage_invariant (e : Entity.t) (damage : Q) (damage_type : string)
    (rng : Rng.t) :
  death_invariant e ->
  0 < Stats.max_health (Entity.stats e) ->
  death_invariant (fst (final (Entity.take_damage damage damage_type (e, rng)))).
Proof.
  intros Hinv Hmax.
  unfold Entity.take_damage, bind, get. cbn [fst snd].
  destruct (Entity.is_alive e) eqn:Halive; cbn [negb]; [| exact Hinv].
  rewrite _try_dodge_run.
  destruct (Qltb (fst (Rng.random rng)) (Entity.dodge_chance_rolled e)).
  - cbn. unfold death_invariant in *. cbn. exact Hinv.
  - unfold Entity.on_self at 1. unfold zoom. cbn [fst snd].
    destruct (_calculate_damage_run damage damage_type e) as [[r ->] | ->];
      [| exact Hinv].
    cbn [Entity.on_self zoom modify fst snd].
    set (e2 := Entity.on_combat_stats _ (Entity.on_stats _ e)).
    destruct (Qleb_spec (Stats.health (Entity.stats e2)) 0) as [Hle | Hgt].
    + destruct (die_at_rest e2) as [e3 [Hdie [Hdead Hrest]]];
        [exact Halive | exact Hmax |].
      rewrite on_self_run, Hdie. cbn. now apply dead_at_rest_invariant.
    + cbn. unfold death_invariant. split; intros _; [exact Hgt | exact Halive].
Qed.

Lemma heal_invariant (e : Entity.t) (amount : Q) :
  death_invariant e ->
  0 < Stats.max_health (Entity.stats e) ->
  0 <= amount * Entity.healing_modifier e ->
  death_invariant (final (Entity.heal amount e)).
Proof.
  intros Hinv Hmax Hamount.
  unfold Entity.heal, bind, get.
  destruct (Entity.is_alive e) eqn:Halive; cbn [negb]; [| exact Hinv].
  cbn. unfold death_invariant. cbn. rewrite Halive.
  split; intros _; [| reflexivity].
  assert (Hh : 0 < Stats.health (Entity.stats e)) by now apply Hinv.
  unfold py_min.
  destruct (Qltb_spec (Stats.health (Entity.stats e)
                       + amount * Entity.healing_modifier e)
                      (Stats.max_health (Entity.stats e))); lra.
Qed.

Lemma die_invariant (e : Entity.t) :
  death_invariant e ->
  0 < Stats.max_health (Entity.stats e) ->
  death_invariant (final (Entity.die e)).
Proof.
  intros Hinv Hmax.
  destruct (Entity.is_alive e) eqn:Halive.
  - destruct (die_at_rest e Halive Hmax) as [e' [-> [Hdead Hrest]]].
    cbn. now apply dead_at_rest_invariant.
  - unfold Entity.die, bind, get. rewrite Halive. exact Hinv.
Qed.

Lemma resurrect_invariant (e : Entity.t) :
  death_invariant e ->
  0 < Stats.max_health (Entity.stats e) ->
  death_invariant (final (Entity.resurrect_default e)).
Proof.
  intros Hinv Hmax.
  unfold Entity.resurrect_default, Entity.resurrect, bind, get.
  destruct (Entity.is_alive e) eqn:Halive; [exact Hinv |].
  cbn. unfold death_invariant. cbn.
  split; intros _; [lra | reflexivity].
Qed.

Lemma bind_assoc_run {S A B C : Type} (m : M S A) (k1 : A -> M S B)
    (k2 : B -> M S C) (s : S) :
  bind (bind m k1) k2 s = bind m (fun a => bind (k1 a) k2) s.
Proof. unfold bind. destruct (m s); reflexivity. Qed.

(** What [update] does: when the status effects and the resources
    are updated without an exception, the death check follows and
    the call of [_update_cooldowns] raises [AttributeError]; an
    exception of the first two steps leaves [update] as it is. *)
Lemma update_run (game_time : Q) (e : Entity.t) (rng : Rng.t) :
  Entity.update game_time (e, rng)
  = match (Entity._update_status_effects game_time ;;;
           Entity.on_self Entity._update_resources)%py (e, rng) with
    | Ok s2 _ =>
        Raise (if Qleb (Stats.health (Entity.stats (fst s2))) 0
                  && Entity.is_alive (fst s2)
               then final (Entity.die (fst s2)) else fst s2,
               snd s2)
          AttributeError
    | Raise s x => Raise s x
    end.
Proof.
  unfold Entity.update.
  rewrite <- (bind_assoc_run (Entity._update_status_effects game_time)
                (fun _ => Entity.on_self Entity._update_resources)).
  unfold bind at 1.
  destruct ((Entity._update_status_effects game_time ;;;
             Entity.on_self Entity._update_resources)%py (e, rng))
    as [[e2 r] [] | s x]; [| reflexivity].
  rewrite bind_get_run. cbn [fst snd].
  destruct (Qleb (Stats.health (Entity.stats e2)) 0 && Entity.is_alive e2).
  - unfold bind at 1. rewrite (on_self_run Entity.die).
    destruct (die_dead e2) as [e3 [-> _]]. reflexivity.
  - reflexivity.
Qed.

(** [update] never returns. *)
Lemma update_never_returns (game_time : Q) (e : Entity.t) (rng : Rng.t) :
  returned (Entity.update game_time (e, rng)) = None.
Proof.
  rewrite update_run.
  destruct ((Entity._update_status_effects game_time ;;;
             Entity.on_self Entity._update_resources)%py (e, rng));
    reflexivity.
Qed.

(** [update] passes its death check before it raises at
    [_update_cooldowns]: in the state that it leaves then, an actor
    that is alive has positive health. *)
Lemma update_alive_has_health (game_time : Q) (e : Entity.t) (rng : Rng.t)
    (s2 : Entity.St) :
  (Entity._update_status_effects game_time ;;;
   Entity.on_self Entity._update_resources)%py (e, rng) = Ok s2 tt ->
  Entity.is_alive (fst (final (Entity.update game_time (e, rng)))) = true ->
  0 < Stats.health
        (Entity.stats (fst (final (Entity.update game_time (e, rng))))).
Proof.
  intros Hfront. rewrite update_run, Hfront. cbn [final fst snd].
  destruct (Qleb_spec (Stats.health (Entity.stats (fst s2))) 0) as [Hle | Hgt];
    cbn [andb].
  - destruct (Entity.is_alive (fst s2)) eqn:Halive.
    + destruct (die_dead (fst s2)) as [e3 [-> Hdead]]. cbn [final].
      congruence.
    + congruence.
  - intros _. exact Hgt.
Qed.

(** ** Rules for [keeps] *)

Section Keeps.
Context {S : Type} (P : S -> Prop).

Lemma keeps_ret {A : Type} (a : A) : keeps P (ret a).
Proof. intros s Hs. exact Hs. Qed.

Lemma keeps_raise {A : Type} (e : exn) : keeps P (@raise S A e).
Proof. intros s Hs. exact Hs. Qed.

Lemma keeps_bind {A B : Type} (m : M S A) (k : A -> M S B) :
  keeps P m -> (forall a, keeps P (k a)) -> keeps P (bind m k).
Proof.
  intros Hm Hk s Hs. unfold bind. specialize (Hm s Hs).
  destruct (m s) as [s1 a | s1 e]; cbn in Hm.
  - now apply Hk.
  - exact Hm.
Qed.

Lemma keeps_bind_get {B : Type} (k : S -> M S B) :
  (forall s, P s -> P (final (k s s))) -> keeps P (bind get k).
Proof. intros Hk s Hs. unfold bind, get. now apply Hk. Qed.

Lemma keeps_modify (f : S -> S) :
  (forall s, P s -> P (f s)) -> keeps P (modify f).
Proof. intros Hf s Hs. cbn. now apply Hf. Qed.

Lemma keeps_for_each {A : Type} (l : list A) (body : A -> M S unit) :
  (forall a, In a l -> keeps P (body a)) -> keeps P (for_each l body).
Proof.
  induction l as [| a rest IH]; intros Hbody; cbn.
  - apply keeps_ret.
  - apply keeps_bind.
    + apply Hbody. now left.
    + intros _. apply IH. intros b Hb. apply Hbody. now right.
Qed.
End Keeps.

Lemma keeps_on_self {A : Type} (P : Entity.t -> Prop) (m : M Entity.t A) :
  keeps P m -> keeps (fun s : Entity.St => P (fst s)) (Entity.on_self m).
Proof.
  intros Hm [e rng] Hs. cbn in Hs. rewrite on_self_run.
  specialize (Hm e Hs). destruct (m e); cbn in *; exact Hm.
Qed.

(** ** The stats under [modify_stat] *)

Lemma modify_stat_max_health_positive (s : Stats.t) (n : string) (v : Q)
    (pct : bool) :
  0 < Stats.max_health s -> 0 < Stats.max_health (Stats.modify_stat s n v pct).
Proof.
  intros Hm. unfold Stats.modify_stat.
  destruct (Stats.getattr s n) as [c|] eqn:G; [| exact Hm].
  pose proof (getattr_Some_name _ _ _ G) as Hin.
  destruct s. cbn in Hm.
  each_stat_name Hin; cbn in G |- *; injection G as <-; try exact Hm.
  pose proof (py_max_lower 1
                (if pct then max_health * (1 + v) else max_health + v)).
  lra.
Qed.

Lemma remove_max_health_positive (effect : StatusEffect.t) (s : Stats.t) :
  0 < Stats.max_health s -> 0 < Stats.max_health (StatusEffect.remove effect s).
Proof.
  unfold StatusEffect.remove.
  generalize (StatusEffect.stat_modifiers effect) as mods.
  intros mods. revert s.
  induction mods as [| sm rest IH]; intros s Hs; cbn.
  - exact Hs.
  - apply IH. now apply modify_stat_max_health_positive.
Qed.

Lemma settled_remove (effect : StatusEffect.t) (e : Entity.t) :
  settled e -> settled (Entity.on_stats (StatusEffect.remove effect) e).
Proof.
  intros [Hm Hd]. split; cbn.
  - now apply remove_max_health_positive.
  - intros Hdead.
    assert (Hrest : at_rest (Entity.stats e)) by (split; auto).
    now destruct (remove_at_rest effect _ Hrest).
Qed.

Lemma list_remove_Forall (P : StatusEffect.t -> Prop)
    (l l' : list StatusEffect.t) (x : StatusEffect.t) :
  StatusEffect.list_remove l x = Some l' -> Forall P l -> Forall P l'.
Proof.
  revert l'. induction l as [| a rest IH]; intros l' H HP; cbn in H.
  - discriminate.
  - inversion HP as [| ? ? Ha Hrest]; subst.
    destruct (StatusEffect.eqb a x).
    + now injection H as <-.
    + destruct (StatusEffect.list_remove rest x) as [r|]; [| discriminate].
      injection H as <-. constructor; [exact Ha | now apply IH].
Qed.

Lemma list_set_Forall {A : Type} (P : A -> Prop) (i : nat) (v : A)
    (l : list A) :
  P v -> Forall P l -> Forall P (list_set i v l).
Proof.
  intros Hv. revert i. induction l as [| a rest IH]; intros i HP;
    destruct i; cbn; try constructor;
    inversion HP; subst; auto.
Qed.

Lemma list_set_length {A : Type} (i : nat) (v : A) (l : list A) :
  List.length (list_set i v l) = List.length l.
Proof.
  revert i. induction l as [| a rest IH]; intros i; destruct i; cbn;
    try reflexivity.
  now rewrite IH.
Qed.

(** ** What keeps an entity ready for [update] *)

Lemma _remove_effect_keeps (effect : StatusEffect.t) :
  keeps update_ready (Entity._remove_effect effect).
Proof.
  intros e [Hs Hf].
  unfold Entity._remove_effect, bind, modify, get, put. cbn.
  destruct (StatusEffect.list_remove (Entity.status_effects e) effect) as [l|] eqn:E;
    cbn; split; try (now apply (settled_remove effect e)).
  - cbn. eapply list_remove_Forall; eauto.
  - exact Hf.
Qed.

Lemma die_keeps : keeps update_ready Entity.die.
Proof.
  intros e [[Hm Hd] Hf].
  unfold Entity.die. unfold bind at 1. unfold get at 1.
  destruct (Entity.is_alive e) eqn:Halive; cbn [negb].
  2:{ cbn. repeat split; auto. }
  cbn [bind modify get Entity.status_effects Entity.on_combat_stats
       Entity.on_stats Entity.set_stats Entity.set_combat_stats
       Entity.set_is_alive].
  apply keeps_bind.
  - apply keeps_for_each. intros effect _.
    destruct (StatusEffect.is_permanent effect); cbn [negb].
    + apply keeps_ret.
    + apply _remove_effect_keeps.
  - intros _. apply keeps_ret.
  - split; [split |]; cbn.
    + exact Hm.
    + intros _. reflexivity.
    + exact Hf.
Qed.

Lemma heal_keeps (amount : Q) : keeps update_ready (Entity.heal amount).
Proof.
  intros e [[Hm Hd] Hf].
  unfold Entity.heal, bind, get.
  destruct (Entity.is_alive e) eqn:Halive; cbn [negb].
  2:{ cbn. repeat split; auto. }
  cbn. split; [split |]; cbn.
  - exact Hm.
  - rewrite Halive. discriminate.
  - exact Hf.
Qed.

Lemma take_damage_keeps (damage : Q) (damage_type : string) :
  keeps (fun s : Entity.St => update_ready (fst s))
        (Entity.take_damage damage damage_type).
Proof.
  intros [e rng] Hready. cbn [fst] in Hready.
  pose proof Hready as [[Hm Hd] Hf].
  unfold Entity.take_damage, bind, get. cbn [fst snd].
  destruct (Entity.is_alive e) eqn:Halive; cbn [negb]; [| exact Hready].
  rewrite _try_dodge_run.
  destruct (Qltb (fst (Rng.random rng)) (Entity.dodge_chance_rolled e)).
  - cbn. split; [split |]; cbn; auto. rewrite Halive. discriminate.
  - rewrite on_self_run.
    destruct (_calculate_damage_run damage damage_type e) as [[r ->] | ->];
      [| exact Hready].
    cbn [Entity.on_self zoom modify fst snd].
    set (e2 := Entity.on_combat_stats _ (Entity.on_stats _ e)).
    assert (H2 : update_ready e2).
    { split; [split |]; cbn; auto. rewrite Halive. discriminate. }
    destruct (Qleb (Stats.health (Entity.stats e2)) 0).
    + rewrite on_self_run. pose proof (die_keeps e2 H2) as Hdie.
      destruct (Entity.die e2); cbn in *; exact Hdie.
    + cbn. exact H2.
Qed.

(** A tick of [resource_regen] on a resource other than health. *)
Lemma regen_step_keeps (rv : string * Q) :
  fst rv <> "health"%string ->
  keeps update_ready
    (bind get (fun self =>
       match Stats.getattr (Entity.stats self) (fst rv) with
       | None => ret tt
       | Some current =>
           match Stats.getattr (Entity.stats self) ("max_" ++ fst rv) with
           | None => raise AttributeError
           | Some max_value =>
               modify (Entity.on_stats (fun st =>
                 Stats.setattr st (fst rv) (py_min max_value (current + snd rv))))
           end
       end)).
Proof.
  intros Hname. apply keeps_bind_get. intros e Hready.
  destruct (Stats.getattr (Entity.stats e) (fst rv)) as [c|] eqn:G;
    [| exact Hready].
  pose proof (getattr_Some_name _ _ _ G) as Hin.
  destruct rv as [n v]. cbn [fst snd] in *.
  destruct Hready as [[Hm Hd] Hf].
  each_stat_name Hin; try congruence; cbn;
    try exact (conj (conj Hm Hd) Hf);
    (split; [split |]; cbn; auto).
Qed.

Lemma _apply_effect_tick_keeps (effect : StatusEffect.t) :
  regen_ok effect ->
  keeps (fun s : Entity.St => update_ready (fst s))
        (Entity._apply_effect_tick effect).
Proof.
  intros Hok. unfold Entity._apply_effect_tick.
  destruct (String.eqb (StatusEffect.type effect) "dot").
  { apply keeps_bind; [apply take_damage_keeps | intros; apply keeps_ret]. }
  destruct (String.eqb (StatusEffect.type effect) "hot").
  { apply keeps_bind; [| intros; apply keeps_ret].
    apply (keeps_on_self update_ready). apply heal_keeps. }
  destruct (String.eqb_spec (StatusEffect.type effect) "resource_regen")
    as [Hty | _]; [| apply keeps_ret].
  apply (keeps_on_self update_ready). apply keeps_for_each.
  intros rv Hin. apply regen_step_keeps. now apply Hok.
Qed.

Lemma set_last_tick_in_list_Forall (before after : list StatusEffect.t)
    (i : nat) (effect : StatusEffect.t) :
  regen_ok effect -> Forall regen_ok after ->
  Forall regen_ok (Entity.set_last_tick_in_list before i effect after).
Proof.
  intros He Ha. unfold Entity.set_last_tick_in_list.
  destruct (Nat.eqb _ _); [now apply list_set_Forall |].
  destruct (StatusEffect.is_permanent effect);
    [now apply list_set_Forall | exact Ha].
Qed.

Lemma _update_status_effects_loop_keeps (game_time : Q) (fuel : nat) :
  forall i active_effects,
    keeps (fun s : Entity.St => update_ready (fst s))
          (Entity._update_status_effects_loop fuel game_time i active_effects).
Proof.
  induction fuel as [| fuel IH]; intros i active_effects; cbn.
  - apply keeps_ret.
  - apply keeps_bind_get. intros [e rng] Hready. cbn [fst] in *.
    destruct (nth_error (Entity.status_effects e) i) as [effect|] eqn:Hnth;
      [| exact Hready].
    assert (Hok : regen_ok effect).
    { destruct Hready as [_ Hf]. rewrite Forall_forall in Hf.
      apply Hf. eapply nth_error_In; eauto. }
    destruct (StatusEffect.is_permanent effect
              || (0 <? StatusEffect.duration effect)%Z).
    + set (effect1 := if negb (StatusEffect.is_permanent effect)
                      then StatusEffect.set_duration
                             (StatusEffect.duration effect - 1)%Z effect
                      else effect).
      assert (Hok1 : regen_ok effect1).
      { unfold effect1. destruct (negb _); exact Hok. }
      apply keeps_bind.
      * apply (keeps_on_self update_ready). apply keeps_modify.
        intros e0 [Hs Hf]. split; [exact Hs |]. cbn.
        apply list_set_Forall; [exact Hok1 |].
        now destruct Hready.
      * intros _. apply keeps_bind.
        -- destruct (Qleb _ _); [| apply keeps_ret].
           apply keeps_bind; [now apply _apply_effect_tick_keeps |].
           intros _. apply keeps_bind; [| intros; apply keeps_ret].
           apply (keeps_on_self update_ready). apply keeps_modify.
           intros e0 [Hs Hf]. split; [exact Hs |]. cbn.
           apply set_last_tick_in_list_Forall; [exact Hok1 | exact Hf].
        -- intros effect2. apply IH.
      * exact Hready.
    + apply keeps_bind.
      * apply (keeps_on_self update_ready). apply keeps_modify.
        intros e0 [Hs Hf]. split; [| exact Hf].
        now apply settled_remove.
      * intros _. apply IH.
      * exact Hready.
Qed.

Lemma _update_status_effects_settled (game_time : Q) (e : Entity.t)
    (rng : Rng.t) :
  update_ready e ->
  settled (fst (final (Entity._update_status_effects game_time (e, rng)))).
Proof.
  intros Hready. unfold Entity._update_status_effects, bind, get. cbn [fst].
  pose proof (_update_status_effects_loop_keeps game_time
                (List.length (Entity.status_effects e)) 0 [] (e, rng) Hready)
    as Hloop.
  destruct (Entity._update_status_effects_loop _ _ _ _ _) as [[e1 r1] act | [e1 r1] x];
    cbn in Hloop |- *; destruct Hloop as [[Hm Hd] _]; split; assumption.
Qed.

Lemma scale_regeneration_keeps (P : Entity.t -> Prop)
    (equipment_regen : list (string * Q)) :
  forall modifiers, keeps P (Entity.scale_regeneration equipment_regen modifiers).
Proof.
  induction equipment_regen as [| [resource value] rest IH]; intros modifiers;
    cbn.
  - apply keeps_ret.
  - destruct (dict_get modifiers resource); [apply IH | apply keeps_raise].
Qed.

Lemma _update_resources_keeps : keeps settled Entity._update_resources.
Proof.
  unfold Entity._update_resources. apply keeps_bind.
  - unfold Entity.get_regeneration_modifiers. apply keeps_bind_get.
    intros e He. destruct (existsb _ _); [exact He |].
    destruct (Entity.inventory e); [| exact He].
    now apply scale_regeneration_keeps.
  - intros regen_modifiers. apply keeps_bind_get. intros e He.
    assert (Hstep : forall f,
               (forall st, Stats.health (f st) = Stats.health st
                           /\ Stats.max_health (f st) = Stats.max_health st) ->
               keeps settled (modify (Entity.on_stats f))).
    { intros f Hf. apply keeps_modify. intros e0 [Hm Hd].
      destruct (Hf (Entity.stats e0)) as [Hh Hx].
      split; cbn; [now rewrite Hx | now rewrite Hh]. }
    apply keeps_bind; [| | exact He].
    + destruct (Qltb _ _); [| apply keeps_ret].
      apply Hstep. intros st. split; reflexivity.
    + intros _. apply keeps_bind_get. intros e1 He1.
      destruct (Qltb _ _); [| exact He1].
      apply (Hstep _ (fun st => conj eq_refl eq_refl)). exact He1.
Qed.

(** From an entity that is ready, an [update] that reaches the call
    of [_update_cooldowns] raises there and leaves the actor with the
    death invariant. *)
Lemma update_invariant (game_time : Q) (e : Entity.t) (rng : Rng.t)
    (s2 : Entity.St) :
  update_ready e ->
  (Entity._update_status_effects game_time ;;;
   Entity.on_self Entity._update_resources)%py (e, rng) = Ok s2 tt ->
  raised (Entity.update game_time (e, rng)) = Some AttributeError
  /\ death_invariant (fst (final (Entity.update game_time (e, rng)))).
Proof.
  intros Hready Hfront.
  pose proof (_update_status_effects_settled game_time e rng Hready) as H1.
  rewrite update_run, Hfront. cbn [final raised fst snd].
  split; [reflexivity |].
  assert (H2 : settled (fst s2)).
  { revert Hfront. unfold bind at 1.
    destruct (Entity._update_status_effects game_time (e, rng))
      as [[e1 r1] [] | ]; [| discriminate].
    cbn [final fst] in H1.
    rewrite (on_self_run Entity._update_resources).
    pose proof (_update_resources_keeps e1 H1) as H2.
    destruct (Entity._update_resources e1) as [e2 [] | ]; [| discriminate].
    intros H. injection H as <-. exact H2. }
  destruct H2 as [Hm Hd].
  assert (Hfinish : forall e3 : Entity.t,
             (Entity.is_alive e3 = true -> 0 < Stats.health (Entity.stats e3)) ->
             (Entity.is_alive e3 = false -> Stats.health (Entity.stats e3) == 0) ->
             death_invariant e3).
  { intros e3 Halive Hdead. unfold death_invariant.
    split; [exact Halive |].
    intros Hpos. destruct (Entity.is_alive e3); [reflexivity |].
    specialize (Hdead eq_refl). exfalso. lra. }
  destruct (Qleb_spec (Stats.health (Entity.stats (fst s2))) 0) as [Hle | Hgt];
    cbn [andb].
  - destruct (Entity.is_alive (fst s2)) eqn:Halive.
    + destruct (die_at_rest (fst s2) Halive Hm) as [e3 [-> [Hdead [Hh _]]]].
      cbn [final]. apply Hfinish; [congruence | intros _; exact Hh].
    + apply Hfinish; [congruence | intros _; now apply Hd].
  - apply Hfinish; [intros _; exact Hgt |].
    intros Hdead. specialize (Hd Hdead). exfalso. lra.
Qed.

(** ** The fuel of the loop over the status effects *)

Lemma bind_congr {S A B : Type} (P : S -> Prop) (m : M S A)
    (k1 k2 : A -> M S B) (s : S) :
  keeps P m -> P s ->
  (forall a s1, P s1 -> k1 a s1 = k2 a s1) ->
  bind m k1 s = bind m k2 s.
Proof.
  intros Hm Hs Hk. unfold bind. specialize (Hm s Hs).
  destruct (m s) as [s1 a | s1 x]; cbn in Hm; [now apply Hk | reflexivity].
Qed.

Lemma list_remove_length (l l' : list StatusEffect.t) (x : StatusEffect.t) :
  StatusEffect.list_remove l x = Some l' ->
  (List.length l' <= List.length l)%nat.
Proof.
  revert l'. induction l as [| a rest IH]; intros l' H; cbn in H.
  - discriminate.
  - destruct (StatusEffect.eqb a x).
    + injection H as <-. cbn. lia.
    + destruct (StatusEffect.list_remove rest x) as [r|]; [| discriminate].
      injection H as <-. cbn. specialize (IH r eq_refl). lia.
Qed.

Lemma die_at_most (n : nat) : keeps (at_most n) Entity.die.
Proof.
  intros e He.
  unfold Entity.die. unfold bind at 1. unfold get at 1.
  destruct (Entity.is_alive e); cbn [negb]; [| exact He].
  cbn [bind modify get Entity.status_effects Entity.on_combat_stats
       Entity.on_stats Entity.set_stats Entity.set_combat_stats
       Entity.set_is_alive].
  apply keeps_bind; [| intros; apply keeps_ret | exact He].
  apply keeps_for_each. intros effect _.
  destruct (StatusEffect.is_permanent effect); cbn [negb]; [apply keeps_ret |].
  clear. intros e He.
  unfold Entity._remove_effect, bind, modify, get, put. cbn.
  destruct (StatusEffect.list_remove (Entity.status_effects e) effect) as [l|] eqn:E;
    cbn; [| exact He].
  unfold at_most in *. cbn. apply list_remove_length in E. lia.
Qed.

Lemma take_damage_at_most (n : nat) (damage : Q) (damage_type : string) :
  keeps (fun s : Entity.St => at_most n (fst s))
        (Entity.take_damage damage damage_type).
Proof.
  intros [e rng] He. cbn [fst] in He.
  unfold Entity.take_damage, bind, get. cbn [fst snd].
  destruct (Entity.is_alive e); cbn [negb]; [| exact He].
  rewrite _try_dodge_run.
  destruct (Qltb (fst (Rng.random rng)) (Entity.dodge_chance_rolled e)).
  - cbn. exact He.
  - rewrite on_self_run.
    destruct (_calculate_damage_run damage damage_type e) as [[r ->] | ->];
      [| exact He].
    cbn [Entity.on_self zoom modify fst snd].
    set (e2 := Entity.on_combat_stats _ (Entity.on_stats _ e)).
    assert (H2 : at_most n e2) by exact He.
    destruct (Qleb (Stats.health (Entity.stats e2)) 0).
    + rewrite on_self_run. pose proof (die_at_most n e2 H2) as Hdie.
      destruct (Entity.die e2); cbn in *; exact Hdie.
    + cbn. exact H2.
Qed.

Lemma _apply_effect_tick_at_most (n : nat) (effect : StatusEffect.t) :
  keeps (fun s : Entity.St => at_most n (fst s))
        (Entity._apply_effect_tick effect).
Proof.
  unfold Entity._apply_effect_tick.
  destruct (String.eqb (StatusEffect.type effect) "dot").
  { apply keeps_bind; [apply take_damage_at_most | intros; apply keeps_ret]. }
  destruct (String.eqb (StatusEffect.type effect) "hot").
  { apply keeps_bind; [| intros; apply keeps_ret].
    apply (keeps_on_self (at_most n)).
    intros e He. unfold Entity.heal, bind, get.
    destruct (Entity.is_alive e); cbn; exact He. }
  destruct (String.eqb (StatusEffect.type effect) "resource_regen");
    [| apply keeps_ret].
  apply (keeps_on_self (at_most n)). apply keeps_for_each.
  intros rv _. apply keeps_bind_get. intros e He.
  destruct (Stats.getattr (Entity.stats e) (fst rv)); [| exact He].
  destruct (Stats.getattr (Entity.stats e) ("max_" ++ fst rv)); exact He.
Qed.

(** The loop stops by itself once [i] has passed the end of the list:
    fuel beyond the number of elements left changes nothing. *)
Lemma _update_status_effects_loop_fuel (game_time : Q) (fuel : nat) :
  forall i active_effects s k,
    (List.length (Entity.status_effects (fst s)) <= i + fuel)%nat ->
    Entity._update_status_effects_loop (fuel + k) game_time i active_effects s
    = Entity._update_status_effects_loop fuel game_time i active_effects s.
Proof.
  induction fuel as [| fuel IH]; intros i active_effects [e rng] k Hlen;
    cbn [fst] in Hlen.
  - destruct k; [reflexivity |]. cbn. unfold bind, get. cbn [fst].
    assert (Hnone : nth_error (Entity.status_effects e) i = None)
      by (apply nth_error_None; lia).
    now rewrite Hnone.
  - cbn [Nat.add Entity._update_status_effects_loop].
    rewrite !bind_get_run. cbn [fst].
    destruct (nth_error (Entity.status_effects e) i) as [effect|];
      [| reflexivity].
    set (P := fun s : Entity.St => at_most (S i + fuel) (fst s)).
    assert (HP : P (e, rng)) by (unfold P, at_most; cbn; lia).
    destruct (StatusEffect.is_permanent effect
              || (0 <? StatusEffect.duration effect)%Z).
    + apply (bind_congr P); [| exact HP |].
      * apply (keeps_on_self (at_most (S i + fuel))). apply keeps_modify.
        intros e0 _. unfold at_most in *. cbn. rewrite list_set_length.
        cbn in HP. exact HP.
      * intros _ s1 Hs1. apply (bind_congr P); [| exact Hs1 |].
        -- destruct (Qleb _ _); [| apply keeps_ret].
           apply keeps_bind; [apply _apply_effect_tick_at_most |].
           intros _. apply keeps_bind; [| intros; apply keeps_ret].
           apply (keeps_on_self (at_most (S i + fuel))). apply keeps_modify.
           intros e0 He0. unfold at_most in *. cbn.
           unfold Entity.set_last_tick_in_list.
           destruct (Nat.eqb _ _); [now rewrite list_set_length |].
           destruct (StatusEffect.is_permanent _);
             [now rewrite list_set_length | exact He0].
        -- intros effect2 s2 Hs2. apply IH. exact Hs2.
    + apply (bind_congr P); [| exact HP |].
      * apply (keeps_on_self (at_most (S i + fuel))). apply keeps_modify.
        intros e0 He0. exact He0.
      * intros _ s1 Hs1. apply IH. exact Hs1.
Qed.

(** C1, as amended.  When [is_alive == (stats.health > 0)] holds
    before the call and [max_health] is positive, it holds again after
    [take_damage], after [heal] with an amount that its modifiers leave
    non-negative, after [die] and after [resurrect] with the default
    fraction.  [update] never returns: the call of
    [self._update_cooldowns], a method that no class defines, raises
    [AttributeError].  When the status effects and the resources are
    updated without an exception, [update] raises there, after its
    death check, and the actor that it leaves has the invariant,
    provided the health was not negative and no active
    [resource_regen] effect regenerates health; and an actor that it
    leaves alive has positive health. *)
Theorem death_invariant_preserved (e : Entity.t) :
  death_invariant e ->
  0 < Stats.max_health (Entity.stats e) ->
  (forall damage damage_type rng,
      death_invariant
        (fst (final (Entity.take_damage damage damage_type (e, rng)))))
  /\ (forall amount,
         0 <= amount * Entity.healing_modifier e ->
         death_invariant (final (Entity.heal amount e)))
  /\ death_invariant (final (Entity.die e))
  /\ death_invariant (final (Entity.resurrect_default e))
  /\ (forall game_time rng,
         returned (Entity.update game_time (e, rng)) = None)
  /\ (forall game_time rng s2,
         0 <= Stats.health (Entity.stats e) ->
         Forall regen_ok (Entity.status_effects e) ->
         (Entity._update_status_effects game_time ;;;
          Entity.on_self Entity._update_resources)%py (e, rng) = Ok s2 tt ->
         raised (Entity.update game_time (e, rng)) = Some AttributeError
         /\ death_invariant (fst (final (Entity.update game_time (e, rng)))))
  /\ (forall game_time rng s2,
         (Entity._update_status_effects game_time ;;;
          Entity.on_self Entity._update_resources)%py (e, rng) = Ok s2 tt ->
         Entity.is_alive (fst (final (Entity.update game_time (e, rng))))
         = true ->
         0 < Stats.health
               (Entity.stats
                  (fst (final (Entity.update game_time (e, rng)))))).
Proof.
  intros Hinv Hmax.
  split; [| split; [| split; [| split; [| split; [| split]]]]].
  - intros. now apply take_damage_invariant.
  - intros. now apply heal_invariant.
  - now apply die_invariant.
  - now apply resurrect_invariant.
  - intros game_time rng. apply update_never_returns.
  - intros game_time rng s2 Hnonneg Hregen. apply update_invariant.
    split; [split |]; [exact Hmax | | exact Hregen].
    intros Hdead. destruct Hinv as [_ Hinv].
    destruct (Qlt_le_dec 0 (Stats.health (Entity.stats e))) as [Hpos | Hle].
    + specialize (Hinv Hpos). congruence.
    + lra.
  - intros game_time rng s2. apply update_alive_has_health.
Qed.

(** The hero under a burn: a hit of 50, a heal of 20, and an update at
    time 1 in which the burn ticks before the call raises. *)
Lemma death_invariant_preserved_witness :
  death_invariant
    (fst (final (Entity.take_damage 50 "physical"
                   (Examples.burning_hero, Rng.const (1 # 2)))))
  /\ death_invariant (final (Entity.heal 20 Examples.burning_hero))
  /\ (raised (Entity.update 1 (Examples.burning_hero, Rng.const (1 # 2)))
      = Some AttributeError
      /\ Stats.health
           (Entity.stats
              (fst (final (Entity.update 1
                             (Examples.burning_hero, Rng.const (1 # 2))))))
         == 905 # 10
      /\ death_invariant
           (fst (final (Entity.update 1
                          (Examples.burning_hero, Rng.const (1 # 2)))))).
Proof.
  assert (Hinv : death_invariant Examples.burning_hero).
  { unfold death_invariant. split; intros _; reflexivity. }
  assert (Hmax : 0 < Stats.max_health (Entity.stats Examples.burning_hero))
    by reflexivity.
  destruct (death_invariant_preserved Examples.burning_hero Hinv Hmax)
    as [Htake [Hheal [_ [_ [_ [Hupdate _]]]]]].
  split; [apply Htake |].
  split; [apply Hheal; unfold Qle; simpl; lia |].
  assert (Hfront : (Entity._update_status_effects 1 ;;;
                    Entity.on_self Entity._update_resources)%py
                     (Examples.burning_hero, Rng.const (1 # 2))
                   = Ok (final ((Entity._update_status_effects 1 ;;;
                                 Entity.on_self Entity._update_resources)%py
                                  (Examples.burning_hero, Rng.const (1 # 2))))
                       tt)
    by (vm_compute; reflexivity).
  assert (Hhealth : 0 <= Stats.health (Entity.stats Examples.burning_hero))
    by (unfold Qle; simpl; lia).
  assert (Hregen : Forall regen_ok
                     (Entity.status_effects Examples.burning_hero))
    by (repeat constructor; intros Hty; discriminate).
  destruct (Hupdate 1 (Rng.const (1 # 2)) _ Hhealth Hregen Hfront)
    as [Hraised Hdeath].
  split; [exact Hraised |]. split; [vm_compute; reflexivity | exact Hdeath].
Defined.

(** C1, the claim as stated fails.  [heal(-150)] leaves the default
    entity alive with a health of -50.  The entity that the poison of
    the specification has brought to a health of 0 is still alive
    after a [take_damage] that it dodges.  And an [update] regenerates
    the health of the slain entity under the aura to 5 while it stays
    dead, before it raises at [_update_cooldowns].  And [resurrect]
    leaves a dead entity whose maximum of health is 0 alive with a
    health of 0. *)
Lemma death_invariant_counterexample :
  (death_invariant Examples.hero
   /\ Entity.is_alive (final (Entity.heal (-150) Examples.hero)) = true
   /\ Stats.health (Entity.stats (final (Entity.heal (-150) Examples.hero)))
      == -50
   /\ ~ death_invariant (final (Entity.heal (-150) Examples.hero)))
  /\ (let o := Entity.take_damage 10 "physical"
                 (Examples.poisoned_hero, Rng.const (1 # 100)) in
      returned o = Some (0, true, false)
      /\ Entity.is_alive (fst (final o)) = true
      /\ Stats.health (Entity.stats (fst (final o))) == 0
      /\ ~ death_invariant (fst (final o)))
  /\ (let o := Entity.update 1 (Examples.slain_hero, Rng.const (1 # 2)) in
      death_invariant Examples.slain_hero
      /\ raised o = Some AttributeError
      /\ Entity.is_alive (fst (final o)) = false
      /\ Stats.health (Entity.stats (fst (final o))) == 5
      /\ ~ death_invariant (fst (final o)))
  /\ (death_invariant Examples.dead_husk
      /\ Entity.is_alive (final (Entity.resurrect_default Examples.dead_husk))
         = true
      /\ Stats.health
           (Entity.stats (final (Entity.resurrect_default Examples.dead_husk)))
         == 0
      /\ ~ death_invariant (final (Entity.resurrect_default Examples.dead_husk))).
Proof.
  split; [| split; [| split]].
  - split; [| split; [| split]].
    + unfold death_invariant. split; intros _; reflexivity.
    + reflexivity.
    + reflexivity.
    + unfold death_invariant. intros [H _]. specialize (H eq_refl).
      vm_compute in H. discriminate.
  - cbv zeta. split; [| split; [| split]].
    + vm_compute. reflexivity.
    + vm_compute. reflexivity.
    + vm_compute. reflexivity.
    + unfold death_invariant. intros [H _].
      assert (Ha : Entity.is_alive
                     (fst (final (Entity.take_damage 10 "physical"
                                    (Examples.poisoned_hero,
                                     Rng.const (1 # 100))))) = true)
        by (vm_compute; reflexivity).
      specialize (H Ha). vm_compute in H. discriminate.
  - cbv zeta. split; [| split; [| split; [| split]]].
    + unfold death_invariant. split; intros H; vm_compute in H; discriminate.
    + vm_compute. reflexivity.
    + vm_compute. reflexivity.
    + vm_compute. reflexivity.
    + unfold death_invariant. intros [_ H].
      assert (Hh : 0 < Stats.health
                         (Entity.stats
                            (fst (final (Entity.update 1
                                           (Examples.slain_hero,
                                            Rng.const (1 # 2)))))))
        by (vm_compute; reflexivity).
      specialize (H Hh). vm_compute in H. discriminate.
  - split; [| split; [| split]].
    + unfold death_invariant. split; intros H; vm_compute in H; discriminate.
    + vm_compute. reflexivity.
    + vm_compute. reflexivity.
    + unfold death_invariant. intros [H _].
      assert (Ha : Entity.is_alive
                     (final (Entity.resurrect_default Examples.dead_husk))
                   = true) by (vm_compute; reflexivity).
      specialize (H Ha). vm_compute in H. discriminate.
Qed.

(** ** Abilities *)

(** [can_use_ability] changes nothing. *)
Lemma can_use_ability_pure (ability_id : string) (now : Q) (e : Entity.t) :
  final (Entity.can_use_ability ability_id now e) = e.
Proof.
  unfold Entity.can_use_ability, bind, get.
  destruct (dict_get (Entity.abilities e) ability_id) as [ab|]; [| reflexivity].
  destruct (Entity._is_on_cooldown e ability_id now); [reflexivity |].
  unfold Ability.cost_get.
  destruct (Ability.cost ab) as [n | d]; [reflexivity |].
  cbn.
  repeat match goal with
         | |- context [if ?b then _ else _] => destruct b
         end; reflexivity.
Qed.

Lemma can_use_ability_Ok (ability_id : string) (now : Q) (e : Entity.t)
    (r : bool * Message) :
  returned (Entity.can_use_ability ability_id now e) = Some r ->
  Entity.can_use_ability ability_id now e = Ok e r.
Proof.
  intros H. pose proof (can_use_ability_pure ability_id now e) as Hp.
  destruct (Entity.can_use_ability ability_id now e); cbn in *;
    [congruence | discriminate].
Qed.

Lemma on_user_run {A : Type} (m : M Entity.t A) (u : Entity.t)
    (tg : option Entity.t) (rng : Rng.t) :
  Entity.on_user m (u, tg, rng)
  = match m u with
    | Ok u' a => Ok (u', tg, rng) a
    | Raise u' x => Raise (u', tg, rng) x
    end.
Proof. reflexivity. Qed.

Lemma with_target_run {A : Type} (tg0 : Entity.t) (m : M Entity.St2 A)
    (u tg : Entity.t) (rng : Rng.t) :
  Entity.with_target tg0 m (u, Some tg, rng)
  = match m (u, tg, rng) with
    | Ok s2 a => Ok (Entity.caller s2, Some (Entity.target s2), snd s2) a
    | Raise s2 x => Raise (Entity.caller s2, Some (Entity.target s2), snd s2) x
    end.
Proof. reflexivity. Qed.

Lemma on_caller_run {A : Type} (m : M Entity.St A) (c tg : Entity.t)
    (rng : Rng.t) :
  Entity.on_caller m (c, tg, rng)
  = match m (c, rng) with
    | Ok s a => Ok (fst s, tg, snd s) a
    | Raise s x => Raise (fst s, tg, snd s) x
    end.
Proof. reflexivity. Qed.

Lemma on_target_run {A : Type} (m : M Entity.St A) (c tg : Entity.t)
    (rng : Rng.t) :
  Entity.on_target m (c, tg, rng)
  = match m (tg, rng) with
    | Ok s a => Ok (c, fst s, snd s) a
    | Raise s x => Raise (c, fst s, snd s) x
    end.
Proof. reflexivity. Qed.

(** A living target whose roll is below its dodge chance takes no
    damage. *)
Lemma take_damage_dodged (tg : Entity.t) (damage : Q) (damage_type : string)
    (rng : Rng.t) :
  Entity.is_alive tg = true ->
  fst (Rng.random rng) < Entity.dodge_chance_rolled tg ->
  exists tg',
    Entity.take_damage damage damage_type (tg, rng)
    = Ok (tg', snd (Rng.random rng)) (0, true, false).
Proof.
  intros Ht Hroll. apply Qltb_true in Hroll.
  unfold Entity.take_damage, bind, get. cbn [fst snd].
  rewrite Ht. cbn [negb].
  rewrite _try_dodge_run.
  rewrite Hroll. cbn. eexists. reflexivity.
Qed.

(** A hit that the target dodges: [deal_damage] returns
    [(0, True, crit)] and leaves the stats and the cooldowns of the
    attacker as they were. *)
Lemma deal_damage_dodged (attacker tg : Entity.t) (base_damage : Q)
    (damage_type : string) (rng : Rng.t) :
  Entity.is_alive attacker = true ->
  Entity.is_alive tg = true ->
  Rng.tape rng (S (Rng.pos rng)) < Entity.dodge_chance_rolled tg ->
  exists s2 crit,
    Entity.deal_damage base_damage damage_type (attacker, tg, rng)
    = Ok s2 (0, true, crit)
    /\ Entity.stats (Entity.caller s2) = Entity.stats attacker
    /\ Entity._cooldowns (Entity.caller s2) = Entity._cooldowns attacker.
Proof.
  intros Ha Ht Hroll.
  unfold Entity.deal_damage.
  unfold bind at 1. unfold get at 1.
  cbn [Entity.caller Entity.target fst snd]. rewrite Ha, Ht. cbn [negb orb].
  unfold bind at 1. rewrite on_caller_run.
  rewrite _is_critical_hit_run.
  cbn [fst snd].
  unfold bind at 1. unfold get at 1.
  destruct (Qltb (fst (Rng.random rng)) (Entity.crit_chance_rolled attacker)).
  - unfold bind at 1. unfold bind at 1.
    rewrite on_caller_run. cbn [Entity.on_self zoom modify fst snd].
    unfold ret at 1. unfold bind at 1. unfold get at 1. unfold bind at 1.
    rewrite on_target_run.
    match goal with
    | |- context [Entity.take_damage ?d ?ty (tg, ?r)] =>
        destruct (take_damage_dodged tg d ty r Ht Hroll) as [tg' ->]
    end.
    cbn. eexists. eexists. repeat split.
  - unfold bind at 1. unfold ret at 1.
    unfold bind at 1. unfold get at 1. unfold bind at 1.
    rewrite on_target_run.
    match goal with
    | |- context [Entity.take_damage ?d ?ty (tg, ?r)] =>
        destruct (take_damage_dodged tg d ty r Ht Hroll) as [tg' ->]
    end.
    cbn. eexists. eexists. repeat split.
Qed.

(** C8, as amended.  For a call of [use_ability] on a target that
    passes [can_use_ability]: when the target is out of range, the
    call returns the failure before any cost is deducted and changes
    nothing; when the target is in range and dodges the primary hit,
    the call returns the failure with the stamina and the mana cost
    deducted and not refunded, and sets no cooldown. *)
Theorem failed_ability_cost (u tg : Entity.t) (ability_id : string)
    (ability : Ability.t) (costs : list (string * Q))
    (position_arg : option Position.t) (now : Q) (rng : Rng.t)
    (message : Message) :
  returned (Entity.can_use_ability ability_id now u) = Some (true, message) ->
  dict_get (Entity.abilities u) ability_id = Some ability ->
  Ability.cost ability = Ability.CostDict costs ->
  (Entity._is_in_ability_range u tg ability = false ->
   Entity.use_ability ability_id position_arg now (u, Some tg, rng)
   = Ok (u, Some tg, rng) (false, MsgOutOfRange, []))
  /\ (Entity._is_in_ability_range u tg ability = true ->
      0 < Ability.damage ability ->
      Entity.get_skill_level u = None ->
      Entity.is_alive u = true ->
      Entity.is_alive tg = true ->
      Rng.tape rng (S (Rng.pos rng)) < Entity.dodge_chance_rolled tg ->
      exists s',
        Entity.use_ability ability_id position_arg now (u, Some tg, rng)
        = Ok s' (false,
                 MsgDodged (Entity.name tg) (Ability.name ability), [])
        /\ Stats.stamina (Entity.stats (Entity.user s'))
           = Stats.stamina (Entity.stats u) - cost_of costs "stamina"
        /\ Stats.mana (Entity.stats (Entity.user s'))
           = Stats.mana (Entity.stats u) - cost_of costs "mana"
        /\ Entity._cooldowns (Entity.user s') = Entity._cooldowns u).
Proof.
  intros Hcan Hab Hcost.
  apply can_use_ability_Ok in Hcan.
  split.
  - intros Hrange.
    unfold Entity.use_ability. unfold bind at 1.
    rewrite on_user_run, Hcan. cbn [fst snd negb].
    unfold bind at 1. unfold get at 1. cbn [Entity.user Entity.aimed_at fst snd].
    rewrite Hab, Hrange. reflexivity.
  - intros Hrange Hdamage Hskill Hu Htg Hroll.
    unfold Entity.use_ability. unfold bind at 1.
    rewrite on_user_run, Hcan. cbn [fst snd negb].
    unfold bind at 1. unfold get at 1. cbn [Entity.user Entity.aimed_at fst snd].
    rewrite Hab, Hrange. cbn [negb].
    unfold Ability.cost_get. rewrite Hcost.
    apply Qltb_true in Hdamage. rewrite Hdamage, Hskill.
    unfold bind at 1. unfold ret at 1.
    unfold bind at 1. rewrite on_user_run. cbn [modify].
    unfold bind at 1. unfold ret at 1.
    unfold bind at 1. rewrite on_user_run. cbn [modify].
    unfold bind at 1. unfold bind at 1. unfold ret at 1.
    unfold bind at 1. rewrite with_target_run.
    match goal with
    | |- context [Entity.deal_damage ?b ?ty (?a, tg, rng)] =>
        destruct (deal_damage_dodged a tg b ty rng) as [s2 [crit [-> [Hs Hc]]]];
          [exact Hu | exact Htg | exact Hroll |]
    end.
    cbn [fst snd]. unfold ret at 1. cbn [fst snd].
    eexists. split; [reflexivity |].
    cbn [Entity.user fst]. rewrite Hs, Hc. repeat split.
Qed.

Lemma failed_ability_cost_witness :
  Entity.use_ability "strike" None 0
    (Examples.striker, Some Examples.far_wolf, Rng.const (1 # 2))
  = Ok (Examples.striker, Some Examples.far_wolf, Rng.const (1 # 2))
       (false, MsgOutOfRange, [])
  /\ exists s',
       Entity.use_ability "strike" None 0
         (Examples.striker, Some Examples.nimble_wolf, Rng.const (1 # 2))
       = Ok s' (false, MsgDodged "Wolf" "Strike", [])
       /\ Stats.stamina (Entity.stats (Entity.user s')) = 100 - 30
       /\ Entity._cooldowns (Entity.user s') = [].
Proof.
  split.
  - apply (proj1 (failed_ability_cost Examples.striker Examples.far_wolf
                    "strike" Examples.strike [("stamina"%string, 30)]
                    None 0 (Rng.const (1 # 2)) MsgEmpty
                    eq_refl eq_refl eq_refl)).
    reflexivity.
  - destruct (proj2 (failed_ability_cost Examples.striker Examples.nimble_wolf
                       "strike" Examples.strike [("stamina"%string, 30)]
                       None 0 (Rng.const (1 # 2)) MsgEmpty
                       eq_refl eq_refl eq_refl))
      as [s' [Hrun [Hstamina [_ Hcd]]]]; try reflexivity.
    exists s'. split; [exact Hrun |]. split; [exact Hstamina | exact Hcd].
Defined.

(** C8, the claim as stated fails: the call on a target out of range
    passes [can_use_ability] and returns the failure with the stamina
    at 100, although the ability costs 30. *)
Lemma out_of_range_cost_counterexample :
  let o := Entity.use_ability "strike" None 0
             (Examples.striker, Some Examples.far_wolf, Rng.const (1 # 2)) in
  returned (Entity.can_use_ability "strike" 0 Examples.striker)
  = Some (true, MsgEmpty)
  /\ returned o = Some (false, MsgOutOfRange, [])
  /\ Stats.stamina (Entity.stats Examples.striker) == 100
  /\ Stats.stamina (Entity.stats (Entity.user (final o))) == 100
  /\ ~ Stats.stamina (Entity.stats (Entity.user (final o))) == 100 - 30.
Proof.
  cbv zeta. repeat split.
  intros H. vm_compute in H. discriminate.
Qed.

(** * Further properties *)

(** ** Statistics, healing and damage *)

Lemma py_sum_shift (xs : list Q) (a : Q) :
  fold_left Qplus xs a == a + py_sum xs.
Proof.
  unfold py_sum. revert a.
  induction xs as [| x rest IH]; intros a; cbn.
  - lra.
  - rewrite (IH (a + x)), (IH (0 + x)). lra.
Qed.

Lemma py_sum_cons (x : Q) (xs : list Q) : py_sum (x :: xs) == x + py_sum xs.
Proof.
  change (py_sum (x :: xs)) with (fold_left Qplus xs (0 + x)).
  rewrite py_sum_shift. lra.
Qed.

Lemma update_damage_stats_step (c : CombatStats.t) (damage : Q) (crit : bool) :
  let c' := CombatStats.update_damage_stats c damage crit in
  CombatStats.damage_dealt c' = CombatStats.damage_dealt c + damage
  /\ CombatStats.critical_hits c'
     = (CombatStats.critical_hits c + (if crit then 1 else 0))%Z
  /\ CombatStats.highest_damage c'
     = py_max (CombatStats.highest_damage c) damage
  /\ CombatStats.damage_taken c' = CombatStats.damage_taken c
  /\ CombatStats.healing_done c' = CombatStats.healing_done c
  /\ CombatStats.dodges c' = CombatStats.dodges c
  /\ CombatStats.kills c' = CombatStats.kills c
  /\ CombatStats.deaths c' = CombatStats.deaths c
  /\ CombatStats.longest_combat c' = CombatStats.longest_combat c
  /\ CombatStats.highest_combo c' = CombatStats.highest_combo c.
Proof.
  unfold CombatStats.update_damage_stats, py_max. cbn.
  destruct (Qltb (CombatStats.highest_damage c) damage), crit; cbn;
    repeat split; lia.
Qed.

(** X1.  Recording a sequence of hits with [update_damage_stats] adds
    their damages to [damage_dealt] and the number of critical ones to
    [critical_hits]; [highest_damage] never decreases, bounds every
    recorded damage, and is the previous record or one of the damages.
    The other statistics, [damage_taken], [healing_done], [dodges],
    [kills], [deaths], [longest_combat] and [highest_combo], stay as
    they were. *)
Theorem update_damage_stats_totals (c : CombatStats.t) (hits : list (Q * bool)) :
  CombatStats.damage_dealt (record_hits c hits)
  == CombatStats.damage_dealt c + py_sum (map fst hits)
  /\ CombatStats.critical_hits (record_hits c hits)
     = (CombatStats.critical_hits c
        + Z.of_nat (List.length (filter snd hits)))%Z
  /\ CombatStats.highest_damage c <= CombatStats.highest_damage (record_hits c hits)
  /\ Forall (fun h => fst h <= CombatStats.highest_damage (record_hits c hits))
            hits
  /\ (CombatStats.highest_damage (record_hits c hits)
      = CombatStats.highest_damage c
      \/ In (CombatStats.highest_damage (record_hits c hits)) (map fst hits))
  /\ CombatStats.damage_taken (record_hits c hits) = CombatStats.damage_taken c
  /\ CombatStats.healing_done (record_hits c hits) = CombatStats.healing_done c
  /\ CombatStats.dodges (record_hits c hits) = CombatStats.dodges c
  /\ CombatStats.kills (record_hits c hits) = CombatStats.kills c
  /\ CombatStats.deaths (record_hits c hits) = CombatStats.deaths c
  /\ CombatStats.longest_combat (record_hits c hits)
     = CombatStats.longest_combat c
  /\ CombatStats.highest_combo (record_hits c hits)
     = CombatStats.highest_combo c.
Proof.
  revert c. induction hits as [| [d crit] rest IH]; intros c.
  - cbn. repeat split; try lra; try lia; auto.
  - unfold record_hits in *. cbn [fold_left fst snd map filter].
    destruct (update_damage_stats_step c d crit)
      as (E1 & E2 & E3 & E4 & E5 & E6 & E7 & E8 & E9 & E10).
    destruct (IH (CombatStats.update_damage_stats c d crit))
      as (I1 & I2 & I3 & I4 & I5 & I6 & I7 & I8 & I9 & I10 & I11 & I12).
    rewrite E1 in I1. rewrite E2 in I2. rewrite E3 in I3, I5.
    pose proof (py_max_lower (CombatStats.highest_damage c) d) as L1.
    pose proof (py_max_upper (CombatStats.highest_damage c) d) as L2.
    split; [rewrite I1, py_sum_cons; lra |].
    split.
    { rewrite I2. destruct crit; cbn [List.length]; lia. }
    split; [lra |].
    split.
    { constructor; [cbn; lra | exact I4]. }
    split.
    { destruct I5 as [I5 | I5].
      - rewrite I5. unfold py_max.
        destruct (Qltb (CombatStats.highest_damage c) d);
          [right; left; reflexivity | left; reflexivity].
      - right. right. exact I5. }
    repeat split; congruence.
Qed.

(** X2.  On a living actor whose health does not exceed its maximum,
    [heal] with an amount that its modifiers leave non-negative
    returns the health it restored: between 0 and the modified amount,
    and less than that amount only when the health reached the
    maximum.  The health grows by the returned value and stays within
    the maximum, and [healing_done] records the same value. *)
Theorem heal_restores_at_most (e : Entity.t) (amount : Q) :
  Entity.is_alive e = true ->
  Stats.health (Entity.stats e) <= Stats.max_health (Entity.stats e) ->
  0 <= amount * Entity.healing_modifier e ->
  exists e' healing_done,
    Entity.heal amount e = Ok e' healing_done
    /\ 0 <= healing_done
    /\ healing_done <= amount * Entity.healing_modifier e
    /\ (healing_done < amount * Entity.healing_modifier e ->
        Stats.health (Entity.stats e') == Stats.max_health (Entity.stats e'))
    /\ Stats.health (Entity.stats e')
       == Stats.health (Entity.stats e) + healing_done
    /\ Stats.health (Entity.stats e') <= Stats.max_health (Entity.stats e')
    /\ Stats.max_health (Entity.stats e') = Stats.max_health (Entity.stats e)
    /\ CombatStats.healing_done (Entity.combat_stats e')
       == CombatStats.healing_done (Entity.combat_stats e) + healing_done
    /\ Entity.is_alive e' = true
    /\ Entity.status_effects e' = Entity.status_effects e.
Proof.
  intros Halive Hle Hamount.
  unfold Entity.heal, bind, get. rewrite Halive. cbn.
  eexists. eexists. split; [reflexivity |].
  cbn. unfold py_min.
  destruct (Qltb_spec (Stats.health (Entity.stats e)
                       + amount * Entity.healing_modifier e)
                      (Stats.max_health (Entity.stats e))) as [Hlt | Hge];
    cbn; repeat split; try lra; try assumption.
Qed.

Lemma heal_restores_at_most_witness :
  exists e' healing_done,
    Entity.heal 30 (Entity.on_stats (Stats.set_health 80) Examples.hero)
    = Ok e' healing_done
    /\ 0 <= healing_done
    /\ healing_done <= 30 * 1.
Proof.
  destruct (heal_restores_at_most
              (Entity.on_stats (Stats.set_health 80) Examples.hero) 30)
    as (e' & d & E & H1 & H2 & _).
  - reflexivity.
  - vm_compute. discriminate.
  - vm_compute. discriminate.
  - exists e', d. split; [exact E |]. split; [exact H1 | exact H2].
Defined.

Lemma dict_get_In_NoDup {V : Type} (d : list (string * V)) (k : string) (v : V) :
  NoDup (map fst d) -> In (k, v) d -> dict_get d k = Some v.
Proof.
  induction d as [| [k' v'] rest IH]; intros Hnd Hin; cbn in *.
  - contradiction.
  - inversion Hnd as [| ? ? Hnotin Hnd']; subst.
    destruct Hin as [Heq | Hin].
    + injection Heq as -> ->. now rewrite String.eqb_refl.
    + destruct (String.eqb_spec k' k) as [-> | _].
      * exfalso. apply Hnotin. apply in_map_iff. exists (k, v). split; auto.
      * now apply IH.
Qed.

Lemma Qeq_bool_refl' (q : Q) : Qeq_bool q q = true.
Proof. apply Qeq_bool_iff. reflexivity. Qed.

Lemma dict_eqb_refl (d : list (string * Q)) :
  NoDup (map fst d) -> StatusEffect.dict_eqb d d = true.
Proof.
  intros Hnd. unfold StatusEffect.dict_eqb.
  rewrite Nat.eqb_refl. cbn [andb].
  apply forallb_forall. intros [k v] Hin. cbn [fst snd].
  rewrite (dict_get_In_NoDup d k v Hnd Hin). cbn.
  apply Qeq_bool_refl'.
Qed.

(** An effect equals itself. *)
Lemma StatusEffect_eqb_refl (x : StatusEffect.t) :
  modifiers_wf x -> StatusEffect.eqb x x = true.
Proof.
  intros Hwf. unfold StatusEffect.eqb.
  rewrite !String.eqb_refl, Z.eqb_refl, !Qeq_bool_refl', !Bool.eqb_reflx.
  rewrite (dict_eqb_refl _ Hwf). reflexivity.
Qed.

Lemma StatusEffect_eqb_permanent (x y : StatusEffect.t) :
  StatusEffect.eqb x y = true ->
  StatusEffect.is_permanent x = StatusEffect.is_permanent y.
Proof.
  unfold StatusEffect.eqb. intros H.
  repeat (apply andb_prop in H; destruct H as [H ?]).
  match goal with
  | Hp : Bool.eqb (StatusEffect.is_permanent x) _ = true |- _ =>
      now apply Bool.eqb_prop in Hp
  end.
Qed.

Lemma StatusEffect_eqb_name (x y : StatusEffect.t) :
  StatusEffect.eqb x y = true -> StatusEffect.name x = StatusEffect.name y.
Proof.
  unfold StatusEffect.eqb. intros H.
  repeat (apply andb_prop in H; destruct H as [H ?]).
  now apply String.eqb_eq in H.
Qed.

(** [list.remove(x)] passes over a prefix without an element equal to
    [x] and drops [x] itself. *)
Lemma list_remove_middle (pre rest : list StatusEffect.t) (x : StatusEffect.t) :
  Forall (fun p => StatusEffect.eqb p x = false) pre ->
  StatusEffect.eqb x x = true ->
  StatusEffect.list_remove (pre ++ x :: rest) x = Some (pre ++ rest).
Proof.
  intros Hpre Hx. induction Hpre as [| p pre Hp _ IH]; cbn.
  - now rewrite Hx.
  - now rewrite Hp, IH.
Qed.

Lemma _remove_effect_run (effect : StatusEffect.t) (s : Entity.t) :
  Entity._remove_effect effect s
  = match StatusEffect.list_remove (Entity.status_effects s) effect with
    | Some l =>
        Ok (Entity.set_status_effects l
              (Entity.on_stats (StatusEffect.remove effect) s)) tt
    | None => Ok (Entity.on_stats (StatusEffect.remove effect) s) tt
    end.
Proof.
  unfold Entity._remove_effect, bind, modify, get, put. cbn.
  destruct (StatusEffect.list_remove (Entity.status_effects s) effect);
    reflexivity.
Qed.

(** The loop of [die] over the copy of the list: the temporary effects
    leave the list one by one. *)
Lemma die_loop_run (rest : list StatusEffect.t) :
  forall (pre : list StatusEffect.t) (s : Entity.t),
    Forall (fun p => StatusEffect.is_permanent p = true) pre ->
    Forall modifiers_wf rest ->
    Entity.status_effects s = pre ++ rest ->
    exists s',
      for_each rest
        (fun effect =>
           if negb (StatusEffect.is_permanent effect)
           then Entity._remove_effect effect
           else ret tt) s = Ok s' tt
      /\ Entity.status_effects s'
         = pre ++ filter StatusEffect.is_permanent rest
      /\ Entity.is_alive s' = Entity.is_alive s
      /\ Entity.combat_stats s' = Entity.combat_stats s.
Proof.
  induction rest as [| x rest IH]; intros pre s Hpre Hwf Hl; cbn [for_each filter].
  - exists s. repeat split. exact Hl.
  - inversion Hwf as [| ? ? Hx Hwf']; subst.
    unfold bind.
    destruct (StatusEffect.is_permanent x) eqn:Hperm; cbn [negb].
    + cbn [ret].
      destruct (IH (pre ++ [x]) s) as (s' & E & L & A & C).
      * apply Forall_app. split; [exact Hpre | constructor; auto].
      * exact Hwf'.
      * rewrite Hl, <- app_assoc. reflexivity.
      * exists s'. rewrite E. repeat split; auto.
        rewrite L, <- app_assoc. reflexivity.
    + rewrite _remove_effect_run, Hl.
      rewrite list_remove_middle.
      2:{ eapply Forall_impl; [| exact Hpre]. cbn. intros p Hp.
          destruct (StatusEffect.eqb p x) eqn:E; [| reflexivity].
          apply StatusEffect_eqb_permanent in E. congruence. }
      2:{ now apply StatusEffect_eqb_refl. }
      match goal with
      | |- context [for_each rest ?body ?st] =>
          destruct (IH pre st Hpre Hwf') as (s' & E & L & A & C);
            [reflexivity |]
      end.
      exists s'. rewrite E. repeat split; auto.
Qed.

(** X3.  [die] on a living actor, whose effects have dictionaries of
    modifiers: the actor is dead, one death is counted, and the list
    of effects keeps exactly its permanent effects, in their order.
    A second [die] changes nothing. *)
Theorem die_clears_temporary_effects (e : Entity.t) :
  Entity.is_alive e = true ->
  Forall modifiers_wf (Entity.status_effects e) ->
  exists e',
    Entity.die e = Ok e' tt
    /\ Entity.is_alive e' = false
    /\ Entity.status_effects e'
       = filter StatusEffect.is_permanent (Entity.status_effects e)
    /\ CombatStats.deaths (Entity.combat_stats e')
       = (CombatStats.deaths (Entity.combat_stats e) + 1)%Z
    /\ Entity.die e' = Ok e' tt.
Proof.
  intros Halive Hwf.
  unfold Entity.die at 1. unfold bind at 1. unfold get at 1.
  rewrite Halive. cbn [negb].
  cbn [bind modify get Entity.status_effects Entity.on_combat_stats
       Entity.on_stats Entity.set_stats Entity.set_combat_stats
       Entity.set_is_alive Entity._trigger_death_effects].
  match goal with
  | |- context [bind (for_each _ _) _ ?st] =>
      destruct (die_loop_run (Entity.status_effects e) [] st)
        as (s' & E & L & A & C); [constructor | exact Hwf | reflexivity |]
  end.
  unfold bind at 1. rewrite E. cbn [ret]. exists s'.
  split; [reflexivity |].
  split; [rewrite A; reflexivity |].
  split; [exact L |].
  split; [rewrite C; reflexivity |].
  unfold Entity.die, bind, get. rewrite A. reflexivity.
Qed.

Lemma die_clears_temporary_effects_witness :
  exists e',
    Entity.die Examples.burning_hero = Ok e' tt
    /\ Entity.is_alive e' = false
    /\ Entity.status_effects e'
       = filter StatusEffect.is_permanent
           (Entity.status_effects Examples.burning_hero).
Proof.
  destruct (die_clears_temporary_effects Examples.burning_hero)
    as (e' & E & A & L & _).
  - reflexivity.
  - repeat constructor; cbn; intros H; exact H.
  - exists e'. split; [exact E |]. split; [exact A | exact L].
Defined.

Lemma die_alive_run (e : Entity.t) :
  Entity.is_alive e = true ->
  0 < Stats.max_health (Entity.stats e) ->
  exists e',
    Entity.die e = Ok e' tt
    /\ Entity.is_alive e' = false
    /\ at_rest (Entity.stats e')
    /\ Entity.combat_stats e'
       = CombatStats.set_deaths
           (CombatStats.deaths (Entity.combat_stats e) + 1)%Z
           (Entity.combat_stats e).
Proof.
  intros Halive Hmax.
  unfold Entity.die, bind, get. rewrite Halive. cbn.
  match goal with
  | |- context [for_each ?l ?body ?st] =>
      destruct (for_each_ok
                  (fun x => Entity.is_alive x = false
                            /\ at_rest (Entity.stats x)
                            /\ Entity.combat_stats x = Entity.combat_stats st)
                  l body)
        with st as [e1 [-> He1]]
  end.
  - intros effect s (Hs1 & Hs2 & Hs3).
    destruct (StatusEffect.is_permanent effect); cbn [negb].
    + exists s. split; [reflexivity |].
      split; [exact Hs1 | split; [exact Hs2 | exact Hs3]].
    + rewrite _remove_effect_run.
      destruct (StatusEffect.list_remove (Entity.status_effects s) effect);
        eexists; (split; [reflexivity |]); cbn;
        (split; [exact Hs1 |]); (split; [| exact Hs3]);
        now apply remove_at_rest.
  - split; [reflexivity |]. split; [| reflexivity].
    split; [reflexivity | exact Hmax].
  - exists e1. split; [reflexivity |]. exact He1.
Qed.

Lemma round1_0 : round1 0 == 0.
Proof. reflexivity. Qed.

Lemma round1_nonneg (x : Q) : 0 <= x -> 0 <= round1 x.
Proof.
  intros H. rewrite <- round1_0. now apply round1_mono.
Qed.

(** The result of [_calculate_damage] is never negative. *)
Lemma _calculate_damage_nonneg (base_damage : Q) (damage_type : string)
    (e e' : Entity.t) (d : Q) :
  Entity._calculate_damage base_damage damage_type e = Ok e' d -> 0 <= d.
Proof.
  unfold Entity._calculate_damage, bind, get.
  destruct (Qeq_bool _ 0); [discriminate |].
  cbn. intros H. injection H as _ <-.
  apply round1_nonneg. apply py_max_lower.
Qed.

Lemma _calculate_damage_returns (base_damage : Q) (damage_type : string)
    (e : Entity.t) :
  ~ Stats.defense (Entity.fields (Entity.current_stats e)) + 100 == 0 ->
  exists d, Entity._calculate_damage base_damage damage_type e = Ok e d.
Proof.
  intros H. unfold Entity._calculate_damage, bind, get.
  destruct (Qeq_bool _ 0) eqn:E.
  - apply Qeq_bool_iff in E. contradiction.
  - eexists. reflexivity.
Qed.

(** X4.  [take_damage] on a living actor whose dodge roll fails and
    whose effective defense is not -100: the call returns the damage
    that [_calculate_damage] computes, which is never negative, and
    adds it to [damage_taken].  A damage below the health is
    subtracted from the health and changes nothing else: the actor
    after the call is the actor before it with the new health and the
    new [damage_taken].  A damage that reaches the health kills the
    actor: it is dead with health 0 and one more death counted. *)
Theorem take_damage_hit (e : Entity.t) (damage : Q) (damage_type : string)
    (rng : Rng.t) :
  Entity.is_alive e = true ->
  Entity.dodge_chance_rolled e <= fst (Rng.random rng) ->
  ~ Stats.defense (Entity.fields (Entity.current_stats e)) + 100 == 0 ->
  0 < Stats.max_health (Entity.stats e) ->
  exists e' d,
    Entity.take_damage damage damage_type (e, rng)
    = Ok (e', snd (Rng.random rng)) (d, false, false)
    /\ Entity._calculate_damage damage damage_type e = Ok e d
    /\ 0 <= d
    /\ CombatStats.damage_taken (Entity.combat_stats e')
       = CombatStats.damage_taken (Entity.combat_stats e) + d
    /\ CombatStats.dodges (Entity.combat_stats e')
       = CombatStats.dodges (Entity.combat_stats e)
    /\ (d < Stats.health (Entity.stats e) ->
        e' = Entity.on_combat_stats
               (CombatStats.set_damage_taken
                  (CombatStats.damage_taken (Entity.combat_stats e) + d))
               (Entity.on_stats
                  (Stats.set_health (Stats.health (Entity.stats e) - d)) e)
        /\ Entity.is_alive e' = true
        /\ Stats.health (Entity.stats e') == Stats.health (Entity.stats e) - d
        /\ Entity.status_effects e' = Entity.status_effects e
        /\ CombatStats.deaths (Entity.combat_stats e')
           = CombatStats.deaths (Entity.combat_stats e))
    /\ (Stats.health (Entity.stats e) <= d ->
        Entity.is_alive e' = false
        /\ Stats.health (Entity.stats e') == 0
        /\ CombatStats.deaths (Entity.combat_stats e')
           = (CombatStats.deaths (Entity.combat_stats e) + 1)%Z).
Proof.
  intros Halive Hroll Hdef Hmax.
  destruct (_calculate_damage_returns damage damage_type e Hdef) as [d Hd].
  pose proof (_calculate_damage_nonneg _ _ _ _ _ Hd) as Hd0.
  unfold Entity.take_damage, bind, get. cbn [fst snd].
  rewrite Halive. cbn [negb].
  rewrite _try_dodge_run.
  apply Qltb_false in Hroll. rewrite Hroll.
  rewrite on_self_run, Hd.
  cbn [Entity.on_self zoom modify fst snd].
  set (e2 := Entity.on_combat_stats _ (Entity.on_stats _ e)).
  assert (Hh2 : Stats.health (Entity.stats e2)
                = py_max 0 (Stats.health (Entity.stats e) - d)) by reflexivity.
  assert (Hc2 : Entity.combat_stats e2
                = CombatStats.set_damage_taken
                    (CombatStats.damage_taken (Entity.combat_stats e) + d)
                    (Entity.combat_stats e)) by reflexivity.
  assert (Hcases : (d < Stats.health (Entity.stats e)
                    /\ Stats.health (Entity.stats e2)
                       == Stats.health (Entity.stats e) - d)
                   \/ (Stats.health (Entity.stats e) <= d
                       /\ Stats.health (Entity.stats e2) == 0)).
  { rewrite Hh2. unfold py_max.
    destruct (Qltb_spec 0 (Stats.health (Entity.stats e) - d));
      [left | right]; split; lra. }
  destruct (Qleb_spec (Stats.health (Entity.stats e2)) 0) as [Hdead | Hlive].
  - rewrite on_self_run.
    destruct (die_alive_run e2) as (e3 & E3 & A3 & [R3 _] & C3);
      [exact Halive | exact Hmax |].
    rewrite E3. cbn [ret]. exists e3, d.
    split; [reflexivity |]. split; [reflexivity |]. split; [exact Hd0 |].
    rewrite C3, Hc2. cbn.
    split; [reflexivity |]. split; [reflexivity |].
    split.
    + intros Hlt. exfalso. destruct Hcases as [[_ H] | [H _]]; lra.
    + intros _. split; [exact A3 |]. split; [exact R3 | reflexivity].
  - cbn [ret]. exists e2, d.
    split; [reflexivity |]. split; [reflexivity |]. split; [exact Hd0 |].
    rewrite Hc2. cbn.
    split; [reflexivity |]. split; [reflexivity |].
    split.
    + intros Hlt.
      split.
      { unfold e2, Entity.on_combat_stats, Entity.on_stats, py_max.
        destruct (Qltb_spec 0 (Stats.health (Entity.stats e) - d));
          [reflexivity | exfalso; lra]. }
      split; [exact Halive |].
      split; [| split; reflexivity].
      destruct Hcases as [[_ H] | [H _]]; [exact H | exfalso; lra].
    + intros Hle. exfalso. destruct Hcases as [[H _] | [_ H]]; lra.
Qed.

Lemma take_damage_hit_witness :
  exists e' d,
    Entity.take_damage 50 "physical" (Examples.hero, Rng.const (1 # 2))
    = Ok (e', snd (Rng.random (Rng.const (1 # 2)))) (d, false, false)
    /\ 0 <= d.
Proof.
  destruct (take_damage_hit Examples.hero 50 "physical" (Rng.const (1 # 2)))
    as (e' & d & E & _ & H & _).
  - reflexivity.
  - vm_compute. discriminate.
  - vm_compute. discriminate.
  - reflexivity.
  - exists e', d. split; [exact E | exact H].
Defined.

(** X5.  [take_damage] on a living actor whose dodge roll fails and
    whose effective defense is -100 raises [ZeroDivisionError]: the
    division by [defense + 100] fails before the health or any
    counter is touched. *)
Theorem take_damage_zero_division (e : Entity.t) (damage : Q)
    (damage_type : string) (rng : Rng.t) :
  Entity.is_alive e = true ->
  Entity.dodge_chance_rolled e <= fst (Rng.random rng) ->
  Stats.defense (Entity.fields (Entity.current_stats e)) == - (100) ->
  Entity.take_damage damage damage_type (e, rng)
  = Raise (e, snd (Rng.random rng)) ZeroDivisionError.
Proof.
  intros Halive Hroll Hdef.
  unfold Entity.take_damage, bind, get. cbn [fst snd].
  rewrite Halive. cbn [negb].
  rewrite _try_dodge_run.
  apply Qltb_false in Hroll. rewrite Hroll.
  rewrite on_self_run.
  unfold Entity._calculate_damage, bind, get.
  assert (E : Qeq_bool
                (Stats.defense (Entity.fields (Entity.current_stats e)) + 100)
                0 = true).
  { apply Qeq_bool_iff. rewrite Hdef. reflexivity. }
  rewrite E. reflexivity.
Qed.

Lemma take_damage_zero_division_witness :
  Entity.take_damage 50 "physical"
    (Examples.hero_with_defense (- (100)), Rng.const (1 # 2))
  = Raise (Examples.hero_with_defense (- (100)),
           snd (Rng.random (Rng.const (1 # 2)))) ZeroDivisionError.
Proof.
  apply take_damage_zero_division.
  - reflexivity.
  - vm_compute. discriminate.
  - reflexivity.
Defined.

(** ** Status effects *)

Lemma count_named_app (n : string) (l1 l2 : list StatusEffect.t) :
  count_named n (l1 ++ l2) = (count_named n l1 + count_named n l2)%nat.
Proof. unfold count_named. now rewrite filter_app, length_app. Qed.

Lemma count_named_cons (n : string) (x : StatusEffect.t)
    (l : list StatusEffect.t) :
  count_named n (x :: l)
  = ((if String.eqb (StatusEffect.name x) n then 1 else 0)
     + count_named n l)%nat.
Proof.
  unfold count_named. cbn.
  destruct (String.eqb (StatusEffect.name x) n); reflexivity.
Qed.

Lemma list_set_middle {A : Type} (pre post : list A) (x v : A) :
  list_set (List.length pre) v (pre ++ x :: post) = pre ++ v :: post.
Proof. induction pre as [| a pre IH]; cbn; [reflexivity | now rewrite IH]. Qed.

(** The loop of [add_status_effect] passes over the effects of another
    name, and over every effect when the new one can stack. *)
Lemma add_status_effect_loop_skip (effect : StatusEffect.t)
    (pending : list StatusEffect.t) :
  forall (i : nat) (s : Entity.t),
    StatusEffect.can_stack effect = true
    \/ count_named (StatusEffect.name effect) pending = 0%nat ->
    Entity.add_status_effect_loop pending i effect s = Ok s false.
Proof.
  induction pending as [| x rest IH]; intros i s H; cbn.
  - reflexivity.
  - destruct (String.eqb (StatusEffect.name x) (StatusEffect.name effect)) eqn:E.
    + destruct H as [H | H].
      * rewrite H. cbn. apply IH. now left.
      * rewrite count_named_cons, E in H. discriminate.
    + apply IH. destruct H as [H | H]; [now left | right].
      rewrite count_named_cons, E in H. exact H.
Qed.

(** X6.  [add_status_effect] with an effect that can stack, or whose
    name no active effect bears: the effect is applied to the stats
    and appended to the list of effects. *)
Theorem add_status_effect_appends (e : Entity.t) (effect : StatusEffect.t) :
  StatusEffect.can_stack effect = true
  \/ count_named (StatusEffect.name effect) (Entity.status_effects e) = 0%nat ->
  Entity.add_status_effect effect e
  = Ok (Entity.set_status_effects (Entity.status_effects e ++ [effect])
          (Entity.on_stats (StatusEffect.apply effect) e)) tt.
Proof.
  intros H. unfold Entity.add_status_effect, bind, get.
  rewrite (add_status_effect_loop_skip effect _ 0%nat e H). reflexivity.
Qed.

Lemma add_status_effect_appends_witness :
  Entity.add_status_effect Examples.might Examples.hero
  = Ok (Entity.set_status_effects
          (Entity.status_effects Examples.hero ++ [Examples.might])
          (Entity.on_stats (StatusEffect.apply Examples.might) Examples.hero))
       tt.
Proof.
  apply add_status_effect_appends. right. reflexivity.
Defined.

Lemma list_remove_counts (l l' : list StatusEffect.t) (x : StatusEffect.t) :
  StatusEffect.list_remove l x = Some l' ->
  count_named (StatusEffect.name x) l
  = S (count_named (StatusEffect.name x) l')
  /\ List.length l = S (List.length l').
Proof.
  revert l'. induction l as [| a rest IH]; intros l' H; cbn in H.
  - discriminate.
  - destruct (StatusEffect.eqb a x) eqn:E.
    + injection H as <-. rewrite count_named_cons.
      apply StatusEffect_eqb_name in E. rewrite E, String.eqb_refl.
      split; reflexivity.
    + destruct (StatusEffect.list_remove rest x) as [r|]; [| discriminate].
      injection H as <-. destruct (IH r eq_refl) as [I1 I2].
      rewrite !count_named_cons, I1. cbn [List.length]. rewrite I2.
      split; [lia | reflexivity].
Qed.

(** The loop at the first effect that bears the name of the new one,
    which cannot stack. *)
Lemma add_status_effect_loop_found (effect existing : StatusEffect.t)
    (pre post : list StatusEffect.t) (s : Entity.t) :
  StatusEffect.can_stack effect = false ->
  count_named (StatusEffect.name effect) pre = 0%nat ->
  StatusEffect.name existing = StatusEffect.name effect ->
  forall (pre0 : list StatusEffect.t),
    Entity.add_status_effect_loop (pre ++ existing :: post)
      (List.length pre0) effect s
    = Entity.add_status_effect_loop (existing :: post)
        (List.length (pre0 ++ pre)) effect s.
Proof.
  intros Hstack Hpre Hname. induction pre as [| x pre IH]; intros pre0.
  - now rewrite app_nil_r.
  - rewrite count_named_cons in Hpre.
    destruct (String.eqb (StatusEffect.name x) (StatusEffect.name effect)) eqn:E;
      [discriminate |].
    cbn [app Entity.add_status_effect_loop]. rewrite E.
    replace (S (List.length pre0)) with (List.length (pre0 ++ [x]))
      by (rewrite length_app; cbn; lia).
    rewrite IH by exact Hpre.
    now rewrite <- app_assoc.
Qed.

(** X7.  [add_status_effect] with an effect that cannot stack, when
    [existing] is the first active effect of its name.  If the new
    effect is not stronger, the stats stay as they are and [existing]
    takes the longer of the two durations.  If it is stronger,
    [existing] is reverted and removed, and the new effect is applied
    and appended.  In every case, also when the call raises, the list
    keeps its length and its number of effects of that name. *)
Theorem add_status_effect_refreshes (e : Entity.t)
    (effect existing : StatusEffect.t) (pre post : list StatusEffect.t) :
  StatusEffect.can_stack effect = false ->
  Entity.status_effects e = pre ++ existing :: post ->
  count_named (StatusEffect.name effect) pre = 0%nat ->
  StatusEffect.name existing = StatusEffect.name effect ->
  (StatusEffect.sum_modifiers effect <= StatusEffect.sum_modifiers existing ->
   Entity.add_status_effect effect e
   = Ok (Entity.set_status_effects
           (pre ++ StatusEffect.set_duration
                     (Z.max (StatusEffect.duration existing)
                            (StatusEffect.duration effect)) existing
                :: post) e) tt)
  /\ (StatusEffect.sum_modifiers existing < StatusEffect.sum_modifiers effect ->
      modifiers_wf existing ->
      Entity.add_status_effect effect e
      = Ok (Entity.set_status_effects (pre ++ post ++ [effect])
              (Entity.on_stats
                 (fun st => StatusEffect.apply effect
                              (StatusEffect.remove existing st)) e)) tt)
  /\ count_named (StatusEffect.name effect)
       (Entity.status_effects (final (Entity.add_status_effect effect e)))
     = count_named (StatusEffect.name effect) (Entity.status_effects e)
  /\ List.length
       (Entity.status_effects (final (Entity.add_status_effect effect e)))
     = List.length (Entity.status_effects e).
Proof.
  intros Hstack Hl Hpre Hname.
  assert (Hrun :
    Entity.add_status_effect effect e
    = bind (Entity.add_status_effect_loop (existing :: post)
              (List.length pre) effect)
        (fun returned_early : bool =>
           if returned_early then ret tt
           else bind (modify (Entity.on_stats (StatusEffect.apply effect)))
                  (fun _ => modify (fun self =>
                     Entity.set_status_effects
                       (Entity.status_effects self ++ [effect]) self))) e).
  { unfold Entity.add_status_effect. unfold bind at 1. unfold get at 1.
    rewrite Hl.
    change 0%nat with (List.length (@nil StatusEffect.t)).
    unfold bind at 1.
    rewrite (add_status_effect_loop_found effect existing pre post e
               Hstack Hpre Hname []).
    reflexivity. }
  rewrite Hrun. clear Hrun.
  cbn [Entity.add_status_effect_loop].
  rewrite Hname, String.eqb_refl, Hstack. cbn [negb].
  destruct (Qltb_spec (StatusEffect.sum_modifiers existing)
                      (StatusEffect.sum_modifiers effect)) as [Hlt | Hge].
  - (* the new effect is stronger *)
    split; [intros H; exfalso; lra |].
    unfold bind, modify, get, put.
    cbn [Entity.status_effects Entity.on_stats Entity.set_stats].
    rewrite Hl.
    assert (Hpre' : Forall (fun p => StatusEffect.eqb p existing = false) pre).
    { clear - Hpre Hname. induction pre as [| p pre IH]; constructor.
      - rewrite count_named_cons in Hpre.
        destruct (StatusEffect.eqb p existing) eqn:E; [| reflexivity].
        apply StatusEffect_eqb_name in E. rewrite E, Hname, String.eqb_refl in Hpre.
        discriminate.
      - apply IH. rewrite count_named_cons in Hpre. lia. }
    split.
    + intros _ Hwf.
      rewrite (list_remove_middle pre post existing Hpre'
                 (StatusEffect_eqb_refl existing Hwf)).
      cbn. rewrite <- app_assoc. reflexivity.
    + destruct (StatusEffect.list_remove (pre ++ existing :: post) existing)
        as [l' |] eqn:R.
      * destruct (list_remove_counts _ _ _ R) as [C1 C2].
        rewrite Hname in C1. rewrite C1, C2.
        cbn [final Entity.status_effects Entity.set_status_effects
               Entity.on_stats Entity.set_stats ret].
        rewrite count_named_app, length_app.
        rewrite count_named_cons, String.eqb_refl. cbn. split; lia.
      * cbn [final Entity.status_effects Entity.set_status_effects
               Entity.on_stats Entity.set_stats raise].
        rewrite Hl. split; reflexivity.
  - (* the new effect is not stronger *)
    unfold bind, modify, ret.
    cbn [Entity.status_effects Entity.set_status_effects final].
    rewrite Hl, list_set_middle.
    split; [intros _; reflexivity |].
    split; [intros H; exfalso; lra |].
    cbn [Entity.status_effects].
    rewrite !count_named_app, !count_named_cons, !length_app. cbn.
    split; reflexivity.
Qed.

Lemma add_status_effect_refreshes_witness :
  Entity.add_status_effect (Examples.strength_effect (1 # 4))
    (final (Entity.add_status_effect Examples.might Examples.hero))
  = Ok (Entity.set_status_effects
          ([] ++ StatusEffect.set_duration
                   (Z.max (StatusEffect.duration Examples.might)
                      (StatusEffect.duration (Examples.strength_effect (1 # 4))))
                   Examples.might
              :: [])
          (final (Entity.add_status_effect Examples.might Examples.hero))) tt.
Proof.
  apply (add_status_effect_refreshes
           (final (Entity.add_status_effect Examples.might Examples.hero))
           (Examples.strength_effect (1 # 4)) Examples.might [] []).
  - reflexivity.
  - reflexivity.
  - reflexivity.
  - reflexivity.
  - vm_compute. discriminate.
Defined.

Lemma _apply_effect_tick_plain (effect : StatusEffect.t) (s : Entity.St) :
  ticks effect = false -> Entity._apply_effect_tick effect s = Ok s tt.
Proof.
  unfold ticks, Entity._apply_effect_tick. intros H.
  apply orb_false_iff in H. destruct H as [H H3].
  apply orb_false_iff in H. destruct H as [H1 H2].
  now rewrite H1, H2, H3.
Qed.

Lemma nth_error_middle {A : Type} (pre post : list A) (x : A) :
  nth_error (pre ++ x :: post) (List.length pre) = Some x.
Proof. induction pre as [| a pre IH]; cbn; [reflexivity | exact IH]. Qed.

Lemma nth_error_end {A : Type} (pre : list A) :
  nth_error pre (List.length pre) = None.
Proof. induction pre as [| a pre IH]; cbn; [reflexivity | exact IH]. Qed.

(** The loop of [_update_status_effects] over effects without a tick
    of their own: [pre] is the part of the list that the loop has
    passed, [rest] the part to come. *)
Lemma _update_status_effects_loop_plain (game_time : Q)
    (rest : list StatusEffect.t) :
  forall (fuel : nat) (pre acc : list StatusEffect.t) (e : Entity.t)
         (rng : Rng.t),
    (List.length rest <= fuel)%nat ->
    Forall (fun x => ticks x = false) rest ->
    Entity.status_effects e = pre ++ rest ->
    Entity._update_status_effects_loop fuel game_time (List.length pre) acc
      (e, rng)
    = Ok (Entity.set_status_effects
            (pre ++ map (fun x => if is_active x then aged game_time x else x)
                      rest)
            (Entity.on_stats (revert_expired rest) e), rng)
         (acc ++ map (aged game_time) (filter is_active rest)).
Proof.
  induction rest as [| x rest IH]; intros fuel pre acc e rng Hfuel Hplain Hl.
  - cbn [map filter]. rewrite !app_nil_r.
    assert (He : Entity.set_status_effects pre
                   (Entity.on_stats (revert_expired []) e) = e).
    { rewrite app_nil_r in Hl. rewrite <- Hl. destruct e. reflexivity. }
    rewrite He.
    destruct fuel as [| fuel]; cbn [Entity._update_status_effects_loop].
    + reflexivity.
    + unfold bind, get. cbn [fst]. rewrite Hl, app_nil_r, nth_error_end.
      reflexivity.
  - destruct fuel as [| fuel]; [cbn in Hfuel; lia |].
    cbn [List.length] in Hfuel.
    inversion Hplain as [| ? ? Hx Hrest]; subst.
    cbn [Entity._update_status_effects_loop].
    unfold bind at 1. unfold get at 1. cbn [fst].
    rewrite Hl, nth_error_middle.
    change (StatusEffect.is_permanent x || (0 <? StatusEffect.duration x)%Z)
      with (is_active x).
    destruct (is_active x) eqn:Hact.
    + (* the effect is kept *)
      rewrite list_set_middle.
      set (x1 := if negb (StatusEffect.is_permanent x)
                 then StatusEffect.set_duration (StatusEffect.duration x - 1)%Z x
                 else x).
      assert (Hx1 : ticks x1 = false).
      { unfold x1. destruct (negb (StatusEffect.is_permanent x)); exact Hx. }
      unfold bind at 1. rewrite on_self_run. cbn [modify].
      unfold bind at 1.
      assert (Haged : aged game_time x
                      = if Qleb (StatusEffect.tick_interval x1)
                                (game_time - StatusEffect.last_tick x1)
                        then StatusEffect.set_last_tick game_time x1 else x1)
        by reflexivity.
      destruct (Qleb (StatusEffect.tick_interval x1)
                     (game_time - StatusEffect.last_tick x1)) eqn:Hdue.
      * unfold bind at 1. rewrite (_apply_effect_tick_plain x1 _ Hx1).
        unfold bind at 1. rewrite on_self_run. cbn [modify ret].
        cbn [Entity.status_effects Entity.set_status_effects].
        unfold Entity.set_last_tick_in_list.
        rewrite Nat.eqb_refl, list_set_middle.
        replace (S (List.length pre))
          with (List.length (pre ++ [aged game_time x]))
          by (rewrite length_app; cbn; lia).
        rewrite <- Haged.
        rewrite (IH fuel (pre ++ [aged game_time x]) (acc ++ [aged game_time x]));
          [| lia | exact Hrest
           | cbn [Entity.status_effects Entity.set_status_effects];
             now rewrite <- app_assoc].
        cbn [map filter]. rewrite Hact. cbn [map].
        rewrite <- !app_assoc. cbn [app].
        unfold revert_expired. cbn [filter]. rewrite Hact. cbn [negb].
        destruct e; reflexivity.
      * cbn [ret].
        replace (S (List.length pre))
          with (List.length (pre ++ [aged game_time x]))
          by (rewrite length_app; cbn; lia).
        rewrite <- Haged.
        rewrite (IH fuel (pre ++ [aged game_time x]) (acc ++ [aged game_time x]));
          [| lia | exact Hrest
           | cbn [Entity.status_effects Entity.set_status_effects];
             now rewrite <- app_assoc].
        cbn [map filter]. rewrite Hact. cbn [map].
        rewrite <- !app_assoc. cbn [app].
        unfold revert_expired. cbn [filter]. rewrite Hact. cbn [negb].
        destruct e; reflexivity.
    + (* the effect has expired *)
      unfold bind at 1. rewrite on_self_run. cbn [modify].
      replace (S (List.length pre)) with (List.length (pre ++ [x]))
        by (rewrite length_app; cbn; lia).
      rewrite (IH fuel (pre ++ [x]) acc);
        [| lia | exact Hrest
         | cbn [Entity.status_effects Entity.on_stats Entity.set_stats];
           rewrite Hl; now rewrite <- app_assoc].
      cbn [map filter]. rewrite Hact.
      rewrite <- !app_assoc. cbn [app].
      unfold revert_expired. cbn [filter]. rewrite Hact. cbn [negb fold_left].
      destruct e; reflexivity.
Qed.

Lemma _update_status_effects_loop_round (game_time : Q) (e : Entity.t)
    (rng : Rng.t) :
  Forall (fun x => ticks x = false) (Entity.status_effects e) ->
  Entity._update_status_effects game_time (e, rng)
  = Ok (Entity.set_status_effects
          (map (aged game_time) (filter is_active (Entity.status_effects e)))
          (Entity.on_stats (revert_expired (Entity.status_effects e)) e),
        rng) tt.
Proof.
  intros Hplain.
  unfold Entity._update_status_effects. unfold bind at 1. unfold get at 1.
  cbn [fst]. unfold bind at 1.
  change 0%nat with (List.length (@nil StatusEffect.t)).
  rewrite (_update_status_effects_loop_plain game_time
             (Entity.status_effects e) _ [] [] e rng
             (Nat.le_refl _) Hplain eq_refl).
  rewrite on_self_run. cbn. reflexivity.
Qed.

(** X8.  [_update_status_effects] on an actor none of whose effects is
    of a type that ticks ('dot', 'hot' or 'resource_regen'): the call
    returns and draws no random number.  The list of effects becomes
    the kept effects in their order, each with one unit of duration
    used up unless it is permanent and with [last_tick] set to the
    time of the round when a tick was due; an effect is kept when it
    is permanent or its duration is positive.  The stats are those
    after [remove] of every expired effect, in their order.  The list
    never grows, and no effect that stays has a negative duration. *)
Theorem update_status_effects_plain (game_time : Q) (e : Entity.t)
    (rng : Rng.t) :
  Forall (fun x => ticks x = false) (Entity.status_effects e) ->
  exists e',
    Entity._update_status_effects game_time (e, rng) = Ok (e', rng) tt
    /\ Entity.status_effects e'
       = map (aged game_time) (filter is_active (Entity.status_effects e))
    /\ Entity.stats e'
       = revert_expired (Entity.status_effects e) (Entity.stats e)
    /\ (List.length (Entity.status_effects e')
        <= List.length (Entity.status_effects e))%nat
    /\ Forall (fun x => StatusEffect.is_permanent x = true
                        \/ (0 <= StatusEffect.duration x)%Z)
         (Entity.status_effects e')
    /\ Entity.is_alive e' = Entity.is_alive e.
Proof.
  intros Hplain.
  exists (Entity.set_status_effects
            (map (aged game_time) (filter is_active (Entity.status_effects e)))
            (Entity.on_stats (revert_expired (Entity.status_effects e)) e)).
  split; [now apply _update_status_effects_loop_round |].
  split; [reflexivity |]. split; [reflexivity |].
  split; [| split; [| reflexivity]].
  - cbn [Entity.status_effects Entity.set_status_effects].
    rewrite length_map. apply filter_length_le.
  - cbn [Entity.status_effects Entity.set_status_effects].
    apply Forall_map, Forall_forall. intros x Hx.
    apply filter_In in Hx. destruct Hx as [_ Hact].
    unfold is_active in Hact. unfold aged.
    destruct (StatusEffect.is_permanent x) eqn:Hp; cbn [negb orb] in *.
    + left.
      destruct (Qleb (StatusEffect.tick_interval x)
                  (game_time - StatusEffect.last_tick x));
        [destruct x; cbn in *; exact Hp | exact Hp].
    + right. apply Z.ltb_lt in Hact.
      match goal with
      | |- context [if ?c then _ else _] => destruct c
      end; destruct x; cbn in *; lia.
Qed.

Lemma update_status_effects_plain_witness :
  exists e',
    Entity._update_status_effects 1 (Examples.evasive_hero, Rng.const (1 # 2))
    = Ok (e', Rng.const (1 # 2)) tt
    /\ Entity.status_effects e'
       = map (aged 1)
           (filter is_active (Entity.status_effects Examples.evasive_hero)).
Proof.
  destruct (update_status_effects_plain 1 Examples.evasive_hero
              (Rng.const (1 # 2)))
    as (e' & E & L & _).
  - repeat constructor.
  - exists e'. split; [exact E | exact L].
Defined.

Lemma aged_parts (game_time : Q) (x : StatusEffect.t) :
  ticks (aged game_time x) = ticks x
  /\ StatusEffect.name (aged game_time x) = StatusEffect.name x
  /\ StatusEffect.is_permanent (aged game_time x) = StatusEffect.is_permanent x
  /\ StatusEffect.duration (aged game_time x)
     = if StatusEffect.is_permanent x then StatusEffect.duration x
       else (StatusEffect.duration x - 1)%Z.
Proof.
  unfold aged.
  destruct (StatusEffect.is_permanent x) eqn:Hp; cbn [negb];
    match goal with
    | |- context [if ?c then _ else _] => destruct c
    end; cbn; rewrite ?Hp; repeat split.
Qed.

Lemma aged_survivors_plain (game_time : Q) (l : list StatusEffect.t) :
  Forall (fun x => ticks x = false) l ->
  Forall (fun x => ticks x = false) (map (aged game_time) (filter is_active l)).
Proof.
  intros H. apply Forall_map. apply Forall_forall. intros x Hin.
  apply filter_In in Hin. destruct Hin as [Hin _].
  destruct (aged_parts game_time x) as [-> _].
  rewrite Forall_forall in H. now apply H.
Qed.

Lemma is_active_outlasts (x : StatusEffect.t) : is_active x = outlasts 1 x.
Proof.
  unfold is_active, outlasts. f_equal.
  destruct (0 <? StatusEffect.duration x)%Z eqn:H1;
    destruct (1 <=? StatusEffect.duration x)%Z eqn:H2; try reflexivity; lia.
Qed.

Lemma outlasts_aged (game_time : Q) (n : Z) (x : StatusEffect.t) :
  outlasts n (aged game_time x) = outlasts (n + 1) x.
Proof.
  unfold outlasts. destruct (aged_parts game_time x) as (_ & _ & -> & ->).
  destruct (StatusEffect.is_permanent x); cbn [orb]; [reflexivity |].
  destruct (n <=? StatusEffect.duration x - 1)%Z eqn:H1;
    destruct (n + 1 <=? StatusEffect.duration x)%Z eqn:H2; try reflexivity; lia.
Qed.

Lemma outlasts_active (n : Z) (x : StatusEffect.t) :
  (1 <= n)%Z -> outlasts (n + 1) x = true -> is_active x = true.
Proof.
  unfold outlasts, is_active. intros Hn H.
  destruct (StatusEffect.is_permanent x); cbn [orb] in *; [reflexivity |].
  apply Z.leb_le in H. apply Z.ltb_lt. lia.
Qed.

Lemma worn_aged (game_time : Q) (n : Z) (x : StatusEffect.t) :
  worn n (aged game_time x) = worn (n + 1) x.
Proof.
  unfold worn. destruct (aged_parts game_time x) as (_ & -> & -> & ->).
  destruct (StatusEffect.is_permanent x); [reflexivity |]. f_equal. lia.
Qed.

Lemma worn_after_round (game_time : Q) (n : Z) (l : list StatusEffect.t) :
  (1 <= n)%Z ->
  map (worn n) (filter (outlasts n) (map (aged game_time) (filter is_active l)))
  = map (worn (n + 1)) (filter (outlasts (n + 1)) l).
Proof.
  intros Hn. induction l as [| x l IH]; [reflexivity |].
  cbn [filter]. destruct (is_active x) eqn:Ha.
  - cbn [map filter]. rewrite outlasts_aged.
    destruct (outlasts (n + 1) x); cbn [map]; [| exact IH].
    now rewrite worn_aged, IH.
  - destruct (outlasts (n + 1) x) eqn:Ho; [| exact IH].
    apply (outlasts_active n x Hn) in Ho. congruence.
Qed.

Lemma worn_first_round (game_time : Q) (l : list StatusEffect.t) :
  map (fun x => (StatusEffect.name x, StatusEffect.duration x))
    (map (aged game_time) (filter is_active l))
  = map (worn 1) (filter (outlasts 1) l).
Proof.
  rewrite map_map.
  rewrite (filter_ext is_active (outlasts 1) is_active_outlasts).
  apply map_ext. intros x. unfold worn.
  destruct (aged_parts game_time x) as (_ & -> & _ & ->). reflexivity.
Qed.

(** X9.  Over rounds of [_update_status_effects], on an actor none of
    whose effects is of a type that ticks: every round returns, and
    after [n >= 1] rounds the list of effects holds, in their order,
    the permanent effects with their duration unchanged and the
    temporary effects whose duration was at least [n], each with [n]
    units of its duration used up.  An effect of duration [d] is thus
    active for [d] rounds and leaves in round [d + 1]. *)
Theorem status_effects_last_their_duration (ts : list Q) :
  forall (t : Q) (e : Entity.t) (rng : Rng.t),
    Forall (fun x => ticks x = false) (Entity.status_effects e) ->
    exists e',
      for_each (t :: ts) Entity._update_status_effects (e, rng)
      = Ok (e', rng) tt
      /\ map (fun x => (StatusEffect.name x, StatusEffect.duration x))
           (Entity.status_effects e')
         = map (worn (Z.of_nat (List.length (t :: ts))))
             (filter (outlasts (Z.of_nat (List.length (t :: ts))))
                (Entity.status_effects e)).
Proof.
  induction ts as [| t' ts IH]; intros t e rng Hplain.
  - cbn [for_each]. unfold bind.
    rewrite (_update_status_effects_loop_round t e rng Hplain).
    cbn [ret]. eexists. split; [reflexivity |].
    cbn [Entity.status_effects Entity.set_status_effects List.length].
    apply worn_first_round.
  - cbn [for_each]. unfold bind at 1.
    rewrite (_update_status_effects_loop_round t e rng Hplain).
    set (e1 := Entity.set_status_effects _ _).
    destruct (IH t' e1 rng) as (e' & E & L).
    { unfold e1. cbn [Entity.status_effects Entity.set_status_effects].
      now apply aged_survivors_plain. }
    cbn [for_each] in E. exists e'. split; [exact E |].
    rewrite L. unfold e1.
    cbn [Entity.status_effects Entity.set_status_effects].
    replace (Z.of_nat (List.length (t :: t' :: ts)))
      with (Z.of_nat (List.length (t' :: ts)) + 1)%Z
      by (cbn [List.length]; lia).
    apply worn_after_round. cbn [List.length]. lia.
Qed.

Lemma status_effects_last_their_duration_witness :
  exists e',
    for_each [1; 2; 3; 4] Entity._update_status_effects
      (Examples.evasive_hero, Rng.const (1 # 2))
    = Ok (e', Rng.const (1 # 2)) tt
    /\ map (fun x => (StatusEffect.name x, StatusEffect.duration x))
         (Entity.status_effects e')
       = [].
Proof.
  apply (status_effects_last_their_duration [2; 3; 4] 1 Examples.evasive_hero
           (Rng.const (1 # 2))).
  repeat constructor.
Defined.

(** ** Resources *)

Lemma scale_regeneration_any (equipment_regen : list (string * Q)) :
  forall (modifiers : list (string * Q)) (s s' : Entity.t),
    Entity.scale_regeneration equipment_regen modifiers s'
    = match Entity.scale_regeneration equipment_regen modifiers s with
      | Ok _ m => Ok s' m
      | Raise _ x => Raise s' x
      end.
Proof.
  induction equipment_regen as [| [resource value] rest IH];
    intros modifiers s s'; cbn.
  - reflexivity.
  - destruct (dict_get modifiers resource); [apply IH | reflexivity].
Qed.

(** The regeneration modifiers depend on the effects and on the
    inventory only. *)
Lemma get_regeneration_modifiers_any (e e' : Entity.t) :
  Entity.status_effects e' = Entity.status_effects e ->
  Entity.inventory e' = Entity.inventory e ->
  Entity.get_regeneration_modifiers e'
  = match Entity.get_regeneration_modifiers e with
    | Ok _ m => Ok e' m
    | Raise _ x => Raise e' x
    end.
Proof.
  intros Hs Hi. unfold Entity.get_regeneration_modifiers, bind, get.
  rewrite Hs, Hi.
  destruct (existsb _ (Entity.status_effects e)); [reflexivity |].
  destruct (Entity.inventory e); [| reflexivity].
  apply scale_regeneration_any.
Qed.

Lemma _update_resources_run (e : Entity.t) (mods : list (string * Q)) :
  Entity.get_regeneration_modifiers e = Ok e mods ->
  Entity._update_resources e
  = Ok (Entity.on_stats
          (fun st =>
             let st :=
               if Qltb (Stats.stamina st) (Stats.max_stamina st)
               then Stats.set_stamina
                      (py_min (Stats.max_stamina st)
                         (Stats.stamina st + 5 * regen_of mods "stamina")) st
               else st in
             if Qltb (Stats.mana st) (Stats.max_mana st)
             then Stats.set_mana
                    (py_min (Stats.max_mana st)
                       (Stats.mana st + 2 * regen_of mods "mana")) st
             else st)
          e) tt.
Proof.
  intros Hm. unfold Entity._update_resources. unfold bind at 1.
  rewrite Hm. unfold bind, get, modify, ret, regen_of.
  destruct (Qltb (Stats.stamina (Entity.stats e))
                 (Stats.max_stamina (Entity.stats e))) eqn:E1;
    cbn [Entity.stats Entity.on_stats Entity.set_stats Stats.mana
         Stats.max_mana Stats.set_stamina];
    destruct (Qltb (Stats.mana (Entity.stats e))
                   (Stats.max_mana (Entity.stats e))) eqn:E2;
    unfold Entity.on_stats; cbn [Entity.stats Entity.set_stats];
    rewrite ?E1; cbn [Stats.mana Stats.max_mana Stats.set_stamina];
    rewrite ?E2; destruct e; reflexivity.
Qed.

(** X10.  [n] calls of [_update_resources] in a row, on an actor whose
    regeneration modifiers are [mods] with non-negative rates and
    whose stamina and mana do not exceed their maxima: every call
    returns, the stamina ends at [min(max_stamina, stamina + n * 5 *
    mods['stamina'])] and the mana at [min(max_mana, mana + n * 2 *
    mods['mana'])].  The maxima, the health and the effects stay as
    they were. *)
Theorem update_resources_rounds (n : nat) :
  forall (e : Entity.t) (mods : list (string * Q)),
    Entity.get_regeneration_modifiers e = Ok e mods ->
    0 <= regen_of mods "stamina" ->
    0 <= regen_of mods "mana" ->
    Stats.stamina (Entity.stats e) <= Stats.max_stamina (Entity.stats e) ->
    Stats.mana (Entity.stats e) <= Stats.max_mana (Entity.stats e) ->
    exists e',
      repeat_call n Entity._update_resources e = Ok e' tt
      /\ Stats.stamina (Entity.stats e')
         == py_min (Stats.max_stamina (Entity.stats e))
              (Stats.stamina (Entity.stats e)
               + inject_Z (Z.of_nat n) * (5 * regen_of mods "stamina"))
      /\ Stats.mana (Entity.stats e')
         == py_min (Stats.max_mana (Entity.stats e))
              (Stats.mana (Entity.stats e)
               + inject_Z (Z.of_nat n) * (2 * regen_of mods "mana"))
      /\ Stats.max_stamina (Entity.stats e') = Stats.max_stamina (Entity.stats e)
      /\ Stats.max_mana (Entity.stats e') = Stats.max_mana (Entity.stats e)
      /\ Stats.health (Entity.stats e') = Stats.health (Entity.stats e)
      /\ Entity.status_effects e' = Entity.status_effects e
      /\ Entity.is_alive e' = Entity.is_alive e.
Proof.
  induction n as [| n IH]; intros e mods Hm Hrs Hrm Hs Hmn.
  - exists e. cbn [repeat_call ret].
    split; [reflexivity |].
    change (inject_Z (Z.of_nat 0)) with 0.
    unfold py_min.
    destruct (Qltb_spec (Stats.stamina (Entity.stats e) + 0 * (5 * regen_of mods "stamina"))
                        (Stats.max_stamina (Entity.stats e)));
      destruct (Qltb_spec (Stats.mana (Entity.stats e) + 0 * (2 * regen_of mods "mana"))
                          (Stats.max_mana (Entity.stats e)));
      repeat split; lra.
  - cbn [repeat_call]. unfold bind.
    rewrite (_update_resources_run e mods Hm).
    set (e1 := Entity.on_stats _ e).
    assert (S1 : Stats.stamina (Entity.stats e1)
                 = if Qltb (Stats.stamina (Entity.stats e))
                           (Stats.max_stamina (Entity.stats e))
                   then py_min (Stats.max_stamina (Entity.stats e))
                          (Stats.stamina (Entity.stats e)
                           + 5 * regen_of mods "stamina")
                   else Stats.stamina (Entity.stats e)).
    { unfold e1. cbn.
      destruct (Qltb (Stats.stamina (Entity.stats e))
                     (Stats.max_stamina (Entity.stats e))); cbn;
        destruct (Qltb (Stats.mana (Entity.stats e))
                       (Stats.max_mana (Entity.stats e))); reflexivity. }
    assert (M1 : Stats.mana (Entity.stats e1)
                 = if Qltb (Stats.mana (Entity.stats e))
                           (Stats.max_mana (Entity.stats e))
                   then py_min (Stats.max_mana (Entity.stats e))
                          (Stats.mana (Entity.stats e)
                           + 2 * regen_of mods "mana")
                   else Stats.mana (Entity.stats e)).
    { unfold e1. cbn.
      destruct (Qltb (Stats.stamina (Entity.stats e))
                     (Stats.max_stamina (Entity.stats e))); cbn;
        destruct (Qltb (Stats.mana (Entity.stats e))
                       (Stats.max_mana (Entity.stats e))); reflexivity. }
    assert (F1 : Stats.max_stamina (Entity.stats e1)
                 = Stats.max_stamina (Entity.stats e)
                 /\ Stats.max_mana (Entity.stats e1)
                    = Stats.max_mana (Entity.stats e)
                 /\ Stats.health (Entity.stats e1)
                    = Stats.health (Entity.stats e)).
    { unfold e1. cbn.
      destruct (Qltb (Stats.stamina (Entity.stats e))
                     (Stats.max_stamina (Entity.stats e))); cbn;
        destruct (Qltb (Stats.mana (Entity.stats e))
                       (Stats.max_mana (Entity.stats e))); repeat split. }
    destruct F1 as (F1 & F2 & F3).
    assert (Hm1 : Entity.get_regeneration_modifiers e1 = Ok e1 mods).
    { rewrite (get_regeneration_modifiers_any e e1); [| reflexivity ..].
      now rewrite Hm. }
    assert (Hn : 0 <= inject_Z (Z.of_nat n)).
    { change 0 with (inject_Z 0). rewrite <- Zle_Qle. lia. }
    assert (HS : inject_Z (Z.of_nat (S n)) == inject_Z (Z.of_nat n) + 1).
    { rewrite Nat2Z.inj_succ. unfold Z.succ. rewrite inject_Z_plus. reflexivity. }
    destruct (IH e1 mods Hm1 Hrs Hrm) as (e' & E & A & B & C1 & C2 & C3 & C4 & C5).
    + rewrite S1, F1. unfold py_min.
      destruct (Qltb_spec (Stats.stamina (Entity.stats e))
                          (Stats.max_stamina (Entity.stats e)));
        [| lra].
      destruct (Qltb_spec (Stats.stamina (Entity.stats e)
                           + 5 * regen_of mods "stamina")
                          (Stats.max_stamina (Entity.stats e))); lra.
    + rewrite M1, F2. unfold py_min.
      destruct (Qltb_spec (Stats.mana (Entity.stats e))
                          (Stats.max_mana (Entity.stats e)));
        [| lra].
      destruct (Qltb_spec (Stats.mana (Entity.stats e)
                           + 2 * regen_of mods "mana")
                          (Stats.max_mana (Entity.stats e))); lra.
    + exists e'. split; [exact E |].
      rewrite C1, C2, C3, C4, C5, F1, F2, F3.
      split; [| split; [| repeat split]].
      * rewrite A, S1, F1. clear - Hrs Hs Hn HS.
        set (s := Stats.stamina (Entity.stats e)) in *.
        set (mx := Stats.max_stamina (Entity.stats e)) in *.
        set (r := 5 * regen_of mods "stamina").
        assert (Hr : 0 <= r) by (unfold r; lra).
        assert (Hnr : 0 <= inject_Z (Z.of_nat n) * r) by nra.
        assert (HSr : inject_Z (Z.of_nat (S n)) * r
                      == inject_Z (Z.of_nat n) * r + r)
          by (rewrite HS; ring).
        set (a := inject_Z (Z.of_nat n) * r) in *.
        set (b := inject_Z (Z.of_nat (S n)) * r) in *.
        unfold py_min.
        destruct (Qltb_spec s mx); destruct (Qltb_spec (s + r) mx);
          repeat match goal with
                 | |- context [Qltb ?u ?v] => destruct (Qltb_spec u v)
                 end; lra.
      * rewrite B, M1, F2. clear - Hrm Hmn Hn HS.
        set (s := Stats.mana (Entity.stats e)) in *.
        set (mx := Stats.max_mana (Entity.stats e)) in *.
        set (r := 2 * regen_of mods "mana").
        assert (Hr : 0 <= r) by (unfold r; lra).
        assert (Hnr : 0 <= inject_Z (Z.of_nat n) * r) by nra.
        assert (HSr : inject_Z (Z.of_nat (S n)) * r
                      == inject_Z (Z.of_nat n) * r + r)
          by (rewrite HS; ring).
        set (a := inject_Z (Z.of_nat n) * r) in *.
        set (b := inject_Z (Z.of_nat (S n)) * r) in *.
        unfold py_min.
        destruct (Qltb_spec s mx); destruct (Qltb_spec (s + r) mx);
          repeat match goal with
                 | |- context [Qltb ?u ?v] => destruct (Qltb_spec u v)
                 end; lra.
Qed.

Lemma update_resources_rounds_witness :
  exists e',
    repeat_call 3 Entity._update_resources
      (Entity.on_stats (Stats.set_stamina 90) Examples.hero) = Ok e' tt
    /\ Stats.stamina (Entity.stats e')
       == py_min 100 (90 + inject_Z (Z.of_nat 3) * (5 * 1)).
Proof.
  destruct (update_resources_rounds 3
              (Entity.on_stats (Stats.set_stamina 90) Examples.hero)
              [("health"%string, 1); ("stamina"%string, 1); ("mana"%string, 1)])
    as (e' & E & A & _).
  - reflexivity.
  - vm_compute. discriminate.
  - vm_compute. discriminate.
  - vm_compute. discriminate.
  - vm_compute. discriminate.
  - exists e'. split; [exact E | exact A].
Defined.

(** ** Attacks *)

(** [die] touches the statistics of combat at [deaths] only. *)
Lemma die_combat_stats (e : Entity.t) :
  exists e',
    Entity.die e = Ok e' tt
    /\ CombatStats.damage_taken (Entity.combat_stats e')
       = CombatStats.damage_taken (Entity.combat_stats e)
    /\ CombatStats.dodges (Entity.combat_stats e')
       = CombatStats.dodges (Entity.combat_stats e).
Proof.
  unfold Entity.die, bind, get.
  destruct (Entity.is_alive e); cbn.
  2:{ exists e. repeat split. }
  match goal with
  | |- context [for_each ?l ?body ?st] =>
      destruct (for_each_ok
                  (fun x => Entity.combat_stats x = Entity.combat_stats st)
                  l body)
        with st as [e1 [-> He1]]
  end.
  - intros effect s Hs.
    destruct (StatusEffect.is_permanent effect); cbn [negb].
    + exists s. split; [reflexivity | exact Hs].
    + rewrite _remove_effect_run.
      destruct (StatusEffect.list_remove (Entity.status_effects s) effect);
        eexists; (split; [reflexivity | exact Hs]).
  - reflexivity.
  - exists e1. split; [reflexivity |]. rewrite He1. split; reflexivity.
Qed.

(** [take_damage] on a living actor, dodged or not. *)
Lemma take_damage_alive_run (e : Entity.t) (damage : Q) (damage_type : string)
    (rng : Rng.t) :
  Entity.is_alive e = true ->
  ~ Stats.defense (Entity.fields (Entity.current_stats e)) + 100 == 0 ->
  exists e' d dodged,
    Entity.take_damage damage damage_type (e, rng)
    = Ok (e', snd (Rng.random rng)) (d, dodged, false)
    /\ 0 <= d
    /\ (dodged = true -> d = 0)
    /\ CombatStats.damage_taken (Entity.combat_stats e')
       == CombatStats.damage_taken (Entity.combat_stats e) + d
    /\ CombatStats.dodges (Entity.combat_stats e')
       = (CombatStats.dodges (Entity.combat_stats e)
          + (if dodged then 1 else 0))%Z.
Proof.
  intros Halive Hdef.
  unfold Entity.take_damage, bind, get. cbn [fst snd].
  rewrite Halive. cbn [negb].
  rewrite _try_dodge_run.
  destruct (Qltb (fst (Rng.random rng)) (Entity.dodge_chance_rolled e)).
  - cbn. eexists. exists 0, true. split; [reflexivity |].
    cbn. repeat split; try lra.
  - destruct (_calculate_damage_returns damage damage_type e Hdef) as [d Hd].
    pose proof (_calculate_damage_nonneg _ _ _ _ _ Hd) as Hd0.
    rewrite on_self_run, Hd.
    cbn [Entity.on_self zoom modify fst snd].
    set (e2 := Entity.on_combat_stats _ (Entity.on_stats _ e)).
    destruct (Qleb (Stats.health (Entity.stats e2)) 0).
    + rewrite on_self_run.
      destruct (die_combat_stats e2) as (e3 & E3 & T3 & D3).
      rewrite E3. cbn [ret]. exists e3, d, false.
      split; [reflexivity |]. split; [exact Hd0 |].
      split; [discriminate |]. rewrite T3, D3. cbn.
      split; [reflexivity | lia].
    + cbn [ret]. exists e2, d, false.
      split; [reflexivity |]. split; [exact Hd0 |].
      split; [discriminate |]. cbn.
      split; [reflexivity | lia].
Qed.

(** X11.  [deal_damage] between two living actors, the target with an
    effective defense other than -100: the call returns a damage that
    is never negative and is 0 when the target dodged.  The damage is
    added to the attacker's [damage_dealt] and to the target's
    [damage_taken] and bounds the attacker's [highest_damage] from
    below; a dodge adds 1 to the target's [dodges].  A critical hit
    adds 2 to the attacker's [critical_hits]: it is counted by
    [deal_damage] and again by [update_damage_stats].  The stats and
    the effects of the attacker stay as they were. *)
Theorem deal_damage_bookkeeping (a tg : Entity.t) (base_damage : Q)
    (damage_type : string) (rng : Rng.t) :
  Entity.is_alive a = true ->
  Entity.is_alive tg = true ->
  ~ Stats.defense (Entity.fields (Entity.current_stats tg)) + 100 == 0 ->
  exists a' tg' d dodged,
    Entity.deal_damage base_damage damage_type (a, tg, rng)
    = Ok (a', tg', snd (Rng.random (snd (Rng.random rng))))
         (d, dodged,
          Qltb (fst (Rng.random rng)) (Entity.crit_chance_rolled a))
    /\ 0 <= d
    /\ (dodged = true -> d = 0)
    /\ CombatStats.damage_dealt (Entity.combat_stats a')
       = CombatStats.damage_dealt (Entity.combat_stats a) + d
    /\ CombatStats.damage_taken (Entity.combat_stats tg')
       == CombatStats.damage_taken (Entity.combat_stats tg) + d
    /\ d <= CombatStats.highest_damage (Entity.combat_stats a')
    /\ CombatStats.critical_hits (Entity.combat_stats a')
       = (CombatStats.critical_hits (Entity.combat_stats a)
          + (if Qltb (fst (Rng.random rng)) (Entity.crit_chance_rolled a)
             then 2 else 0))%Z
    /\ CombatStats.dodges (Entity.combat_stats tg')
       = (CombatStats.dodges (Entity.combat_stats tg)
          + (if dodged then 1 else 0))%Z
    /\ Entity.stats a' = Entity.stats a
    /\ Entity.status_effects a' = Entity.status_effects a.
Proof.
  intros Ha Ht Hdef.
  unfold Entity.deal_damage. unfold bind at 1. unfold get at 1.
  unfold Entity.target at 1, Entity.caller at 1. cbn [fst snd].
  rewrite Ha, Ht. cbn [negb orb].
  unfold bind at 1. rewrite on_caller_run. cbn [Entity.caller fst snd].
  rewrite _is_critical_hit_run.
  set (crit := Qltb (fst (Rng.random rng)) (Entity.crit_chance_rolled a)).
  set (rng1 := snd (Rng.random rng)).
  unfold bind at 1. unfold get at 1.
  destruct crit eqn:Hcrit.
  - unfold bind at 1. unfold bind at 1.
    rewrite on_caller_run. cbn [Entity.caller Entity.target fst snd].
    rewrite on_self_run. cbn [modify ret].
    unfold bind at 1. unfold get at 1. unfold bind at 1.
    rewrite on_target_run. cbn [Entity.caller Entity.target fst snd].
    match goal with
    | |- context [Entity.take_damage ?dmg damage_type (tg, rng1)] =>
        destruct (take_damage_alive_run tg dmg damage_type rng1 Ht Hdef)
          as (tg' & d & dodged & E & D0 & Dd & Dt & Dg)
    end.
    rewrite E. cbn [fst snd].
    unfold bind at 1. rewrite on_caller_run.
    cbn [Entity.caller Entity.target fst snd].
    rewrite on_self_run. cbn [modify ret].
    eexists. exists tg', d, dodged.
    split; [reflexivity |]. split; [exact D0 |]. split; [exact Dd |].
    cbn [Entity.combat_stats Entity.on_combat_stats Entity.set_combat_stats
         Entity.stats Entity.status_effects fst snd].
    destruct (update_damage_stats_step
                (CombatStats.set_critical_hits
                   (CombatStats.critical_hits (Entity.combat_stats a) + 1)%Z
                   (Entity.combat_stats a)) d true)
      as (U1 & U2 & U3 & _).
    cbn zeta in U1, U2, U3. rewrite U1, U2, U3. cbn.
    split; [reflexivity |]. split; [exact Dt |].
    split; [apply py_max_upper |]. split; [lia |].
    split; [exact Dg |]. split; reflexivity.
  - unfold bind at 1. cbn [ret].
    unfold bind at 1. unfold get at 1. unfold bind at 1.
    rewrite on_target_run. cbn [Entity.caller Entity.target fst snd].
    match goal with
    | |- context [Entity.take_damage ?dmg damage_type (tg, rng1)] =>
        destruct (take_damage_alive_run tg dmg damage_type rng1 Ht Hdef)
          as (tg' & d & dodged & E & D0 & Dd & Dt & Dg)
    end.
    rewrite E. cbn [fst snd].
    unfold bind at 1. rewrite on_caller_run.
    cbn [Entity.caller Entity.target fst snd].
    rewrite on_self_run. cbn [modify ret].
    eexists. exists tg', d, dodged.
    split; [reflexivity |]. split; [exact D0 |]. split; [exact Dd |].
    cbn [Entity.combat_stats Entity.on_combat_stats Entity.set_combat_stats
         Entity.stats Entity.status_effects fst snd].
    destruct (update_damage_stats_step (Entity.combat_stats a) d false)
      as (U1 & U2 & U3 & _).
    cbn zeta in U1, U2, U3. rewrite U1, U2, U3. cbn.
    split; [reflexivity |]. split; [exact Dt |].
    split; [apply py_max_upper |]. split; [lia |].
    split; [exact Dg |]. split; reflexivity.
Qed.

Lemma deal_damage_bookkeeping_witness :
  exists a' tg' d dodged,
    Entity.deal_damage 20 "physical"
      (Examples.hero, Examples.wolf, Rng.const (1 # 100))
    = Ok (a', tg',
          snd (Rng.random (snd (Rng.random (Rng.const (1 # 100))))))
         (d, dodged, true)
    /\ CombatStats.critical_hits (Entity.combat_stats a') = 2%Z.
Proof.
  destruct (deal_damage_bookkeeping Examples.hero Examples.wolf 20 "physical"
              (Rng.const (1 # 100)))
    as (a' & tg' & d & dodged & E & _ & _ & _ & _ & _ & C & _).
  - reflexivity.
  - reflexivity.
  - vm_compute. discriminate.
  - exists a', tg', d, dodged. split; [exact E | exact C].
Defined.

(** ** Cooldowns, range and the pace of updates *)

Lemma dict_get_set_same {V : Type} (d : list (string * V)) (k : string) (v : V) :
  dict_get (dict_set d k v) k = Some v.
Proof.
  induction d as [| [k' v'] rest IH]; cbn.
  - now rewrite String.eqb_refl.
  - destruct (String.eqb_spec k' k) as [-> | Hne]; cbn.
    + now rewrite String.eqb_refl.
    + destruct (String.eqb_spec k' k); [contradiction | exact IH].
Qed.

Lemma dict_get_set_other {V : Type} (d : list (string * V)) (k k' : string)
    (v : V) :
  k' <> k -> dict_get (dict_set d k v) k' = dict_get d k'.
Proof.
  intros Hne. induction d as [| [k0 v0] rest IH]; cbn.
  - destruct (String.eqb_spec k k'); [congruence | reflexivity].
  - destruct (String.eqb_spec k0 k) as [-> | Hne0]; cbn.
    + destruct (String.eqb_spec k k'); [congruence | reflexivity].
    + destruct (String.eqb_spec k0 k'); [reflexivity | exact IH].
Qed.

(** X12.  [_set_ability_cooldown] on a known ability at time [now]
    returns; afterwards [_is_on_cooldown] holds at a time [t] exactly
    when [t] is before [now] plus the cooldown, reduced by the
    cooldown reduction when the actor has one, and
    [_get_remaining_cooldown] is the time left until then, or 0.  The
    cooldowns of the other abilities stay as they were. *)
Theorem cooldown_round_trip (e : Entity.t) (ability_id : string)
    (ability : Ability.t) (now t : Q) :
  dict_get (Entity.abilities e) ability_id = Some ability ->
  exists e',
    Entity._set_ability_cooldown ability_id now e = Ok e' tt
    /\ Entity._is_on_cooldown e' ability_id t
       = Qltb t (now + effective_cooldown e ability)
    /\ Entity._get_remaining_cooldown e' ability_id t
       == py_max 0 (now + effective_cooldown e ability - t)
    /\ (forall other,
           other <> ability_id ->
           Entity._is_on_cooldown e' other t = Entity._is_on_cooldown e other t
           /\ Entity._get_remaining_cooldown e' other t
              = Entity._get_remaining_cooldown e other t)
    /\ Entity.abilities e' = Entity.abilities e
    /\ Entity.stats e' = Entity.stats e.
Proof.
  intros Hab. unfold Entity._set_ability_cooldown, bind, get, put.
  rewrite Hab. eexists. split; [reflexivity |].
  fold (effective_cooldown e ability).
  unfold Entity._get_remaining_cooldown, Entity._is_on_cooldown.
  cbn [Entity._cooldowns Entity.set__cooldowns Entity.abilities Entity.stats].
  rewrite dict_get_set_same.
  split; [reflexivity |]. split.
  - unfold py_max.
    destruct (Qltb_spec t (now + effective_cooldown e ability));
      destruct (Qltb_spec 0 (now + effective_cooldown e ability - t));
      cbn [negb]; lra.
  - split; [| split; reflexivity].
    intros other Hne. now rewrite (dict_get_set_other _ _ _ _ Hne).
Qed.

Lemma cooldown_round_trip_witness :
  exists e',
    Entity._set_ability_cooldown "strike" 10 Examples.striker = Ok e' tt
    /\ Entity._is_on_cooldown e' "strike" 12 = Qltb 12 (10 + 3).
Proof.
  destruct (cooldown_round_trip Examples.striker "strike" Examples.strike 10 12)
    as (e' & E & C & _).
  - reflexivity.
  - exists e'. split; [exact E | exact C].
Defined.

Lemma distance_sq_sym (p q : Position.t) :
  Position.distance_sq p q == Position.distance_sq q p.
Proof. unfold Position.distance_sq. ring. Qed.

Lemma Qleb_compat_l (a b c : Q) : a == b -> Qleb a c = Qleb b c.
Proof.
  intros H. destruct (Qleb_spec a c), (Qleb_spec b c);
    try reflexivity; exfalso; lra.
Qed.

(** X13.  [_is_in_ability_range] is symmetric in the two actors: with
    the same ability, the target is within reach of the caller exactly
    when the caller is within reach of the target.  An actor is within
    its own reach exactly when the range is not negative. *)
Theorem is_in_ability_range_symmetric (a b : Entity.t) (ability : Ability.t) :
  Entity._is_in_ability_range a b ability
  = Entity._is_in_ability_range b a ability
  /\ Entity._is_in_ability_range a a ability
     = negb (Qltb (Ability.range ability) 0).
Proof.
  unfold Entity._is_in_ability_range, Position.distance_le. split.
  - destruct (Qltb (Ability.range ability) 0); [reflexivity |].
    apply Qleb_compat_l, distance_sq_sym.
  - destruct (Qltb_spec (Ability.range ability) 0) as [H | H]; [reflexivity |].
    cbn [negb]. apply Qleb_true.
    assert (E : Position.distance_sq (Entity.position a) (Entity.position a) == 0)
      by (unfold Position.distance_sq; ring).
    rewrite E. nra.
Qed.

(** X14.  [update_combat] allows an attack at [t1] exactly when
    [attack_cooldown] has passed since the last one, and then records
    [t1]; after an attack at [t1] the next call allows one at [t2]
    exactly when [t2 >= t1 + attack_cooldown].  A call that allows no
    attack changes nothing. *)
Theorem update_combat_spacing (e : Entity.t) (t1 t2 : Q) :
  (Entity.last_attack_time e + Entity.attack_cooldown e <= t1 ->
   Entity.update_combat t1 e = Ok (Entity.set_last_attack_time t1 e) true
   /\ (returned (Entity.update_combat t2 (Entity.set_last_attack_time t1 e))
       = Some true
       <-> t1 + Entity.attack_cooldown e <= t2))
  /\ (t1 < Entity.last_attack_time e + Entity.attack_cooldown e ->
      Entity.update_combat t1 e = Ok e false).
Proof.
  unfold Entity.update_combat, bind, get, modify, ret.
  cbn [Entity.last_attack_time Entity.attack_cooldown
       Entity.set_last_attack_time].
  split.
  - intros H. apply Qltb_false in H. rewrite H.
    split; [reflexivity |].
    destruct (Qltb_spec t2 (t1 + Entity.attack_cooldown e)); cbn; split;
      intros; try reflexivity; try congruence; try lra; exfalso; lra.
  - intros H. apply Qltb_true in H. now rewrite H.
Qed.

(** ** Loading and using abilities *)

Lemma _load_abilities_run (data : list (string * Entity.AbilityData)) :
  forall e : Entity.t,
    Forall named data ->
    exists e',
      Entity._load_abilities data e = Ok e' tt
      /\ Entity.abilities e'
         = fold_left
             (fun d entry =>
                dict_set d (fst entry)
                  (Entity.loaded_ability
                     (Entity.get_or (Entity.data_name (snd entry)) EmptyString)
                     (snd entry)))
             data (Entity.abilities e)
      /\ Entity.stats e' = Entity.stats e
      /\ Entity._cooldowns e' = Entity._cooldowns e
      /\ Entity.status_effects e' = Entity.status_effects e.
Proof.
  induction data as [| [k d] rest IH]; intros e Hn.
  - exists e. repeat split.
  - inversion Hn as [| ? ? Hk Hrest]; subst.
    unfold Entity._load_abilities. cbn [for_each fst snd].
    unfold named in Hk. cbn [snd] in Hk.
    destruct (Entity.data_name d) as [n |] eqn:Hd; [| congruence].
    unfold bind, modify.
    destruct (IH (Entity.set_abilities
                    (dict_set (Entity.abilities e) k (Entity.loaded_ability n d))
                    e) Hrest)
      as (e' & E & A & S1 & S2 & S3).
    exists e'. split; [exact E |].
    rewrite A, S1, S2, S3. cbn [fold_left fst snd]. rewrite Hd.
    repeat split.
Qed.

Lemma fold_dict_set_other {V : Type} (f : string * Entity.AbilityData -> V)
    (data : list (string * Entity.AbilityData)) (k : string) :
  forall d0 : list (string * V),
    ~ In k (map fst data) ->
    dict_get (fold_left (fun d entry => dict_set d (fst entry) (f entry)) data d0)
      k
    = dict_get d0 k.
Proof.
  induction data as [| [k' d] rest IH]; intros d0 Hk; [reflexivity |].
  cbn [fold_left fst]. cbn [map fst In] in Hk.
  rewrite IH by tauto.
  apply dict_get_set_other. intros ->. tauto.
Qed.

(** X15.  [_load_abilities] on data whose entries all have a name and
    whose keys are distinct: the call returns; afterwards each
    identifier of the data maps to the dictionary built from its
    entry, with the defaults for the missing keys, and every other
    identifier maps to what it mapped to before.  The stats, the
    effects and the cooldowns stay as they were. *)
Theorem load_abilities_lookup (data : list (string * Entity.AbilityData))
    (e : Entity.t) :
  Forall named data ->
  NoDup (map fst data) ->
  exists e',
    Entity._load_abilities data e = Ok e' tt
    /\ (forall ability_id ability_data ability_name,
           In (ability_id, ability_data) data ->
           Entity.data_name ability_data = Some ability_name ->
           dict_get (Entity.abilities e') ability_id
           = Some (Entity.loaded_ability ability_name ability_data))
    /\ (forall ability_id,
           ~ In ability_id (map fst data) ->
           dict_get (Entity.abilities e') ability_id
           = dict_get (Entity.abilities e) ability_id)
    /\ Entity.stats e' = Entity.stats e
    /\ Entity._cooldowns e' = Entity._cooldowns e
    /\ Entity.status_effects e' = Entity.status_effects e.
Proof.
  intros Hn Hnd.
  destruct (_load_abilities_run data e Hn) as (e' & E & A & S1 & S2 & S3).
  exists e'. split; [exact E |]. rewrite A.
  split; [| split; [| repeat split; assumption]].
  - clear E A S1 S2 S3 Hn. revert Hnd.
    generalize (Entity.abilities e) as d0.
    induction data as [| [k d] rest IH]; intros d0 Hnd ability_id ability_data
      ability_name Hin Hname; [contradiction |].
    cbn [map fst] in Hnd. inversion Hnd as [| ? ? Hk Hnd']; subst.
    cbn [fold_left fst snd].
    destruct Hin as [Heq | Hin].
    + injection Heq as -> ->.
      rewrite fold_dict_set_other by exact Hk.
      rewrite dict_get_set_same, Hname. reflexivity.
    + now apply IH.
  - intros ability_id Hk. now apply fold_dict_set_other.
Qed.

Lemma load_abilities_lookup_witness :
  exists e',
    Entity._load_abilities
      [("bash"%string,
        {| Entity.data_name := Some "Bash"%string;
           Entity.data_damage := Some 12;
           Entity.data_cooldown := None; Entity.data_cost := None;
           Entity.data_effects := None; Entity.data_requirements := None;
           Entity.data_range := None; Entity.data_area_of_effect := None;
           Entity.data_cast_time := None;
           Entity.data_description := None |})]
      Examples.hero = Ok e' tt
    /\ Entity.stats e' = Entity.stats Examples.hero.
Proof.
  destruct (load_abilities_lookup
              [("bash"%string,
                {| Entity.data_name := Some "Bash"%string;
                   Entity.data_damage := Some 12;
                   Entity.data_cooldown := None; Entity.data_cost := None;
                   Entity.data_effects := None;
                   Entity.data_requirements := None;
                   Entity.data_range := None;
                   Entity.data_area_of_effect := None;
                   Entity.data_cast_time := None;
                   Entity.data_description := None |})]
              Examples.hero)
    as (e' & E & _ & _ & S1 & _).
  - repeat constructor. cbn. discriminate.
  - repeat constructor. cbn. tauto.
  - exists e'. split; [exact E | exact S1].
Defined.

(** X16.  An ability loaded from data without the key ['cost'] holds
    the number 0 where [can_use_ability] and [use_ability] expect a
    dictionary: while the ability is not on cooldown, both calls
    raise [AttributeError] at [ability['cost'].get] and change
    nothing. *)
Theorem ability_without_cost_unusable (e : Entity.t) (ability_id : string)
    (ability_name : string) (ability_data : Entity.AbilityData) (now : Q) :
  dict_get (Entity.abilities e) ability_id
  = Some (Entity.loaded_ability ability_name ability_data) ->
  Entity.data_cost ability_data = None ->
  Entity._is_on_cooldown e ability_id now = false ->
  Entity.can_use_ability ability_id now e = Raise e AttributeError
  /\ forall (tg : option Entity.t) (position_arg : option Position.t)
            (rng : Rng.t),
       Entity.use_ability ability_id position_arg now (e, tg, rng)
       = Raise (e, tg, rng) AttributeError.
Proof.
  intros Hab Hcost Hcd.
  assert (Hcan : Entity.can_use_ability ability_id now e
                 = Raise e AttributeError).
  { unfold Entity.can_use_ability, bind, get. rewrite Hab, Hcd.
    unfold Ability.cost_get. cbn. rewrite Hcost. reflexivity. }
  split; [exact Hcan |].
  intros tg position_arg rng.
  unfold Entity.use_ability. unfold bind at 1.
  rewrite on_user_run, Hcan. reflexivity.
Qed.

Lemma ability_without_cost_unusable_witness :
  let bash := {| Entity.data_name := Some "Bash"%string;
                 Entity.data_damage := Some 12;
                 Entity.data_cooldown := None; Entity.data_cost := None;
                 Entity.data_effects := None;
                 Entity.data_requirements := None;
                 Entity.data_range := None;
                 Entity.data_area_of_effect := None;
                 Entity.data_cast_time := None;
                 Entity.data_description := None |} in
  let e := final (Entity._load_abilities [("bash"%string, bash)]
                    Examples.hero) in
  Entity.can_use_ability "bash" 0 e = Raise e AttributeError.
Proof.
  cbv zeta.
  apply (ability_without_cost_unusable _ "bash" "Bash"
           {| Entity.data_name := Some "Bash"%string;
              Entity.data_damage := Some 12;
              Entity.data_cooldown := None; Entity.data_cost := None;
              Entity.data_effects := None;
              Entity.data_requirements := None;
              Entity.data_range := None;
              Entity.data_area_of_effect := None;
              Entity.data_cast_time := None;
              Entity.data_description := None |} 0);
    reflexivity.
Defined.

Lemma bind_Ok_inv {S A B : Type} (m : M S A) (k : A -> M S B) (s s' : S)
    (b : B) :
  bind m k s = Ok s' b -> exists s1 a, m s = Ok s1 a /\ k a s1 = Ok s' b.
Proof.
  unfold bind. destruct (m s) as [s1 a | s1 x]; [| discriminate].
  intros H. exists s1, a. split; [reflexivity | exact H].
Qed.

Lemma keeps_Ok {S A : Type} (P : S -> Prop) (m : M S A) (s s' : S) (a : A) :
  keeps P m -> P s -> m s = Ok s' a -> P s'.
Proof. intros Hk Hs E. specialize (Hk s Hs). now rewrite E in Hk. Qed.

Lemma add_status_effect_loop_setup (u0 : Entity.t) (effect : StatusEffect.t)
    (pending : list StatusEffect.t) :
  forall i, keeps (same_setup u0) (Entity.add_status_effect_loop pending i effect).
Proof.
  induction pending as [| x rest IH]; intros i; cbn.
  - apply keeps_ret.
  - destruct (String.eqb (StatusEffect.name x) (StatusEffect.name effect));
      [| apply IH].
    destruct (negb (StatusEffect.can_stack effect)); [| apply IH].
    apply keeps_bind; [| intros; apply keeps_ret].
    destruct (Qltb _ _).
    + apply keeps_bind; [apply keeps_modify; intros s Hs; exact Hs |].
      intros _. apply keeps_bind_get. intros s Hs.
      destruct (StatusEffect.list_remove (Entity.status_effects s) x);
        [| exact Hs].
      cbn. exact Hs.
    + apply keeps_modify. intros s Hs. exact Hs.
Qed.

Lemma add_status_effect_setup (u0 : Entity.t) (effect : StatusEffect.t) :
  keeps (same_setup u0) (Entity.add_status_effect effect).
Proof.
  unfold Entity.add_status_effect. apply keeps_bind_get. intros s Hs.
  pose proof (add_status_effect_loop_setup u0 effect
                (Entity.status_effects s) 0%nat s Hs) as H.
  unfold bind.
  destruct (Entity.add_status_effect_loop _ _ _ s) as [s1 [|] | s1 x];
    cbn in *; exact H.
Qed.

Lemma attach_effects_setup (u0 : Entity.t) (effects_data : list StatusEffect.t) :
  forall reports,
    keeps (fun s : Entity.St3 => same_setup u0 (Entity.user s))
      (Entity.attach_effects effects_data reports).
Proof.
  induction effects_data as [| effect rest IH]; intros reports; cbn.
  - apply keeps_ret.
  - apply keeps_bind_get. intros [[u tg] rng] Hs.
    cbn [Entity.aimed_at Entity.user fst snd] in *.
    destruct tg as [tg |].
    + unfold bind. rewrite with_target_run.
      unfold zoom at 1. cbn [Entity.target Entity.caller fst snd].
      destruct (Entity.add_status_effect effect tg) as [tg' [] | tg' x];
        cbn [Entity.target Entity.caller fst snd final].
      * apply IH. exact Hs.
      * exact Hs.
    + unfold bind. rewrite on_user_run.
      pose proof (add_status_effect_setup u0 effect u Hs) as H.
      destruct (Entity.add_status_effect effect u) as [u' [] | u' x];
        cbn [final] in *.
      * apply IH. exact H.
      * exact H.
Qed.

(** [deal_damage] touches the statistics of the caller only. *)
Lemma deal_damage_setup (u0 : Entity.t) (base_damage : Q)
    (damage_type : string) :
  keeps (fun s : Entity.St2 => same_setup u0 (Entity.caller s))
    (Entity.deal_damage base_damage damage_type).
Proof.
  intros [[a tg] rng] Hs. cbn [Entity.caller fst] in Hs.
  unfold Entity.deal_damage. unfold bind at 1. unfold get at 1.
  cbn [Entity.caller Entity.target fst snd].
  destruct (negb (Entity.is_alive tg) || negb (Entity.is_alive a));
    [exact Hs |].
  unfold bind at 1. rewrite on_caller_run, _is_critical_hit_run.
  cbn [fst snd]. unfold bind at 1. unfold get at 1.
  destruct (Qltb (fst (Rng.random rng)) (Entity.crit_chance_rolled a)).
  - unfold bind at 1. unfold bind at 1.
    rewrite on_caller_run. cbn [Entity.on_self zoom modify fst snd].
    unfold ret at 1. unfold bind at 1. unfold get at 1. unfold bind at 1.
    rewrite on_target_run.
    destruct (Entity.take_damage _ _ _) as [[tg' rng'] r | [tg' rng'] x];
      cbn [fst snd final Entity.caller]; [| exact Hs].
    unfold bind at 1. rewrite on_caller_run.
    cbn [Entity.on_self zoom modify fst snd Entity.caller Entity.target].
    cbn. exact Hs.
  - unfold bind at 1. unfold ret at 1.
    unfold bind at 1. unfold get at 1. unfold bind at 1.
    rewrite on_target_run.
    destruct (Entity.take_damage _ _ _) as [[tg' rng'] r | [tg' rng'] x];
      cbn [fst snd final Entity.caller]; [| exact Hs].
    unfold bind at 1. rewrite on_caller_run.
    cbn [Entity.on_self zoom modify fst snd Entity.caller Entity.target].
    cbn. exact Hs.
Qed.

(** X17.  A call of [use_ability] that returns success has set the
    cooldown of the ability: afterwards the expiry stored for it is
    [now] plus its effective cooldown and, while that time has not
    come, [can_use_ability] refuses the ability with the time left.
    The abilities of the caller and the other cooldowns are as
    before. *)
Theorem use_ability_starts_cooldown (s s' : Entity.St3) (ability_id : string)
    (ability : Ability.t) (position_arg : option Position.t) (now : Q)
    (message : Message) (reports : list EffectReport) :
  Entity.use_ability ability_id position_arg now s
  = Ok s' (true, message, reports) ->
  dict_get (Entity.abilities (Entity.user s)) ability_id = Some ability ->
  Entity.abilities (Entity.user s') = Entity.abilities (Entity.user s)
  /\ Entity._cooldowns (Entity.user s')
     = dict_set (Entity._cooldowns (Entity.user s)) ability_id
         (now + effective_cooldown (Entity.user s) ability)
  /\ forall t,
       t < now + effective_cooldown (Entity.user s) ability ->
       Entity.can_use_ability ability_id t (Entity.user s')
       = Ok (Entity.user s')
            (false,
             MsgOnCooldown
               (now + effective_cooldown (Entity.user s) ability - t)).
Proof.
  intros Hrun Hab.
  set (u0 := Entity.user s) in *.
  assert (Hfinal :
    exists s1, same_setup u0 (Entity.user s1)
               /\ Entity.on_user (Entity._set_ability_cooldown ability_id now) s1
                  = Ok s' tt).
  { unfold Entity.use_ability in Hrun.
    apply bind_Ok_inv in Hrun. destruct Hrun as (s1 & cm & H1 & Hrun).
    assert (Hs1 : s1 = s).
    { destruct s as [[u tg] rng]. rewrite on_user_run in H1.
      pose proof (can_use_ability_pure ability_id now u) as Hp.
      destruct (Entity.can_use_ability ability_id now u); cbn in Hp;
        [| discriminate].
      injection H1 as <- _. now rewrite Hp. }
    subst s1.
    destruct (negb (fst cm)); [discriminate |].
    unfold bind at 1 in Hrun. unfold get at 1 in Hrun.
    fold u0 in Hrun. rewrite Hab in Hrun.
    match type of Hrun with
    | (if ?c then _ else _) _ = _ => destruct c
    end; [discriminate |].
    apply bind_Ok_inv in Hrun. destruct Hrun as (s2 & stamina_cost & H2 & Hrun).
    assert (Hs2 : s2 = s).
    { unfold Ability.cost_get in H2.
      destruct (Ability.cost ability); [discriminate |].
      now injection H2 as <- _. }
    subst s2.
    apply bind_Ok_inv in Hrun. destruct Hrun as (s3 & [] & H3 & Hrun).
    assert (P3 : same_setup u0 (Entity.user s3)).
    { destruct s as [[u tg] rng]. rewrite on_user_run in H3. cbn in H3.
      injection H3 as <-. cbn. repeat split. }
    apply bind_Ok_inv in Hrun. destruct Hrun as (s4 & mana_cost & H4 & Hrun).
    assert (Hs4 : s4 = s3).
    { unfold Ability.cost_get in H4.
      destruct (Ability.cost ability); [discriminate |].
      now injection H4 as <- _. }
    subst s4.
    apply bind_Ok_inv in Hrun. destruct Hrun as (s5 & [] & H5 & Hrun).
    assert (P5 : same_setup u0 (Entity.user s5)).
    { destruct s3 as [[u tg] rng]. rewrite on_user_run in H5. cbn in H5.
      injection H5 as <-. exact P3. }
    apply bind_Ok_inv in Hrun. destruct Hrun as (s6 & primary & H6 & Hrun).
    assert (P6 : same_setup u0 (Entity.user s6)).
    { destruct (Entity.aimed_at s) as [tg |].
      - destruct (Qltb 0 (Ability.damage ability)).
        + apply bind_Ok_inv in H6. destruct H6 as (s6a & [] & H6a & H6).
          assert (s6a = s5).
          { destruct (Entity.get_skill_level u0); [discriminate |].
            now injection H6a as <-. }
          subst s6a.
          apply bind_Ok_inv in H6. destruct H6 as (s6b & r & H6b & H6).
          assert (P6b : same_setup u0 (Entity.user s6b)).
          { destruct s5 as [[u [tg5 |]] rng].
            - rewrite with_target_run in H6b.
              pose proof (deal_damage_setup u0 (Ability.damage ability)
                            "physical" (u, tg5, rng) P5) as Hd.
              destruct (Entity.deal_damage _ _ _) as [s2 r2 | s2 x];
                [| discriminate].
              injection H6b as <- _. exact Hd.
            - unfold Entity.with_target, zoom in H6b.
              cbn [Entity.user Entity.aimed_at fst snd] in H6b.
              pose proof (deal_damage_setup u0 (Ability.damage ability)
                            "physical" (u, tg, rng) P5) as Hd.
              destruct (Entity.deal_damage _ _ _) as [s2 r2 | s2 x];
                [| discriminate].
              injection H6b as <- _. exact Hd. }
          destruct (snd (fst r)); injection H6 as <- _; exact P6b.
        + injection H6 as <- _. exact P5.
      - injection H6 as <- _. exact P5. }
    destruct (fst (fst primary)); [discriminate |].
    apply bind_Ok_inv in Hrun. destruct Hrun as (s7 & [] & H7 & Hrun).
    assert (Hs7 : s7 = s6).
    { destruct (Qltb 0 (Ability.area_of_effect ability));
        now injection H7 as <-. }
    subst s7.
    apply bind_Ok_inv in Hrun. destruct Hrun as (s8 & reports' & H8 & Hrun).
    assert (P8 : same_setup u0 (Entity.user s8)).
    { exact (keeps_Ok (fun x : Entity.St3 => same_setup u0 (Entity.user x))
               _ s6 s8 reports' (attach_effects_setup u0 _ _) P6 H8). }
    apply bind_Ok_inv in Hrun. destruct Hrun as (s9 & [] & H9 & Hrun).
    exists s8. split; [exact P8 |].
    injection Hrun as <- _ _. exact H9. }
  destruct Hfinal as (s1 & (PA & PC & PR) & Hset).
  destruct s1 as [[u tg] rng]. rewrite on_user_run in Hset.
  cbn [Entity.user fst] in PA, PC, PR.
  unfold Entity._set_ability_cooldown, bind, get, put in Hset.
  rewrite PA, Hab in Hset. injection Hset as <-.
  cbn [Entity.user fst Entity.abilities Entity._cooldowns
       Entity.set__cooldowns].
  assert (Hcd : (match Entity.get_cooldown_reduction u with
                 | Some reduction => Ability.cooldown ability * (1 - reduction)
                 | None => Ability.cooldown ability
                 end) = effective_cooldown u0 ability).
  { unfold effective_cooldown. now rewrite PR. }
  rewrite Hcd, PC.
  split; [exact PA |]. split; [reflexivity |].
  intros t Ht.
  unfold Entity.can_use_ability, bind, get.
  cbn [Entity.abilities Entity.set__cooldowns].
  rewrite PA, Hab.
  unfold Entity._get_remaining_cooldown, Entity._is_on_cooldown.
  cbn [Entity._cooldowns Entity.set__cooldowns].
  rewrite dict_get_set_same.
  apply Qltb_true in Ht. rewrite Ht. reflexivity.
Qed.

Lemma use_ability_starts_cooldown_witness :
  exists s' message reports,
    Entity.use_ability "strike" None 0
      (Examples.striker, Some Examples.wolf, Rng.const (1 # 2))
    = Ok s' (true, message, reports)
    /\ Entity._cooldowns (Entity.user s')
       = dict_set (Entity._cooldowns Examples.striker) "strike"
           (0 + effective_cooldown Examples.striker Examples.strike).
Proof.
  assert (E : exists s' message reports,
             Entity.use_ability "strike" None 0
               (Examples.striker, Some Examples.wolf, Rng.const (1 # 2))
             = Ok s' (true, message, reports)).
  { vm_compute. eexists. eexists. eexists. reflexivity. }
  destruct E as (s' & message & reports & E).
  exists s', message, reports. split; [exact E |].
  exact (proj1 (proj2 (use_ability_starts_cooldown _ s' "strike"
                         Examples.strike None 0 message reports E eq_refl))).
Defined.

(** ** The basic attack, the log and the end of a session *)

Lemma keeps_on_session {A : Type} (P : CombatInstance.t -> Prop)
    (m : M CombatInstance.t A) :
  keeps P m ->
  keeps (fun s : CombatInstance.St => P (fst s)) (CombatInstance.on_session m).
Proof.
  intros Hm [c rng] Hs. cbn in Hs. rewrite on_session_run.
  specialize (Hm c Hs). destruct (m c); cbn in *; exact Hm.
Qed.

Lemma keeps_bind_get_all {S B : Type} (P : S -> Prop) (k : S -> M S B) :
  (forall s0, keeps P (k s0)) -> keeps P (bind get k).
Proof. intros Hk s Hs. unfold bind, get. now apply Hk. Qed.

Lemma combat_stats_add_standing (c0 : CombatInstance.t) (key : string)
    (amount : Q) :
  keeps (same_standing c0) (CombatInstance.combat_stats_add key amount).
Proof.
  intros c Hc.
  destruct (combat_stats_add_run key amount c) as [[d ->] | [x ->]]; exact Hc.
Qed.

Lemma add_combat_log_standing (c0 : CombatInstance.t) (cfg : GameConfig.t)
    (message : LogMessage) (message_type : LogType) :
  keeps (same_standing c0)
    (CombatInstance.add_combat_log cfg message message_type).
Proof. intros c Hc. exact Hc. Qed.

Lemma _handle_player_attack_standing (c0 : CombatInstance.t)
    (cfg : GameConfig.t) :
  keeps (fun s : CombatInstance.St => same_standing c0 (fst s))
    (CombatInstance._handle_player_attack cfg).
Proof.
  unfold CombatInstance._handle_player_attack.
  apply keeps_bind_get_all. intros s.
  apply keeps_bind; [intros [c rng] H; exact H |].
  intros r. apply keeps_bind.
  { destruct (Qltb r _); [| apply keeps_ret].
    apply keeps_bind;
      [apply (keeps_on_session (same_standing c0)), combat_stats_add_standing |].
    intros _. apply keeps_bind; [| intros; apply keeps_ret].
    apply (keeps_on_session (same_standing c0)), add_combat_log_standing. }
  intros base_damage. apply keeps_bind.
  { apply (keeps_on_session (same_standing c0)). apply keeps_modify.
    intros c Hc. exact Hc. }
  intros _. apply keeps_bind;
    [apply (keeps_on_session (same_standing c0)), combat_stats_add_standing |].
  intros _. apply keeps_bind.
  { apply (keeps_on_session (same_standing c0)). apply keeps_modify.
    intros c Hc. exact Hc. }
  intros _. apply keeps_bind_get_all. intros s1.
  apply keeps_bind.
  { destruct (3 <=? _)%Z; [| apply keeps_ret].
    apply keeps_bind; [| intros; apply keeps_ret].
    apply (keeps_on_session (same_standing c0)), add_combat_log_standing. }
  intros final_damage. apply keeps_bind; [| intros; apply keeps_ret].
  apply (keeps_on_session (same_standing c0)), add_combat_log_standing.
Qed.

Lemma same_standing_finished (c0 c : CombatInstance.t) :
  same_standing c0 c ->
  CombatInstance.is_finished c = CombatInstance.is_finished c0
  /\ CombatInstance.get_winner c = CombatInstance.get_winner c0.
Proof.
  intros (H1 & H2 & H3).
  unfold CombatInstance.get_winner, CombatInstance.is_finished.
  now rewrite H1, H2, H3.
Qed.

(** X18.  The basic attack never ends a session: whether it returns
    or raises, both participants are as alive as before and
    [end_time] is as before, so [is_finished()] and [get_winner()]
    answer as before.  An attack that returns has lowered the enemy's
    health by at least 1, whatever the enemy's defense: the health
    can fall to 0 and below while the enemy stays alive. *)
Theorem attack_never_ends_session (cfg : GameConfig.t) (c : CombatInstance.t)
    (rng : Rng.t) :
  CombatInstance.is_finished
    (fst (final (CombatInstance._handle_player_attack cfg (c, rng))))
  = CombatInstance.is_finished c
  /\ CombatInstance.get_winner
       (fst (final (CombatInstance._handle_player_attack cfg (c, rng))))
     = CombatInstance.get_winner c
  /\ Entity.is_alive
       (CombatInstance.enemy
          (fst (final (CombatInstance._handle_player_attack cfg (c, rng)))))
     = Entity.is_alive (CombatInstance.enemy c)
  /\ (forall s' r,
         CombatInstance._handle_player_attack cfg (c, rng) = Ok s' r ->
         r = (true, AttackDone)
         /\ Stats.health (Entity.stats (CombatInstance.enemy (fst s')))
            <= Stats.health (Entity.stats (CombatInstance.enemy c)) - 1).
Proof.
  pose proof (_handle_player_attack_standing c cfg (c, rng)) as H.
  cbn [fst] in H. specialize (H (conj eq_refl (conj eq_refl eq_refl))).
  destruct (same_standing_finished _ _ H) as [F W].
  split; [exact F |]. split; [exact W |].
  split; [exact (proj1 (proj2 H)) |].
  intros s' r E. split.
  - clear - E. revert E.
    unfold CombatInstance._handle_player_attack.
    rewrite bind_get_run. cbn [fst snd].
    unfold bind at 1. cbn [CombatInstance.random Rng.random fst snd].
    intros E.
    repeat (apply bind_Ok_inv in E; destruct E as (? & ? & _ & E)).
    cbn in E. now injection E as _ <-.
  - rewrite (attack_damage_ignores_combo cfg c rng s' r E).
    match goal with
    | |- _ - py_max 1 ?x <= _ => pose proof (py_max_lower 1 x)
    end.
    lra.
Qed.

(** X19.  With the methods that the class calls and does not define
    raising [AttributeError]: [end()] sets [end_time] and takes both
    participants out of combat, then raises at
    [_clear_combat_effects], so the closing entry of the log is never
    written; the session is finished all the same, and every later
    [update] returns at once.  On a session that is not finished,
    [update] raises at [_update_status_effects] and changes nothing. *)
Theorem session_as_written (cfg : GameConfig.t) (c : CombatInstance.t)
    (rng : Rng.t) (winner_name : option string) (game_time : Q) :
  (let o := CombatInstance.end_ CombatInstance.undefined_as_is cfg winner_name
              (c, rng) in
   raised o = Some AttributeError
   /\ CombatInstance.end_time (fst (final o))
      = Some (GameConfig.game_time cfg)
   /\ CombatInstance.is_finished (fst (final o)) = true
   /\ Entity.in_combat (CombatInstance.player (fst (final o))) = false
   /\ Entity.in_combat (CombatInstance.enemy (fst (final o))) = false
   /\ CombatInstance.combat_log (fst (final o)) = CombatInstance.combat_log c
   /\ CombatInstance.update CombatInstance.undefined_as_is cfg game_time
        (final o)
      = Ok (final o) tt)
  /\ (CombatInstance.is_finished c = false ->
      CombatInstance.update CombatInstance.undefined_as_is cfg game_time
        (c, rng)
      = Raise (c, rng) AttributeError).
Proof.
  split.
  - cbv zeta.
    unfold CombatInstance.end_, bind, modify, raise.
    rewrite !on_session_run.
    cbn [final raised fst snd CombatInstance.undefined_as_is
         CombatInstance._clear_combat_effects raise].
    split; [reflexivity |]. split; [reflexivity |].
    assert (F : CombatInstance.is_finished
                  (CombatInstance.set_enemy
                     (Entity.set_in_combat false
                        (CombatInstance.enemy
                           (CombatInstance.set_player
                              (Entity.set_in_combat false
                                 (CombatInstance.player
                                    (CombatInstance.set_end_time
                                       (Some (GameConfig.game_time cfg)) c)))
                              (CombatInstance.set_end_time
                                 (Some (GameConfig.game_time cfg)) c))))
                     (CombatInstance.set_player
                        (Entity.set_in_combat false
                           (CombatInstance.player
                              (CombatInstance.set_end_time
                                 (Some (GameConfig.game_time cfg)) c)))
                        (CombatInstance.set_end_time
                           (Some (GameConfig.game_time cfg)) c)))
                = true).
    { unfold CombatInstance.is_finished. cbn. apply orb_true_r. }
    split; [exact F |]. split; [reflexivity |]. split; [reflexivity |].
    split; [reflexivity |].
    unfold CombatInstance.update, bind, get. cbn [fst]. now rewrite F.
  - intros F. unfold CombatInstance.update, bind, get. cbn [fst].
    rewrite F. reflexivity.
Qed.

Lemma session_as_written_witness :
  CombatInstance.update CombatInstance.undefined_as_is Examples.cfg 5
    (Examples.fight, Rng.const (1 # 2))
  = Raise (Examples.fight, Rng.const (1 # 2)) AttributeError.
Proof.
  apply (proj2 (session_as_written Examples.cfg Examples.fight
                  (Rng.const (1 # 2)) None 5)).
  reflexivity.
Defined.

Lemma skipn_suffix {A : Type} (n : nat) (l : list A) :
  exists pre, l = pre ++ skipn n l /\ List.length pre = Nat.min n (List.length l).
Proof.
  exists (firstn n l). split.
  - symmetry. apply firstn_skipn.
  - apply length_firstn.
Qed.

(** X20.  [get_combat_log(last_n)] returns a suffix of the log.
    Without an argument it is the whole log; and so it is with
    [last_n = 0], since [combat_log[-0:]] is [combat_log[0:]].  With
    [last_n >= 1] it is the last [min(last_n, len)] entries.  With a
    negative [last_n] it is the log without its first [-last_n]
    entries.  After [add_combat_log], [get_combat_log(1)] is the
    entry just written: the message and its type with the turn of the
    session and the time of the game. *)
Theorem get_combat_log_suffix (cfg : GameConfig.t) (c : CombatInstance.t) :
  CombatInstance.get_combat_log c None = CombatInstance.combat_log c
  /\ CombatInstance.get_combat_log c (Some 0%Z) = CombatInstance.combat_log c
  /\ (forall n : Z,
         (1 <= n)%Z ->
         exists older,
           CombatInstance.combat_log c
           = older ++ CombatInstance.get_combat_log c (Some n)
           /\ Z.of_nat (List.length (CombatInstance.get_combat_log c (Some n)))
              = Z.min n (Z.of_nat (List.length (CombatInstance.combat_log c))))
  /\ (forall k : nat,
         CombatInstance.get_combat_log c (Some (- Z.of_nat (S k))%Z)
         = skipn (S k) (CombatInstance.combat_log c))
  /\ (forall message message_type,
         CombatInstance.get_combat_log
           (final (CombatInstance.add_combat_log cfg message message_type c))
           (Some 1%Z)
         = [{| CombatInstance.message := message;
               CombatInstance.type := message_type;
               CombatInstance.log_turn := CombatInstance.turn c;
               CombatInstance.time := GameConfig.game_time cfg |}]).
Proof.
  unfold CombatInstance.get_combat_log, CombatInstance.py_slice_from.
  set (l := CombatInstance.combat_log c).
  split; [reflexivity |].
  split.
  { cbn [Z.opp Z.ltb Z.compare]. rewrite Z.min_l by lia. reflexivity. }
  split.
  { intros n Hn.
    destruct (- n <? 0)%Z eqn:E; [| apply Z.ltb_ge in E; lia].
    destruct (skipn_suffix (Z.to_nat (Z.max (- n + Z.of_nat (List.length l)) 0)) l)
      as (older & E1 & E2).
    exists older. split; [exact E1 |].
    rewrite length_skipn. lia. }
  split.
  { intros k.
    destruct (- - Z.of_nat (S k) <? 0)%Z eqn:E; [apply Z.ltb_lt in E; lia |].
    rewrite Z.opp_involutive.
    destruct (Z.min_spec (Z.of_nat (S k)) (Z.of_nat (List.length l)))
      as [[H ->] | [H ->]].
    - now rewrite Nat2Z.id.
    - rewrite Nat2Z.id. rewrite !skipn_all2 by lia. reflexivity. }
  intros message message_type.
  cbn [final CombatInstance.add_combat_log modify CombatInstance.combat_log
       CombatInstance.set_combat_log].
  fold l. rewrite length_app. cbn [List.length].
  cbn [Z.opp Z.ltb Z.compare].
  replace (Z.to_nat (Z.max (-1 + Z.of_nat (List.length l + 1)) 0))
    with (List.length l) by lia.
  rewrite skipn_app, Nat.sub_diag, skipn_all. reflexivity.
Qed.

(** X21.  [_handle_player_defend] returns success and does not stack:
    it sets [defense_bonus] to 5 plus the defense skill, whatever the
    bonus was, and raises the stamina by 20 up to 100.  After two
    calls in a row the bonus is the same as after one and the stamina
    is [min(100, stamina + 40)]; each call adds one entry to the log
    and leaves the combo counter and the random source as they were. *)
Theorem defend_does_not_stack (cfg : GameConfig.t) (c : CombatInstance.t)
    (rng : Rng.t) :
  let bonus :=
    5 + match Entity.get_skill_level (CombatInstance.player c) with
        | Some skill_level => skill_level ["defense"%string] * 1
        | None => 0
        end in
  let o1 := CombatInstance._handle_player_defend cfg (c, rng) in
  let o2 := CombatInstance._handle_player_defend cfg (final o1) in
  returned o1 = Some (true, DefendDone)
  /\ returned o2 = Some (true, DefendDone)
  /\ PlayerStatus.defense_bonus (CombatInstance.player_status (fst (final o1)))
     = bonus
  /\ PlayerStatus.defense_bonus (CombatInstance.player_status (fst (final o2)))
     = bonus
  /\ PlayerStatus.stamina (CombatInstance.player_status (fst (final o1)))
     = py_min 100 (PlayerStatus.stamina (CombatInstance.player_status c) + 20)
  /\ PlayerStatus.stamina (CombatInstance.player_status (fst (final o2)))
     == py_min 100 (PlayerStatus.stamina (CombatInstance.player_status c) + 40)
  /\ PlayerStatus.stamina (CombatInstance.player_status (fst (final o2)))
     <= 100
  /\ PlayerStatus.combo_counter (CombatInstance.player_status (fst (final o2)))
     = PlayerStatus.combo_counter (CombatInstance.player_status c)
  /\ List.length (CombatInstance.combat_log (fst (final o2)))
     = S (S (List.length (CombatInstance.combat_log c)))
  /\ snd (final o2) = rng.
Proof.
  cbv zeta.
  unfold CombatInstance._handle_player_defend, bind, get, modify, ret,
    CombatInstance.on_session, zoom, CombatInstance.add_combat_log.
  cbn -[py_min Qplus].
  repeat (split; [reflexivity |]).
  set (s := PlayerStatus.stamina (CombatInstance.player_status c)).
  split; [| split; [| split; [reflexivity | split; [| reflexivity]]]].
  - unfold py_min.
    destruct (Qltb_spec (s + 20) 100);
      repeat match goal with
             | |- context [Qltb ?u ?v] => destruct (Qltb_spec u v)
             end; lra.
  - apply py_min_left.
  - rewrite !length_app. cbn. lia.
Qed.

(** ** The combat manager *)

Lemma on_manager_run {A : Type} (m : M CombatManager.t A)
    (c : CombatManager.t) (rng : Rng.t) :
  CombatManager.on_manager m (c, rng)
  = match m c with
    | Ok c' a => Ok (c', rng) a
    | Raise c' x => Raise (c', rng) x
    end.
Proof. reflexivity. Qed.

(** The damage of the enemy: no skill and no ability take part. *)
Lemma calculate_damage_enemy_run (attacker defender : Fighter.t)
    (m : CombatManager.t) (rng : Rng.t) :
  CombatManager.calculate_damage attacker defender false None (m, rng)
  = let base := py_max 0 (Fighter.strength attacker - Fighter.defense defender) in
    if Qltb (fst (Rng.random rng)) (5 # 100) then
      Ok (CombatManager.set_combat_log
            (CombatManager.combat_log m
             ++ [(MmDodge false (Fighter.name (CombatManager.enemy m)),
                  MtWarning)]) m,
          snd (Rng.random rng)) (0, "UNIK!"%string)
    else if Qltb (fst (Rng.random (snd (Rng.random rng)))) (5 # 100) then
      Ok (CombatManager.set_combat_log
            (CombatManager.combat_log m
             ++ [(MmCritical false (Fighter.name (CombatManager.enemy m)),
                  MtError)]) m,
          snd (Rng.random (snd (Rng.random rng))))
         (base * 2, "KRYTYCZNE!"%string)
    else Ok (m, snd (Rng.random (snd (Rng.random rng)))) (base, EmptyString).
Proof.
  unfold CombatManager.calculate_damage.
  rewrite bind_get_run. cbn [fst snd andb].
  unfold bind at 1. unfold ret at 1.
  unfold bind at 1. cbn [CombatManager.random Rng.random fst snd].
  destruct (Qltb (Rng.tape rng (Rng.pos rng)) (5 # 100)).
  - unfold bind. rewrite on_manager_run. reflexivity.
  - unfold bind at 1. cbn [CombatManager.random Rng.random fst snd Rng.tape Rng.pos].
    destruct (Qltb (Rng.tape rng (S (Rng.pos rng))) (5 # 100)).
    + unfold bind. rewrite on_manager_run. reflexivity.
    + reflexivity.
Qed.

(** X22.  With an interface whose [show_message] returns,
    [handle_enemy_turn] always returns, and never raises the health
    of the player.  The first draw decides the dodge and, when the
    player does not dodge, the second draw decides the critical hit,
    each with a chance of 0.05: the damage is 0 after a dodge, and
    otherwise [max(0, enemy.strength - player.defense)], doubled by a
    critical hit.  The call subtracts the damage from the health of
    the player, logs the dodge or the critical hit and then the hit,
    and changes nothing else.  The result is ["defeat"] exactly when
    the health of the player is then 0 or less. *)
Theorem enemy_turn_never_heals (m : CombatManager.t) (rng : Rng.t) :
  let base :=
    py_max 0 (Fighter.strength (CombatManager.enemy m)
              - Fighter.defense (CombatManager.player m)) in
  let dodged := Qltb (fst (Rng.random rng)) (5 # 100) in
  let critical :=
    Qltb (fst (Rng.random (snd (Rng.random rng)))) (5 # 100) in
  let damage :=
    if dodged then 0 else if critical then base * 2 else base in
  let enemy_name := Fighter.name (CombatManager.enemy m) in
  let m' :=
    CombatManager.set_combat_log
      (CombatManager.combat_log m
       ++ (if dodged then [(MmDodge false enemy_name, MtWarning)]
           else if critical then [(MmCritical false enemy_name, MtError)]
           else [])
       ++ [(MmEnemyHit
              (if dodged then "UNIK!"%string
               else if critical then "KRYTYCZNE!"%string
               else EmptyString)
              enemy_name damage,
            MtWarning)])
      (CombatManager.set_player
         (Fighter.set_health
            (Fighter.health (CombatManager.player m) - damage)
            (CombatManager.player m))
         m) in
  let rng' :=
    if dodged then snd (Rng.random rng)
    else snd (Rng.random (snd (Rng.random rng))) in
  exists result,
    CombatManager.handle_enemy_turn (m, rng) = Ok (m', rng') result
    /\ 0 <= damage
    /\ Fighter.health (CombatManager.player m')
       <= Fighter.health (CombatManager.player m)
    /\ (result = Some "defeat"%string
        <-> Fighter.health (CombatManager.player m') <= 0)
    /\ (result = None <-> 0 < Fighter.health (CombatManager.player m')).
Proof.
  intros base dodged critical damage enemy_name m' rng'.
  assert (Hbase : 0 <= base) by apply py_max_lower.
  assert (Hdamage : 0 <= damage).
  { unfold damage. destruct dodged; [lra |]. destruct critical; lra. }
  assert (Hrun : exists result,
             CombatManager.handle_enemy_turn (m, rng) = Ok (m', rng') result
             /\ result
                = if Qleb (Fighter.health (CombatManager.player m')) 0
                  then Some "defeat"%string else None).
  { unfold CombatManager.handle_enemy_turn.
    rewrite bind_get_run. cbn [fst snd]. unfold bind at 1.
    rewrite calculate_damage_enemy_run. cbv zeta. fold base.
    unfold m', rng', damage, dodged, critical.
    destruct (Qltb (fst (Rng.random rng)) (5 # 100));
      [| destruct (Qltb (fst (Rng.random (snd (Rng.random rng)))) (5 # 100))];
      unfold bind at 1; rewrite on_manager_run; cbn [modify fst snd];
      rewrite bind_get_run; unfold bind at 1; rewrite on_manager_run;
      cbn [CombatManager.log_combat_event modify ret fst snd];
      rewrite bind_get_run; cbn [fst snd];
      cbn [CombatManager.player CombatManager.set_player
           CombatManager.set_combat_log Fighter.health Fighter.set_health
           CombatManager.enemy CombatManager.combat_log];
      unfold enemy_name;
      match goal with
      | |- context [Qleb ?h 0] => destruct (Qleb h 0)
      end;
      eexists; (split; [| reflexivity]);
      unfold CombatManager.set_combat_log, CombatManager.set_player;
      cbn [CombatManager.player CombatManager.enemy CombatManager.turn
           CombatManager.player_stamina CombatManager.abilities_cooldowns
           CombatManager.combat_log app];
      rewrite <- ?app_assoc; reflexivity. }
  destruct Hrun as (result & Hrun & Hres). exists result.
  split; [exact Hrun |]. split; [exact Hdamage |].
  assert (Hh : Fighter.health (CombatManager.player m')
               = Fighter.health (CombatManager.player m) - damage)
    by reflexivity.
  split; [rewrite Hh; lra |].
  rewrite Hres.
  destruct (Qleb_spec (Fighter.health (CombatManager.player m')) 0);
    split; split; intros; try reflexivity; try assumption;
    try discriminate; exfalso; lra.
Qed.

(** Comparisons of integers, from booleans to propositions. *)
Ltac zbool :=
  repeat match goal with
         | H : (_ <? _)%Z = true |- _ => apply Z.ltb_lt in H
         | H : (_ <? _)%Z = false |- _ => apply Z.ltb_ge in H
         | H : (_ <=? _)%Z = true |- _ => apply Z.leb_le in H
         | H : (_ <=? _)%Z = false |- _ => apply Z.leb_gt in H
         end.

Lemma dict_get_app_skip {V : Type} (pre post : list (string * V)) (k : string) :
  ~ In k (map fst pre) -> dict_get (pre ++ post) k = dict_get post k.
Proof.
  induction pre as [| [k' v'] pre IH]; intros H; cbn; [reflexivity |].
  cbn in H. destruct (String.eqb_spec k' k); [tauto |]. apply IH. tauto.
Qed.

Lemma dict_set_app_skip {V : Type} (pre post : list (string * V)) (k : string)
    (v : V) :
  ~ In k (map fst pre) ->
  dict_set (pre ++ post) k v = pre ++ dict_set post k v.
Proof.
  induction pre as [| [k' v'] pre IH]; intros H; cbn; [reflexivity |].
  cbn in H. destruct (String.eqb_spec k' k); [tauto |].
  rewrite IH by tauto. reflexivity.
Qed.

Lemma dict_del_app_skip {V : Type} (pre post : list (string * V)) (k : string) :
  ~ In k (map fst pre) ->
  dict_del (pre ++ post) k
  = match dict_del post k with
    | Some post' => Some (pre ++ post')
    | None => None
    end.
Proof.
  induction pre as [| [k' v'] pre IH]; intros H; cbn.
  - destruct (dict_del post k); reflexivity.
  - cbn in H. destruct (String.eqb_spec k' k); [tauto |].
    rewrite IH by tauto. destruct (dict_del post k); reflexivity.
Qed.

(** One pass of the loop, on the entry that follows the entries
    already passed. *)
Lemma update_cooldown_run (m : CombatManager.t) (pre post : list (string * Z))
    (k : string) (v : Z) :
  CombatManager.abilities_cooldowns m = pre ++ (k, v) :: post ->
  ~ In k (map fst pre) ->
  CombatManager.update_cooldown k m
  = Ok (CombatManager.set_abilities_cooldowns
          (pre ++ tick_cooldowns [(k, v)] ++ post) m) tt.
Proof.
  intros Hc Hk. unfold CombatManager.update_cooldown.
  rewrite bind_get_run, Hc, dict_get_app_skip by exact Hk.
  cbn [dict_get]. rewrite String.eqb_refl.
  unfold tick_cooldowns. cbn [filter map fst snd].
  destruct (0 <? v)%Z eqn:E0.
  - unfold bind at 1. cbn [modify]. rewrite bind_get_run.
    cbn [CombatManager.abilities_cooldowns
         CombatManager.set_abilities_cooldowns].
    rewrite Hc, dict_set_app_skip by exact Hk.
    cbn [dict_set]. rewrite String.eqb_refl.
    rewrite dict_get_app_skip by exact Hk.
    cbn [dict_get]. rewrite String.eqb_refl.
    destruct (v - 1 <=? 0)%Z eqn:E1.
    + rewrite dict_del_app_skip by exact Hk.
      cbn [dict_del]. rewrite String.eqb_refl. cbn [modify].
      destruct (1 <? v)%Z eqn:E2; [lia |]. reflexivity.
    + destruct (1 <? v)%Z eqn:E2; [| lia]. cbn [ret app map]. reflexivity.
  - unfold bind at 1. cbn [ret]. rewrite bind_get_run, Hc.
    rewrite dict_get_app_skip by exact Hk.
    cbn [dict_get]. rewrite String.eqb_refl.
    destruct (v <=? 0)%Z eqn:E1; [| lia].
    rewrite dict_del_app_skip by exact Hk.
    cbn [dict_del]. rewrite String.eqb_refl. cbn [modify].
    destruct (1 <? v)%Z eqn:E2; [lia |]. reflexivity.
Qed.

Lemma tick_cooldowns_app (l1 l2 : list (string * Z)) :
  tick_cooldowns (l1 ++ l2) = tick_cooldowns l1 ++ tick_cooldowns l2.
Proof. unfold tick_cooldowns. now rewrite filter_app, map_app. Qed.

Lemma tick_cooldowns_keys (l : list (string * Z)) (k : string) :
  In k (map fst (tick_cooldowns l)) -> In k (map fst l).
Proof.
  unfold tick_cooldowns. rewrite map_map. cbn [fst].
  intros H. apply in_map_iff in H. destruct H as (kv & <- & Hin).
  apply filter_In in Hin. apply in_map. tauto.
Qed.

Lemma tick_cooldowns_NoDup (l : list (string * Z)) :
  NoDup (map fst l) -> NoDup (map fst (tick_cooldowns l)).
Proof.
  induction l as [| [k v] l IH]; intros H; [constructor |].
  inversion H as [| ? ? Hk Hl]; subst.
  change ((k, v) :: l) with ([(k, v)] ++ l).
  rewrite tick_cooldowns_app. unfold tick_cooldowns at 1.
  cbn [filter map fst snd].
  destruct (1 <? v)%Z; cbn [map app fst]; [| now apply IH].
  constructor; [| now apply IH].
  intros Hin. apply Hk. now apply tick_cooldowns_keys.
Qed.

Lemma update_cooldowns_loop (rest : list (string * Z)) :
  forall (done : list (string * Z)) (m : CombatManager.t),
    NoDup (map fst (done ++ rest)) ->
    CombatManager.abilities_cooldowns m = done ++ rest ->
    for_each (map fst rest) CombatManager.update_cooldown m
    = Ok (CombatManager.set_abilities_cooldowns
            (done ++ tick_cooldowns rest) m) tt.
Proof.
  induction rest as [| [k v] rest IH]; intros done m Hnd Hc.
  - cbn. unfold tick_cooldowns. cbn. rewrite app_nil_r in *.
    rewrite <- Hc. destruct m; reflexivity.
  - cbn [map fst for_each]. unfold bind.
    assert (Hk : ~ In k (map fst done)).
    { rewrite map_app in Hnd. cbn [map fst] in Hnd.
      apply NoDup_remove_2 in Hnd. intros H. apply Hnd.
      apply in_or_app. now left. }
    rewrite (update_cooldown_run m done rest k v Hc Hk).
    rewrite (IH (done ++ tick_cooldowns [(k, v)])).
    + change ((k, v) :: rest) with ([(k, v)] ++ rest).
      rewrite tick_cooldowns_app, <- app_assoc. destruct m; reflexivity.
    + rewrite map_app in Hnd. cbn [map fst] in Hnd.
      pose proof (NoDup_remove_1 _ _ _ Hnd) as H1.
      pose proof (NoDup_remove_2 _ _ _ Hnd) as H2.
      rewrite !map_app. unfold tick_cooldowns. cbn [filter map fst snd].
      destruct (1 <? v)%Z; cbn [map app fst].
      * rewrite <- app_assoc. cbn [app].
        apply NoDup_Add with (a := k) (l := map fst done ++ map fst rest).
        -- apply Add_app.
        -- split; [exact H1 | exact H2].
      * rewrite app_nil_r. exact H1.
    + cbn [CombatManager.abilities_cooldowns
           CombatManager.set_abilities_cooldowns].
      now rewrite <- app_assoc.
Qed.

Lemma update_combat_state_run (m : CombatManager.t) :
  NoDup (map fst (CombatManager.abilities_cooldowns m)) ->
  CombatManager.update_combat_state m
  = Ok (CombatManager.set_abilities_cooldowns
          (tick_cooldowns (CombatManager.abilities_cooldowns m))
          (CombatManager.set_player_stamina
             (py_min 100 (CombatManager.player_stamina m + 10)) m)) tt.
Proof.
  intros Hnd. unfold CombatManager.update_combat_state.
  unfold bind at 1. cbn [modify]. rewrite bind_get_run.
  cbn [CombatManager.abilities_cooldowns CombatManager.set_player_stamina].
  rewrite (update_cooldowns_loop (CombatManager.abilities_cooldowns m) []
             (CombatManager.set_player_stamina
                (py_min 100 (CombatManager.player_stamina m + 10)) m)
             Hnd eq_refl).
  reflexivity.
Qed.

Lemma dict_get_tick_cooldowns (l : list (string * Z)) (k : string) :
  NoDup (map fst l) ->
  dict_get (tick_cooldowns l) k
  = match dict_get l k with
    | Some v => if (1 <? v)%Z then Some (v - 1)%Z else None
    | None => None
    end.
Proof.
  induction l as [| [k' v] l IH]; intros Hnd; [reflexivity |].
  inversion Hnd as [| ? ? Hk Hl]; subst.
  change ((k', v) :: l) with ([(k', v)] ++ l).
  rewrite tick_cooldowns_app. unfold tick_cooldowns at 1.
  cbn [filter map fst snd app dict_get].
  destruct (String.eqb_spec k' k) as [-> | Hne].
  - destruct (1 <? v)%Z; cbn [map app dict_get fst snd].
    + now rewrite String.eqb_refl.
    + destruct (dict_get (tick_cooldowns l) k) eqn:E; [| reflexivity].
      exfalso. apply Hk. apply tick_cooldowns_keys.
      clear - E. induction (tick_cooldowns l) as [| [a b] t IHt];
        [discriminate |].
      cbn in *. destruct (String.eqb_spec a k); [now left | right; auto].
  - destruct (1 <? v)%Z; cbn [map app dict_get fst snd].
    + destruct (String.eqb_spec k' k); [contradiction | now apply IH].
    + now apply IH.
Qed.

(** An ability that is not in the cooldowns stays out of them. *)
Lemma cooldown_stays_absent (j : nat) :
  forall (x : CombatManager.t) (name : string) (y : CombatManager.t),
    NoDup (map fst (CombatManager.abilities_cooldowns x)) ->
    dict_get (CombatManager.abilities_cooldowns x) name = None ->
    repeat_call j CombatManager.update_combat_state x = Ok y tt ->
    dict_get (CombatManager.abilities_cooldowns y) name = None.
Proof.
  induction j as [| j IHj]; intros x name y Hx Hn Hy.
  - cbn in Hy. now injection Hy as <-.
  - cbn [repeat_call] in Hy. unfold bind in Hy.
    rewrite (update_combat_state_run x Hx) in Hy.
    apply (IHj _ name y) in Hy; [exact Hy | |].
    + cbn. now apply tick_cooldowns_NoDup.
    + cbn. rewrite (dict_get_tick_cooldowns _ _ Hx), Hn. reflexivity.
Qed.

(** The state of the manager after [k] rounds. *)
Lemma update_combat_state_rounds (k : nat) :
  forall m : CombatManager.t,
    NoDup (map fst (CombatManager.abilities_cooldowns m)) ->
    CombatManager.player_stamina m <= 100 ->
    exists mk,
      repeat_call k CombatManager.update_combat_state m = Ok mk tt
      /\ CombatManager.player mk = CombatManager.player m
      /\ CombatManager.player_stamina mk
         == py_min 100 (CombatManager.player_stamina m
                        + inject_Z (Z.of_nat k) * 10)
      /\ forall name v,
           dict_get (CombatManager.abilities_cooldowns m) name = Some v ->
           (0 < v)%Z ->
           dict_get (CombatManager.abilities_cooldowns mk) name
           = if (Z.of_nat k <? v)%Z then Some (v - Z.of_nat k)%Z else None.
Proof.
  induction k as [| k IH]; intros m Hnd Hs.
  - exists m. cbn [repeat_call ret]. split; [reflexivity |].
    split; [reflexivity |]. split.
    + change (inject_Z (Z.of_nat 0)) with 0. unfold py_min.
      destruct (Qltb_spec (CombatManager.player_stamina m + 0 * 10) 100); lra.
    + intros name v Hv Hpos. cbn [Z.of_nat].
      destruct (0 <? v)%Z eqn:E; [| lia]. rewrite Hv. f_equal. lia.
  - cbn [repeat_call]. unfold bind.
    rewrite (update_combat_state_run m Hnd).
    set (m1 := CombatManager.set_abilities_cooldowns _ _).
    destruct (IH m1) as (mk & E & Hp & Hst & Hcd).
    + unfold m1. cbn. now apply tick_cooldowns_NoDup.
    + unfold m1. cbn. apply py_min_left.
    + exists mk. split; [exact E |]. split; [rewrite Hp; reflexivity |].
      split.
      * rewrite Hst. unfold m1.
        cbn [CombatManager.player_stamina CombatManager.set_abilities_cooldowns
             CombatManager.set_player_stamina].
        assert (HS : inject_Z (Z.of_nat (S k)) * 10
                     == inject_Z (Z.of_nat k) * 10 + 10).
        { rewrite Nat2Z.inj_succ. unfold Z.succ. rewrite inject_Z_plus.
          change (inject_Z 1) with 1. ring. }
        assert (Hk : 0 <= inject_Z (Z.of_nat k) * 10).
        { assert (0 <= inject_Z (Z.of_nat k)).
          { change 0 with (inject_Z 0). rewrite <- Zle_Qle. lia. }
          nra. }
        set (a := inject_Z (Z.of_nat k) * 10) in *.
        set (b := inject_Z (Z.of_nat (S k)) * 10) in *.
        set (s := CombatManager.player_stamina m) in *.
        unfold py_min.
        destruct (Qltb_spec (s + 10) 100);
          repeat match goal with
                 | |- context [Qltb ?u ?w] => destruct (Qltb_spec u w)
                 end; lra.
      * intros name v Hv Hpos.
        assert (H1 : dict_get (CombatManager.abilities_cooldowns m1) name
                     = if (1 <? v)%Z then Some (v - 1)%Z else None).
        { unfold m1. cbn [CombatManager.abilities_cooldowns
                          CombatManager.set_abilities_cooldowns].
          rewrite (dict_get_tick_cooldowns _ _ Hnd), Hv. reflexivity. }
        destruct (1 <? v)%Z eqn:E1.
        -- rewrite (Hcd name (v - 1)%Z H1) by lia.
           destruct (Z.of_nat k <? v - 1)%Z eqn:E2;
             destruct (Z.of_nat (S k) <? v)%Z eqn:E3;
             zbool; try reflexivity; try (f_equal; lia); exfalso; lia.
        -- destruct (Z.of_nat (S k) <? v)%Z eqn:E3; [zbool; exfalso; lia |].
           apply (cooldown_stays_absent k m1 name); [| exact H1 | exact E].
           unfold m1. cbn. now apply tick_cooldowns_NoDup.
Qed.

Lemma dict_set_keys_NoDup {V : Type} (d : list (string * V)) (k : string) (v : V) :
  NoDup (map fst d) -> NoDup (map fst (dict_set d k v)).
Proof.
  induction d as [| [k' v'] rest IH]; intros H; cbn.
  - constructor; [intros [] | constructor].
  - inversion H as [| ? ? Hk Hrest]; subst.
    destruct (String.eqb_spec k' k) as [-> | Hne]; cbn [map fst].
    + constructor; assumption.
    + constructor; [| now apply IH].
      intros Hin. apply Hk. clear - Hin Hne.
      induction rest as [| [a b] rest IHr]; cbn in *.
      * destruct Hin as [-> | []]. contradiction.
      * destruct (String.eqb_spec a k) as [-> | Ha]; cbn in Hin.
        -- destruct Hin as [-> | Hin]; [contradiction | now right].
        -- destruct Hin as [Hin | Hin]; [now left | right; auto].
Qed.

(** The two abilities of the table. *)
Lemma abilities_table (ability_name : string)
    (ability : CombatManager.AbilitySpec) :
  dict_get CombatManager.abilities ability_name = Some ability ->
  (0 < CombatManager.cooldown ability)%Z
  /\ 0 <= CombatManager.stamina_cost ability.
Proof.
  unfold CombatManager.abilities. cbn [dict_get].
  destruct (String.eqb "thrust" ability_name).
  - intros H. injection H as <-. cbn. split; [lia | lra].
  - destruct (String.eqb "whirlwind" ability_name); [| discriminate].
    intros H. injection H as <-. cbn. split; [lia | lra].
Qed.

(** What a successful [use_ability] has checked and done. *)
Lemma use_ability_success (m m1 : CombatManager.t) (ability_name : string)
    (ability : CombatManager.AbilitySpec) (reply : AbilityReply) :
  dict_get CombatManager.abilities ability_name = Some ability ->
  CombatManager.use_ability ability_name m = Ok m1 (true, reply) ->
  m1 = CombatManager.set_abilities_cooldowns
         (dict_set (CombatManager.abilities_cooldowns m) ability_name
            (CombatManager.cooldown ability))
         (CombatManager.set_player_stamina
            (CombatManager.player_stamina m
             - CombatManager.stamina_cost ability) m)
  /\ reply = ArUsed (CombatManager.name ability)
  /\ CombatManager.min_level ability
     <= Fighter.get_skill_level (CombatManager.player m) "walka_mieczem"
  /\ CombatManager.stamina_cost ability <= CombatManager.player_stamina m.
Proof.
  intros Hab. unfold CombatManager.use_ability.
  rewrite bind_get_run, Hab.
  destruct (Qltb_spec
              (Fighter.get_skill_level (CombatManager.player m) "walka_mieczem")
              (CombatManager.min_level ability)); [discriminate |].
  destruct (Qltb_spec (CombatManager.player_stamina m)
                      (CombatManager.stamina_cost ability)); [discriminate |].
  destruct (dict_get (CombatManager.abilities_cooldowns m) ability_name)
    as [turns |].
  - destruct (0 <? turns)%Z; [discriminate |].
    cbn. intros E. injection E as <- <-. repeat split; assumption.
  - cbn. intros E. injection E as <- <-. repeat split; assumption.
Qed.

(** X23.  After a successful [use_ability] of the manager, and [k]
    rounds of [update_combat_state]: every round returns; the
    cooldown of the ability shows [cooldown - k] turns while [k] is
    below the cooldown of the table (3 for the thrust, 5 for the
    whirlwind) and the entry is gone from then on; the stamina is
    [min(100, stamina - cost + 10 * k)].  The ability can be used
    again exactly when [k] has reached the cooldown and the stamina
    covers the cost. *)
Theorem ability_cooldown_cycle (m m1 : CombatManager.t) (ability_name : string)
    (ability : CombatManager.AbilitySpec) (reply : AbilityReply) (k : nat) :
  NoDup (map fst (CombatManager.abilities_cooldowns m)) ->
  CombatManager.player_stamina m <= 100 ->
  dict_get CombatManager.abilities ability_name = Some ability ->
  CombatManager.use_ability ability_name m = Ok m1 (true, reply) ->
  exists mk,
    repeat_call k CombatManager.update_combat_state m1 = Ok mk tt
    /\ dict_get (CombatManager.abilities_cooldowns mk) ability_name
       = (if (Z.of_nat k <? CombatManager.cooldown ability)%Z
          then Some (CombatManager.cooldown ability - Z.of_nat k)%Z
          else None)
    /\ CombatManager.player_stamina mk
       == py_min 100
            (CombatManager.player_stamina m
             - CombatManager.stamina_cost ability
             + inject_Z (Z.of_nat k) * 10)
    /\ (returned (CombatManager.use_ability ability_name mk)
        = Some (true, ArUsed (CombatManager.name ability))
        <-> (CombatManager.cooldown ability <= Z.of_nat k)%Z
            /\ CombatManager.stamina_cost ability
               <= CombatManager.player_stamina mk).
Proof.
  intros Hnd Hs Hab Hrun.
  destruct (abilities_table _ _ Hab) as [Hcd Hcost].
  destruct (use_ability_success m m1 ability_name ability reply Hab Hrun)
    as (-> & _ & Hlevel & Hstamina).
  set (m1 := CombatManager.set_abilities_cooldowns _ _).
  destruct (update_combat_state_rounds k m1) as (mk & E & Hp & Hst & Hget).
  { unfold m1. cbn. now apply dict_set_keys_NoDup. }
  { unfold m1. cbn. lra. }
  exists mk. split; [exact E |].
  assert (G : dict_get (CombatManager.abilities_cooldowns mk) ability_name
              = if (Z.of_nat k <? CombatManager.cooldown ability)%Z
                then Some (CombatManager.cooldown ability - Z.of_nat k)%Z
                else None).
  { apply Hget; [| exact Hcd]. unfold m1. cbn. apply dict_get_set_same. }
  split; [exact G |]. split; [exact Hst |].
  unfold CombatManager.use_ability. rewrite bind_get_run, Hab, Hp.
  unfold m1 at 1. cbn [CombatManager.player CombatManager.set_player_stamina
                       CombatManager.set_abilities_cooldowns].
  apply Qltb_false in Hlevel. rewrite Hlevel.
  destruct (Qltb_spec (CombatManager.player_stamina mk)
                      (CombatManager.stamina_cost ability)) as [Hlow | Hok].
  - cbn. split; [discriminate | intros [_ H]; exfalso; lra].
  - rewrite G.
    destruct (Z.of_nat k <? CombatManager.cooldown ability)%Z eqn:Ek; zbool.
    + destruct (0 <? CombatManager.cooldown ability - Z.of_nat k)%Z eqn:E0;
        zbool; [| exfalso; lia].
      cbn. split; [discriminate | intros [H _]; exfalso; lia].
    + cbn. split; [intros _; split; [lia | exact Hok] | reflexivity].
Qed.

Lemma ability_cooldown_cycle_witness :
  let hero := {| Fighter.name := "Hero"; Fighter.strength := 10;
                 Fighter.defense := 5; Fighter.health := 100;
                 Fighter.max_health := 100; Fighter.level := 1;
                 Fighter.get_skill_level := fun _ => 3 |} in
  let m := CombatManager.init hero hero in
  exists mk,
    repeat_call 3 CombatManager.update_combat_state
      (final (CombatManager.use_ability "thrust" m)) = Ok mk tt
    /\ dict_get (CombatManager.abilities_cooldowns mk) "thrust" = None.
Proof.
  cbv zeta.
  set (hero := {| Fighter.name := "Hero"; Fighter.strength := 10;
                  Fighter.defense := 5; Fighter.health := 100;
                  Fighter.max_health := 100; Fighter.level := 1;
                  Fighter.get_skill_level := fun _ => 3 |}).
  destruct (ability_cooldown_cycle (CombatManager.init hero hero)
              (final (CombatManager.use_ability "thrust"
                        (CombatManager.init hero hero)))
              "thrust"
              {| CombatManager.name := "Pchnięcie";
                 CombatManager.min_level := 3;
                 CombatManager.stamina_cost := 30;
                 CombatManager.cooldown := 3;
                 CombatManager.description :=
                   "Potężne pchnięcie zadające podwójne obrażenia" |}
              (ArUsed "Pchnięcie") 3)
    as (mk & E & G & _).
  - constructor.
  - vm_compute. discriminate.
  - reflexivity.
  - reflexivity.
  - exists mk. split; [exact E | exact G].
Defined.

(** X24.  The stamina of the manager stays between 0 and 100: from a
    stamina in that range, [use_ability] with any name and
    [update_combat_state] both end with a stamina in that range,
    whether the ability was used or refused. *)
Theorem manager_stamina_in_range (m : CombatManager.t) :
  0 <= CombatManager.player_stamina m ->
  CombatManager.player_stamina m <= 100 ->
  (forall ability_name,
      0 <= CombatManager.player_stamina
             (final (CombatManager.use_ability ability_name m))
      /\ CombatManager.player_stamina
           (final (CombatManager.use_ability ability_name m)) <= 100)
  /\ 0 <= CombatManager.player_stamina
            (final (CombatManager.update_combat_state m))
  /\ CombatManager.player_stamina
       (final (CombatManager.update_combat_state m)) <= 100.
Proof.
  intros H0 H100. split.
  - intros ability_name. unfold CombatManager.use_ability.
    rewrite bind_get_run.
    destruct (dict_get CombatManager.abilities ability_name) as [ability |] eqn:Hab;
      [| cbn; split; assumption].
    destruct (abilities_table _ _ Hab) as [_ Hcost].
    destruct (Qltb _ (CombatManager.min_level ability));
      [cbn; split; assumption |].
    destruct (Qltb_spec (CombatManager.player_stamina m)
                        (CombatManager.stamina_cost ability));
      [cbn; split; assumption |].
    destruct (dict_get (CombatManager.abilities_cooldowns m) ability_name)
      as [turns |]; [destruct (0 <? turns)%Z |]; cbn; split; lra.
  - assert (K : keeps (fun x => 0 <= CombatManager.player_stamina x
                               /\ CombatManager.player_stamina x <= 100)
                  CombatManager.update_combat_state).
    { unfold CombatManager.update_combat_state.
      apply keeps_bind.
      - apply keeps_modify. intros x [A B]. cbn. split.
        + apply py_min_glb; lra.
        + apply py_min_left.
      - intros _. apply keeps_bind_get_all. intros x.
        apply keeps_for_each. intros ability _.
        unfold CombatManager.update_cooldown.
        apply keeps_bind_get_all. intros y.
        destruct (dict_get (CombatManager.abilities_cooldowns y) ability)
          as [turns |]; [| apply keeps_raise].
        apply keeps_bind.
        + destruct (0 <? turns)%Z; [| apply keeps_ret].
          apply keeps_modify. intros z Hz. exact Hz.
        + intros _. apply keeps_bind_get_all. intros z.
          destruct (dict_get (CombatManager.abilities_cooldowns z) ability)
            as [turns' |]; [| apply keeps_raise].
          destruct (turns' <=? 0)%Z; [| apply keeps_ret].
          destruct (dict_del (CombatManager.abilities_cooldowns z) ability);
            [| apply keeps_raise].
          apply keeps_modify. intros w Hw. exact Hw. }
    exact (K m (conj H0 H100)).
Qed.

Lemma manager_stamina_in_range_witness :
  let hero := {| Fighter.name := "Hero"; Fighter.strength := 10;
                 Fighter.defense := 5; Fighter.health := 100;
                 Fighter.max_health := 100; Fighter.level := 1;
                 Fighter.get_skill_level := fun _ => 3 |} in
  0 <= CombatManager.player_stamina
         (final (CombatManager.update_combat_state
                   (CombatManager.init hero hero))).
Proof.
  cbv zeta.
  apply (manager_stamina_in_range
           (CombatManager.init
              {| Fighter.name := "Hero"; Fighter.strength := 10;
                 Fighter.defense := 5; Fighter.health := 100;
                 Fighter.max_health := 100; Fighter.level := 1;
                 Fighter.get_skill_level := fun _ => 3 |}
              {| Fighter.name := "Hero"; Fighter.strength := 10;
                 Fighter.defense := 5; Fighter.health := 100;
                 Fighter.max_health := 100; Fighter.level := 1;
                 Fighter.get_skill_level := fun _ => 3 |})).
  - vm_compute. discriminate.
  - vm_compute. discriminate.
Defined.

(** ** The inventory *)

Lemma dict_set_length_present {V : Type} (d : list (string * V)) (k : string)
    (v v0 : V) :
  dict_get d k = Some v0 -> List.length (dict_set d k v) = List.length d.
Proof.
  induction d as [| [k' v'] rest IH]; cbn; [discriminate |].
  destruct (String.eqb k' k); cbn; [reflexivity |].
  intros H. now rewrite IH.
Qed.

Lemma dict_set_absent {V : Type} (d : list (string * V)) (k : string) (v : V) :
  dict_get d k = None -> dict_set d k v = d ++ [(k, v)].
Proof.
  induction d as [| [k' v'] rest IH]; cbn; [reflexivity |].
  destruct (String.eqb k' k); [discriminate |].
  intros H. now rewrite IH.
Qed.

Lemma dict_set_same_value {V : Type} (d : list (string * V)) (k : string) (v : V) :
  dict_get d k = Some v -> dict_set d k v = d.
Proof.
  induction d as [| [k' v'] rest IH]; cbn; [discriminate |].
  destruct (String.eqb_spec k' k) as [-> | Hne].
  - intros H. now injection H as ->.
  - intros H. now rewrite IH.
Qed.

Lemma dict_set_twice {V : Type} (d : list (string * V)) (k : string) (v w : V) :
  dict_set (dict_set d k v) k w = dict_set d k w.
Proof.
  induction d as [| [k' v'] rest IH]; cbn.
  - now rewrite String.eqb_refl.
  - destruct (String.eqb_spec k' k) as [-> | Hne]; cbn.
    + now rewrite String.eqb_refl.
    + destruct (String.eqb_spec k' k); [contradiction |]. now rewrite IH.
Qed.

Lemma dict_del_appended {V : Type} (d : list (string * V)) (k : string) (v : V) :
  dict_get d k = None -> dict_del (d ++ [(k, v)]) k = Some d.
Proof.
  induction d as [| [k' v'] rest IH]; cbn.
  - now rewrite String.eqb_refl.
  - destruct (String.eqb k' k); [discriminate |].
    intros H. now rewrite IH.
Qed.

Lemma dict_del_length {V : Type} (d d' : list (string * V)) (k : string) :
  dict_del d k = Some d' -> (List.length d' <= List.length d)%nat.
Proof.
  revert d'. induction d as [| [k' v'] rest IH]; intros d'; cbn; [discriminate |].
  destruct (String.eqb k' k).
  - intros H. injection H as <-. lia.
  - destruct (dict_del rest k) as [r |]; [| discriminate].
    intros H. injection H as <-. cbn. specialize (IH r eq_refl). lia.
Qed.

Lemma dict_del_present {V : Type} (d : list (string * V)) (k : string) (v : V) :
  dict_get d k = Some v ->
  exists d', dict_del d k = Some d' /\ List.length d = S (List.length d').
Proof.
  induction d as [| [k' v'] rest IH]; cbn; [discriminate |].
  destruct (String.eqb k' k).
  - intros _. exists rest. split; reflexivity.
  - intros H. destruct (IH H) as (d' & -> & L).
    exists ((k', v') :: d'). split; [reflexivity |]. cbn. now rewrite L.
Qed.

Lemma add_item_run (s : inventory_py.Inventory.t) (item_id : string) (quantity : Z) :
  inventory_py.Inventory.add_item item_id quantity s
  = if inventory_py.Inventory.can_add_item s item_id then
      match known_item s item_id with
      | Some i => Ok (stored s item_id quantity)
                    (true, IrAdded quantity (Item.name i))
      | None => Raise (stored s item_id quantity) AttributeError
      end
    else Ok s (false, IrFull).
Proof.
  unfold inventory_py.Inventory.add_item, inventory_py.Inventory.can_add_item, known_item, stored.
  rewrite bind_get_run. unfold inventory_py.Inventory.owns.
  destruct (dict_get (inventory_py.Inventory.items s) item_id) as [q |] eqn:G; cbn [negb].
  - rewrite andb_false_r, orb_true_r.
    unfold bind, modify, inventory_py.Inventory.get_item, get. cbn.
    destruct (inventory_py.Inventory.item_manager s) as [im |]; [| reflexivity].
    destruct (ItemManager.get_item im item_id); reflexivity.
  - rewrite andb_true_r, orb_false_r.
    destruct (inventory_py.Inventory.capacity s <=? Z.of_nat (List.length (inventory_py.Inventory.items s)))%Z eqn:E1;
      destruct (Z.of_nat (List.length (inventory_py.Inventory.items s)) <? inventory_py.Inventory.capacity s)%Z eqn:E2;
      zbool; try (exfalso; lia); [reflexivity |].
    unfold bind, modify, inventory_py.Inventory.get_item, get. cbn.
    destruct (inventory_py.Inventory.item_manager s) as [im |]; [| reflexivity].
    destruct (ItemManager.get_item im item_id); reflexivity.
Qed.

Lemma remove_item_run (s : inventory_py.Inventory.t) (item_id : string) (quantity : Z) :
  inventory_py.Inventory.remove_item item_id quantity s
  = match dict_get (inventory_py.Inventory.items s) item_id with
    | None => Ok s (false, IrNotFound)
    | Some q =>
        if (q <? quantity)%Z then Ok s (false, IrNotEnough)
        else
          match inventory_py.Inventory.item_manager s with
          | None => Raise s AttributeError
          | Some im =>
              match ItemManager.get_item im item_id with
              | Some i => Ok (taken s item_id q quantity)
                            (true, IrRemoved (Item.name i))
              | None => Raise (taken s item_id q quantity) AttributeError
              end
          end
    end.
Proof.
  unfold inventory_py.Inventory.remove_item, taken. rewrite bind_get_run.
  destruct (dict_get (inventory_py.Inventory.items s) item_id) as [q |] eqn:G;
    [| reflexivity].
  destruct (q <? quantity)%Z; [reflexivity |].
  unfold bind at 1. unfold inventory_py.Inventory.get_item. rewrite bind_get_run.
  destruct (inventory_py.Inventory.item_manager s) as [im |]; [| reflexivity].
  cbn [ret]. unfold bind at 1. cbn [modify]. rewrite bind_get_run.
  cbn [inventory_py.Inventory.items inventory_py.Inventory.set_items].
  destruct (q - quantity <=? 0)%Z.
  - destruct (dict_del_present _ _ _ (dict_get_set_same (inventory_py.Inventory.items s)
                                        item_id (q - quantity)%Z))
      as (d' & D & _).
    assert (D0 : dict_del (inventory_py.Inventory.items s) item_id = Some d').
    { clear - D G. revert d' D.
      induction (inventory_py.Inventory.items s) as [| [k v] rest IH]; intros d' D;
        cbn in *; [discriminate |].
      destruct (String.eqb_spec k item_id) as [-> | Hne]; cbn in D.
      - rewrite String.eqb_refl in D. exact D.
      - destruct (String.eqb_spec k item_id); [contradiction |].
        destruct (dict_del (dict_set rest item_id (q - quantity)%Z) item_id)
          as [r |] eqn:R; [| discriminate].
        injection D as <-. now rewrite (IH G r eq_refl). }
    rewrite D, D0. unfold bind, modify. cbn.
    destruct (ItemManager.get_item im item_id); reflexivity.
  - unfold bind. cbn.
    destruct (ItemManager.get_item im item_id); reflexivity.
Qed.

Lemma dict_get_del_same {V : Type} (d d' : list (string * V)) (k : string) :
  NoDup (map fst d) -> dict_del d k = Some d' -> dict_get d' k = None.
Proof.
  revert d'. induction d as [| [k' v'] rest IH]; intros d' N; cbn;
    [discriminate |].
  inversion N as [| ? ? Hin N']; subst.
  destruct (String.eqb_spec k' k) as [-> | Hne].
  - intros H. injection H as <-.
    destruct (dict_get rest k) as [v |] eqn:G; [| reflexivity].
    exfalso. apply Hin. cbn. clear - G.
    induction rest as [| [a b] r IHr]; cbn in *; [discriminate |].
    destruct (String.eqb_spec a k) as [-> | ?]; [now left | right; auto].
  - destruct (dict_del rest k) as [r |] eqn:D; [| discriminate].
    intros H. injection H as <-. cbn.
    destruct (String.eqb_spec k' k); [contradiction |]. now apply IH.
Qed.

(** X25. An inventory that holds no more kinds of item than its
    capacity still does after [add_item] and after [remove_item],
    whether the call returns or raises, and neither changes the
    capacity. *)
Theorem inventory_within_capacity (s : inventory_py.Inventory.t) (item_id : string)
    (quantity : Z) :
  within_capacity s ->
  within_capacity (final (inventory_py.Inventory.add_item item_id quantity s))
  /\ within_capacity (final (inventory_py.Inventory.remove_item item_id quantity s))
  /\ inventory_py.Inventory.capacity (final (inventory_py.Inventory.add_item item_id quantity s))
     = inventory_py.Inventory.capacity s
  /\ inventory_py.Inventory.capacity (final (inventory_py.Inventory.remove_item item_id quantity s))
     = inventory_py.Inventory.capacity s.
Proof.
  intros W. unfold within_capacity in *.
  rewrite add_item_run, remove_item_run.
  assert (Hstored : inventory_py.Inventory.can_add_item s item_id = true ->
            (Z.of_nat (List.length (inventory_py.Inventory.items (stored s item_id quantity)))
             <= inventory_py.Inventory.capacity s)%Z).
  { unfold inventory_py.Inventory.can_add_item, inventory_py.Inventory.owns, stored.
    cbn [inventory_py.Inventory.items inventory_py.Inventory.set_items].
    destruct (dict_get (inventory_py.Inventory.items s) item_id) as [q |] eqn:G.
    - intros _. now rewrite (dict_set_length_present _ _ _ _ G).
    - rewrite orb_false_r. intros L. zbool.
      rewrite (dict_set_absent _ _ _ G), length_app. cbn. lia. }
  assert (Htaken : forall q, dict_get (inventory_py.Inventory.items s) item_id = Some q ->
            (Z.of_nat (List.length (inventory_py.Inventory.items (taken s item_id q quantity)))
             <= inventory_py.Inventory.capacity s)%Z).
  { intros q G. unfold taken. cbn [inventory_py.Inventory.items inventory_py.Inventory.set_items].
    destruct (q - quantity <=? 0)%Z.
    - destruct (dict_del (inventory_py.Inventory.items s) item_id) as [d |] eqn:D;
        [| exact W].
      pose proof (dict_del_length _ _ _ D). lia.
    - now rewrite (dict_set_length_present _ _ _ _ G). }
  repeat split.
  - destruct (inventory_py.Inventory.can_add_item s item_id) eqn:C; [| exact W].
    destruct (known_item s item_id); cbn [final]; now apply Hstored.
  - destruct (dict_get (inventory_py.Inventory.items s) item_id) as [q |] eqn:G;
      [| exact W].
    destruct (q <? quantity)%Z; [exact W |].
    destruct (inventory_py.Inventory.item_manager s) as [im |]; [| exact W].
    destruct (ItemManager.get_item im item_id); cbn [final];
      now apply Htaken.
  - destruct (inventory_py.Inventory.can_add_item s item_id); [| reflexivity].
    destruct (known_item s item_id); reflexivity.
  - destruct (dict_get (inventory_py.Inventory.items s) item_id) as [q |];
      [| reflexivity].
    destruct (q <? quantity)%Z; [reflexivity |].
    destruct (inventory_py.Inventory.item_manager s) as [im |]; [| reflexivity].
    destruct (ItemManager.get_item im item_id); reflexivity.
Qed.

Lemma inventory_within_capacity_witness :
  within_capacity InventoryScenario.bag
  /\ within_capacity
       (final (inventory_py.Inventory.add_item "potion" 2 InventoryScenario.bag)).
Proof.
  assert (W : within_capacity InventoryScenario.bag)
    by (unfold within_capacity; cbn; lia).
  split; [exact W |].
  exact (proj1 (inventory_within_capacity InventoryScenario.bag "potion" 2 W)).
Defined.

(** X26. [add_item] writes the quantity before it looks the item up:
    when there is room and the manager is unset or does not know the
    identifier, the call raises [AttributeError] and the inventory
    nevertheless holds the added quantity. *)
Theorem add_item_stores_before_lookup (s : inventory_py.Inventory.t) (item_id : string)
    (quantity : Z) :
  inventory_py.Inventory.can_add_item s item_id = true ->
  known_item s item_id = None ->
  exists s',
    inventory_py.Inventory.add_item item_id quantity s = Raise s' AttributeError
    /\ held s' item_id
       = Some (match held s item_id with
               | Some q => (q + quantity)%Z
               | None => quantity
               end).
Proof.
  intros C K. rewrite add_item_run, C, K.
  exists (stored s item_id quantity). split; [reflexivity |].
  unfold held, stored. cbn [inventory_py.Inventory.items inventory_py.Inventory.set_items].
  apply dict_get_set_same.
Qed.

Lemma add_item_stores_before_lookup_witness :
  exists s',
    inventory_py.Inventory.add_item "potion" 2 InventoryScenario.loose_bag
    = Raise s' AttributeError
    /\ held s' "potion" = Some 2%Z.
Proof.
  exact (add_item_stores_before_lookup InventoryScenario.loose_bag "potion" 2
           eq_refl eq_refl).
Defined.

(** X27. Adding a quantity of an item that the manager knows and
    removing the same quantity again gives back the inventory as it
    was, when the item was not held or was held in a positive
    quantity. *)
Theorem add_then_remove_restores (s : inventory_py.Inventory.t) (item_id : string)
    (quantity : Z) (i : Item.t) :
  inventory_py.Inventory.can_add_item s item_id = true ->
  known_item s item_id = Some i ->
  match held s item_id with
  | Some q => (0 < q)%Z
  | None => True
  end ->
  (inventory_py.Inventory.add_item item_id quantity ;;;
   inventory_py.Inventory.remove_item item_id quantity)%py s
  = Ok s (true, IrRemoved (Item.name i)).
Proof.
  intros C K H. unfold bind at 1. rewrite add_item_run, C, K.
  rewrite remove_item_run.
  assert (Km : known_item (stored s item_id quantity) item_id = Some i)
    by exact K.
  unfold known_item in Km.
  destruct (inventory_py.Inventory.item_manager (stored s item_id quantity)) as [im |];
    [| discriminate].
  rewrite Km. unfold held in H. unfold stored at 1.
  cbn [inventory_py.Inventory.items inventory_py.Inventory.set_items]. rewrite dict_get_set_same.
  assert (E : forall d, inventory_py.Inventory.set_items d (stored s item_id quantity)
                        = inventory_py.Inventory.set_items d s) by reflexivity.
  destruct (dict_get (inventory_py.Inventory.items s) item_id) as [q |] eqn:G.
  - replace (q + quantity <? quantity)%Z with false
      by (symmetry; apply Z.ltb_ge; lia).
    unfold taken. rewrite E. cbn [stored inventory_py.Inventory.items inventory_py.Inventory.set_items].
    replace (q + quantity - quantity)%Z with q by lia.
    replace (q <=? 0)%Z with false by (symmetry; apply Z.leb_gt; lia).
    rewrite dict_set_twice, (dict_set_same_value _ _ _ G).
    destruct s; reflexivity.
  - rewrite Z.ltb_irrefl. unfold taken. rewrite E.
    cbn [stored inventory_py.Inventory.items inventory_py.Inventory.set_items].
    rewrite Z.sub_diag. cbn [Z.leb Z.compare].
    rewrite (dict_set_absent _ _ _ G), (dict_del_appended _ _ _ G).
    destruct s; reflexivity.
Qed.

Lemma add_then_remove_restores_witness :
  (inventory_py.Inventory.add_item "potion" 2 ;;; inventory_py.Inventory.remove_item "potion" 2)%py
    InventoryScenario.bag
  = Ok InventoryScenario.bag (true, IrRemoved "Mikstura").
Proof.
  apply (add_then_remove_restores InventoryScenario.bag "potion" 2
           InventoryScenario.potion); [reflexivity | reflexivity | cbn; lia].
Defined.

Lemma on_inventory_run {A : Type} (m : M inventory_py.Inventory.t A) (s : inventory_py.Inventory.St) :
  inventory_py.Inventory.on_inventory m s
  = match m (fst s) with
    | Ok i a => Ok (i, snd s) a
    | Raise i e => Raise (i, snd s) e
    end.
Proof. reflexivity. Qed.

Lemma get_item_run (s : inventory_py.Inventory.t) (item_id : string) :
  inventory_py.Inventory.get_item item_id s
  = match inventory_py.Inventory.item_manager s with
    | Some im => Ok s (ItemManager.get_item im item_id)
    | None => Raise s AttributeError
    end.
Proof.
  unfold inventory_py.Inventory.get_item. rewrite bind_get_run.
  now destruct (inventory_py.Inventory.item_manager s).
Qed.

(** The state in which [use_item] calls [remove_item], and what the
    call makes of a consumable item that heals. *)
Lemma use_item_healing_run (s : inventory_py.Inventory.t) (player : Fighter.t)
    (item_id : string) (i : Item.t) (q : Z) (healing : Q) :
  held s item_id = Some q ->
  known_item s item_id = Some i ->
  Item.type i = "konsumpcyjny"%string ->
  dict_get (Item.properties i) "healing" = Some healing ->
  Qeq_bool (Fighter.health player) (Fighter.max_health player) = false ->
  inventory_py.Inventory.use_item item_id (s, player)
  = let healed :=
      Fighter.set_health
        (py_min (Fighter.max_health player) (Fighter.health player + healing))
        player in
    if (q <? 1)%Z then Ok (s, healed) (false, IrCannotUse)
    else Ok (taken s item_id q 1, healed) (true, IrUsed (Item.name i) healing).
Proof.
  intros H K T P F. unfold inventory_py.Inventory.use_item. rewrite bind_get_run.
  unfold held in H. unfold inventory_py.Inventory.owns. cbn [fst snd]. rewrite H.
  cbn [negb]. unfold bind at 1. rewrite on_inventory_run, get_item_run.
  cbn [fst snd]. unfold known_item in K.
  destruct (inventory_py.Inventory.item_manager s) as [im |] eqn:IM; [| discriminate].
  rewrite K, T. cbn [String.eqb Ascii.eqb Bool.eqb]. rewrite P, F.
  unfold bind at 1. cbn [modify fst snd]. unfold bind at 1.
  rewrite on_inventory_run. cbn [fst snd]. rewrite remove_item_run, H, IM, K.
  destruct (q <? 1)%Z; reflexivity.
Qed.

(** X28. Using a consumable healing item of which at least one piece
    is held, by a player who is not at full health, succeeds: the
    player's health rises by the healing, capped at the maximum, and
    one piece leaves the inventory, the key with the last one. *)
Theorem use_item_heals_and_consumes (s : inventory_py.Inventory.t) (player : Fighter.t)
    (item_id : string) (i : Item.t) (q : Z) (healing : Q) :
  NoDup (map fst (inventory_py.Inventory.items s)) ->
  held s item_id = Some q ->
  (1 <= q)%Z ->
  known_item s item_id = Some i ->
  Item.type i = "konsumpcyjny"%string ->
  dict_get (Item.properties i) "healing" = Some healing ->
  ~ Fighter.health player == Fighter.max_health player ->
  exists s',
    inventory_py.Inventory.use_item item_id (s, player)
    = Ok (s', Fighter.set_health
                (py_min (Fighter.max_health player)
                   (Fighter.health player + healing))
                player)
         (true, IrUsed (Item.name i) healing)
    /\ held s' item_id = (if (q =? 1)%Z then None else Some (q - 1)%Z)
    /\ inventory_py.Inventory.capacity s' = inventory_py.Inventory.capacity s.
Proof.
  intros N H Q1 K T P F.
  assert (F' : Qeq_bool (Fighter.health player) (Fighter.max_health player)
               = false).
  { destruct (Qeq_bool _ _) eqn:E; [| reflexivity].
    exfalso. apply F. now apply Qeq_bool_eq. }
  rewrite (use_item_healing_run s player item_id i q healing H K T P F').
  cbv zeta. replace (q <? 1)%Z with false by (symmetry; apply Z.ltb_ge; lia).
  exists (taken s item_id q 1). split; [reflexivity |].
  split; [| reflexivity].
  unfold held, taken in *. cbn [inventory_py.Inventory.items inventory_py.Inventory.set_items].
  destruct (Z.eqb_spec q 1) as [-> | Hne].
  - cbn [Z.sub Z.opp Z.add Z.pos_sub Z.leb Z.compare].
    destruct (dict_del_present _ _ _ H) as (d' & D & _). rewrite D.
    exact (dict_get_del_same _ _ _ N D).
  - replace (q - 1 <=? 0)%Z with false by (symmetry; apply Z.leb_gt; lia).
    apply dict_get_set_same.
Qed.

Lemma use_item_heals_and_consumes_witness :
  exists s',
    inventory_py.Inventory.use_item "potion" (InventoryScenario.bag, InventoryScenario.hero)
    = Ok (s', Fighter.set_health (py_min 100 (50 + 20)) InventoryScenario.hero)
         (true, IrUsed "Mikstura" 20)
    /\ held s' "potion" = Some 2%Z
    /\ inventory_py.Inventory.capacity s' = 2%Z.
Proof.
  refine (use_item_heals_and_consumes InventoryScenario.bag
            InventoryScenario.hero "potion" InventoryScenario.potion 3 20
            _ eq_refl _ eq_refl eq_refl eq_refl _).
  - cbn. repeat constructor; cbn; intuition discriminate.
  - lia.
  - cbn. intros E. discriminate E.
Defined.

(** X29. A held key whose quantity is not positive heals for free:
    [use_item] raises the player's health before [remove_item]
    refuses, so the call answers that the item cannot be used, the
    inventory is as it was and the player is healed. *)
Theorem use_item_heals_without_consuming (s : inventory_py.Inventory.t)
    (player : Fighter.t) (item_id : string) (i : Item.t) (q : Z)
    (healing : Q) :
  held s item_id = Some q ->
  (q <= 0)%Z ->
  known_item s item_id = Some i ->
  Item.type i = "konsumpcyjny"%string ->
  dict_get (Item.properties i) "healing" = Some healing ->
  ~ Fighter.health player == Fighter.max_health player ->
  inventory_py.Inventory.use_item item_id (s, player)
  = Ok (s, Fighter.set_health
             (py_min (Fighter.max_health player)
                (Fighter.health player + healing))
             player)
       (false, IrCannotUse).
Proof.
  intros H Q0 K T P F.
  assert (F' : Qeq_bool (Fighter.health player) (Fighter.max_health player)
               = false).
  { destruct (Qeq_bool _ _) eqn:E; [| reflexivity].
    exfalso. apply F. now apply Qeq_bool_eq. }
  rewrite (use_item_healing_run s player item_id i q healing H K T P F').
  cbv zeta. now replace (q <? 1)%Z with true by (symmetry; apply Z.ltb_lt; lia).
Qed.

Lemma use_item_heals_without_consuming_witness :
  inventory_py.Inventory.use_item "potion"
    (final (inventory_py.Inventory.add_item "potion" 0
              (final (inventory_py.Inventory.set_item_manager (Some InventoryScenario.shop)
                        InventoryScenario.loose_bag))),
     InventoryScenario.hero)
  = Ok (final (inventory_py.Inventory.add_item "potion" 0
                 (final (inventory_py.Inventory.set_item_manager
                           (Some InventoryScenario.shop)
                           InventoryScenario.loose_bag))),
        Fighter.set_health (py_min 100 (50 + 20)) InventoryScenario.hero)
       (false, IrCannotUse).
Proof.
  refine (use_item_heals_without_consuming
            (final (inventory_py.Inventory.add_item "potion" 0
                      (final (inventory_py.Inventory.set_item_manager
                                (Some InventoryScenario.shop)
                                InventoryScenario.loose_bag))))
            InventoryScenario.hero "potion"
            InventoryScenario.potion 0 20 eq_refl _ eq_refl eq_refl eq_refl _).
  - lia.
  - cbn. intros E. discriminate E.
Defined.

(** X30. [equip_item] never equips anything: it reads the attribute
    [equipped], which the class does not have, so an owned weapon or
    armour raises [AttributeError]; every answer it does give is a
    refusal, and neither the inventory nor the player changes. *)
Theorem equip_item_never_equips (item_id : string) (st : inventory_py.Inventory.St) :
  final (inventory_py.Inventory.equip_item item_id st) = st
  /\ (forall st' r, inventory_py.Inventory.equip_item item_id st = Ok st' r ->
                    fst r = false)
  /\ (forall i, held (fst st) item_id <> None ->
                known_item (fst st) item_id = Some i ->
                (Item.type i = "broń"%string \/ Item.type i = "zbroja"%string) ->
                inventory_py.Inventory.equip_item item_id st = Raise st AttributeError).
Proof.
  unfold inventory_py.Inventory.equip_item. rewrite bind_get_run.
  unfold inventory_py.Inventory.owns, held, known_item.
  destruct st as [s player]. cbn [fst snd].
  destruct (dict_get (inventory_py.Inventory.items s) item_id) as [q |]; cbn [negb].
  - unfold bind. rewrite on_inventory_run, get_item_run. cbn [fst snd].
    destruct (inventory_py.Inventory.item_manager s) as [im |].
    + destruct (ItemManager.get_item im item_id) as [i |].
      * destruct (String.eqb_spec (Item.type i) "broń") as [E1 | E1];
          destruct (String.eqb_spec (Item.type i) "zbroja") as [E2 | E2];
          cbn [orb negb raise ret final];
          (split; [reflexivity |]; split;
           [intros st' r E; first [discriminate E | now injection E as <- <-]
           | intros i' _ Ei [T | T]; injection Ei as <-;
             first [reflexivity | contradiction]]).
      * cbn. split; [reflexivity |]. split; [discriminate |].
        intros i _ E. discriminate E.
    + cbn. split; [reflexivity |]. split; [discriminate |].
      intros i _ E. discriminate E.
  - cbn. split; [reflexivity |]. split.
    + intros st' r E. now injection E as <- <-.
    + intros i H. now contradiction H.
Qed.
